(** * The rule-based ASL fingerspelling classifier of [asl-app/model.py]

    A shallow embedding of [GestureRecognizer]: the landmark geometry
    ([_get_distance], [_is_finger_closed]), the table of 26 letter rules
    built by [_init_classifier], the confidence scorer
    ([_get_gesture_confidence]), the selector ([_recognize_gesture]) and the
    acceptance gate of [process_frame]; then the heuristic recognizer of
    [sign_language_model.py] and the database routes of [app.py].

    Coordinates are Python floats, that is IEEE 754 binary64 numbers; they
    are modelled by Rocq's primitive floats, which are the same format with
    the same correctly rounded addition, subtraction, multiplication and
    square root.  Two things the code calls are not in the repository and
    are not fixed by a standard: the C library's [pow], to which CPython
    hands [v ** 2], and MediaPipe's [draw_landmarks].  They are parameters
    of the development ([libm_pow2], [draw_landmarks]): what is proved
    holds for every C library and every MediaPipe, and the examples at the
    end run with one of each.  Python exceptions are modelled by an error
    monad;
    every exception the code can meet is a subclass of [Exception], which
    is what the [except] clauses of the source catch. *)

From Stdlib Require Import String.
From Stdlib Require Import Floats List ZArith Lia Bool Arith Permutation.
Import ListNotations.

Set Warnings "-inexact-float".

Local Open Scope float_scope.
Local Open Scope nat_scope.
Local Open Scope list_scope.

(** ** Exceptions and the error monad *)

Inductive exn : Type :=
| IndexError      (* [landmarks[i]] with [i] out of range *)
| AttributeError  (* a point without the coordinate that is read *)
| OverflowError   (* [v ** 2] when the square of [v] is out of range *)
| KeyError        (* [mapping[key]] without the key *)
| ValueError.     (* what MediaPipe raises on a hand it cannot draw *)

Inductive res (A : Type) : Type :=
| Ok (a : A)
| Raise (e : exn).

Arguments Ok {A} a.
Arguments Raise {A} e.

Definition bind {A B : Type} (m : res A) (k : A -> res B) : res B :=
  match m with
  | Ok a => k a
  | Raise e => Raise e
  end.

Notation "v <- m ;; k" := (bind m (fun v => k))
  (at level 61, m at next level, right associativity).

(** [try: body / except Exception: handler]. *)
Definition try_except {A : Type} (body : res A) (handler : exn -> A) : A :=
  match body with
  | Ok a => a
  | Raise e => handler e
  end.

Definition raises {A : Type} (m : res A) : bool :=
  match m with
  | Ok _ => false
  | Raise _ => true
  end.

(** A boolean computation that ran to completion and answered [True]. *)
Definition holds (m : res bool) : bool :=
  match m with
  | Ok true => true
  | _ => false
  end.

(** ** Python operators on floats and booleans *)

(** [a and b]: [b] is evaluated only when [a] is true. *)
Definition py_and (a b : res bool) : res bool :=
  va <- a ;; if va then b else Ok false.

Definition py_not (a : res bool) : res bool :=
  va <- a ;; Ok (negb va).

Infix "&&&" := py_and (at level 40, left associativity).

(** [a < b] and [a > b], the left operand evaluated first. *)
Definition py_lt (a b : res float) : res bool :=
  va <- a ;; vb <- b ;; Ok (va <? vb)%float.

Definition py_gt (a b : res float) : res bool :=
  va <- a ;; vb <- b ;; Ok (vb <? va)%float.

(** The builtins [min(a, b)] and [max(a, b)]: the first argument is kept
    unless the second is strictly smaller (resp. larger). *)
Definition py_min (a b : float) : float := if (b <? a)%float then b else a.
Definition py_max (a b : float) : float := if (a <? b)%float then b else a.

(** ** Data model *)

(** A landmark is an object with attributes [x], [y], [z]; an attribute
    that is absent is [None]. *)
Record Landmark : Type := mkLandmark {
  x : option float;
  y : option float;
  z : option float
}.

Definition Landmarks : Type := list Landmark.

(** A well-formed point. *)
Definition point (a b c : float) : Landmark :=
  mkLandmark (Some a) (Some b) (Some c).

(** [p.x], [p.y], [p.z]. *)
Definition attr (f : Landmark -> option float) (p : Landmark) : res float :=
  match f p with
  | Some v => Ok v
  | None => Raise AttributeError
  end.

(** [landmarks[i]]. *)
Definition item (landmarks : Landmarks) (i : nat) : res Landmark :=
  match nth_error landmarks i with
  | Some p => Ok p
  | None => Raise IndexError
  end.

(** [landmarks[i].f]. *)
Definition coord (landmarks : Landmarks) (i : nat)
    (f : Landmark -> option float) : res float :=
  p <- item landmarks i ;; attr f p.

Definition has_coords (p : Landmark) : bool :=
  match x p, y p, z p with
  | Some _, Some _, Some _ => true
  | _, _, _ => false
  end.

(** The input contract of the engine: exactly 21 landmarks, each with its
    three coordinates. *)
Definition is_hand21 (landmarks : Landmarks) : bool :=
  (length landmarks =? 21) && forallb has_coords landmarks.

(** ** The rows of the database of [models_db.py]

    The tables are lists of rows in the order the queries return them; the
    primary keys come from a counter per table.  The timestamps
    ([created_at], [last_practiced]) are left out. *)

Module Gesture.
Record t : Type := make {
  id : Z;
  name : string;
  description : string;
  difficulty_level : Z
}.
End Gesture.

Module User.
Record t : Type := make {
  id : Z;
  username : string;
  email : string
}.
End User.

Module RecognitionSession.
Record t : Type := make {
  id : Z;
  user_id : option Z;
  gesture_id : Z;
  success : bool;
  confidence : float;
  duration_ms : Z
}.
End RecognitionSession.

Module PracticeProgress.
Record t : Type := make {
  id : Z;
  user_id : Z;
  gesture_id : Z;
  proficiency_level : Z;
  times_practiced : Z
}.
End PracticeProgress.

Module Database.
Record t : Type := make {
  gestures : list Gesture.t;
  users : list User.t;
  recognition_sessions : list RecognitionSession.t;
  practice_progress : list PracticeProgress.t;
  next_gesture_id : Z;
  next_user_id : Z;
  next_session_id : Z;
  next_progress_id : Z
}.
End Database.

(** ** The libraries, for the examples

    A C library whose [pow(a, 2.0)] is the correctly rounded square and
    that leaves [errno] alone, and a MediaPipe that draws every hand of 21
    well-formed landmarks and refuses any other. *)
Definition rounded_square (a : float) : float * bool :=
  ((a * a)%float, false).

Definition draw_hand21 (hand_landmarks : Landmarks) : res unit :=
  if is_hand21 hand_landmarks then Ok tt else Raise ValueError.

Section Libraries.

(** [libm_pow2 a] is what the C library's [pow(a, 2.0)] returns, and
    whether it has set [errno] to [ERANGE]; CPython calls it on a finite
    [a] that is positive and not 1. *)
Variable libm_pow2 : float -> float * bool.

(** [self.mp_drawing.draw_landmarks(image, hand_landmarks, ...)] with the
    hand connections and the default styles: it returns nothing, or
    raises. *)
Variable draw_landmarks : Landmarks -> res unit.

(** A lemma depends on a library only when its statement names it. *)
Set Default Proof Using "Type".

(** ** Squares *)

(** [v ** 2] on a Python float is CPython's [float_pow] with the exponent
    2.0: a NaN is returned as it is, an infinity gives [+inf], a zero gives
    [0.0]; a negative [v] is replaced by [-v]; 1 gives 1.0; any other [v]
    goes to the C library's [pow].  A range error raises [OverflowError]:
    there is one when the library has set [errno] and the result is not
    zero, or when it has not and the result is infinite. *)
Definition pow2 (v : float) : res float :=
  if is_nan v then Ok v
  else if is_infinity v then Ok (abs v)
  else if is_zero v then Ok 0%float
  else
    let iv := abs v in
    if (iv =? 1)%float then Ok 1%float
    else
      let '(ix, errno_is_erange) := libm_pow2 iv in
      let range_error :=
        if errno_is_erange then negb (is_zero ix) else is_infinity ix in
      if range_error then Raise OverflowError else Ok ix.

(** ** Landmark geometry *)

Definition _get_distance (landmark1 landmark2 : Landmark) : res float :=
  x1 <- attr x landmark1 ;; x2 <- attr x landmark2 ;;
  sx <- pow2 (x1 - x2)%float ;;
  y1 <- attr y landmark1 ;; y2 <- attr y landmark2 ;;
  sy <- pow2 (y1 - y2)%float ;;
  z1 <- attr z landmark1 ;; z2 <- attr z landmark2 ;;
  sz <- pow2 (z1 - z2)%float ;;
  Ok (sqrt (sx + sy + sz))%float.

(** [self._get_distance(landmarks[i], landmarks[j])]. *)
Definition distance_between (landmarks : Landmarks) (i j : nat) : res float :=
  p <- item landmarks i ;; q <- item landmarks j ;; _get_distance p q.

Definition _is_finger_closed (landmarks : Landmarks) (finger_idx : nat)
    : res bool :=
  if finger_idx =? 0 then
    py_gt (coord landmarks 3 y) (coord landmarks 4 y)
  else
    let base_idx := finger_idx * 4 + 1 in
    let middle_idx := finger_idx * 4 + 2 in
    let tip_idx := finger_idx * 4 + 3 in
    base_to_middle <- distance_between landmarks base_idx middle_idx ;;
    middle_to_tip <- distance_between landmarks middle_idx tip_idx ;;
    base_to_tip <- distance_between landmarks base_idx tip_idx ;;
    Ok (base_to_tip <? (base_to_middle + middle_to_tip) * 0.7)%float.

(** ** The rule table *)

Definition Rule : Type := Landmarks -> res bool.

Definition closed (landmarks : Landmarks) (i : nat) : res bool :=
  _is_finger_closed landmarks i.

Definition opened (landmarks : Landmarks) (i : nat) : res bool :=
  py_not (_is_finger_closed landmarks i).

(** [self.rules]: a dictionary, iterated in insertion order. *)
Definition _init_classifier : list (nat * Rule) :=
  [ (* A *)
    (0, fun landmarks =>
       closed landmarks 1 &&& closed landmarks 2 &&& closed landmarks 3 &&&
       closed landmarks 4 &&& opened landmarks 0);
    (* B *)
    (1, fun landmarks =>
       opened landmarks 1 &&& opened landmarks 2 &&& opened landmarks 3 &&&
       opened landmarks 4);
    (* C *)
    (2, fun landmarks =>
       py_lt (distance_between landmarks 4 8) (Ok 0.1%float) &&&
       opened landmarks 1 &&& opened landmarks 2 &&& opened landmarks 3 &&&
       opened landmarks 4);
    (* D *)
    (3, fun landmarks =>
       opened landmarks 1 &&& closed landmarks 2 &&& closed landmarks 3 &&&
       closed landmarks 4);
    (* E *)
    (4, fun landmarks =>
       closed landmarks 1 &&& closed landmarks 2 &&& closed landmarks 3 &&&
       closed landmarks 4);
    (* F *)
    (5, fun landmarks =>
       py_lt (distance_between landmarks 4 8) (Ok 0.05%float) &&&
       opened landmarks 2 &&& opened landmarks 3 &&& opened landmarks 4);
    (* G *)
    (6, fun landmarks =>
       opened landmarks 1 &&& closed landmarks 2 &&& closed landmarks 3 &&&
       closed landmarks 4 &&& opened landmarks 0);
    (* H *)
    (7, fun landmarks =>
       opened landmarks 1 &&& opened landmarks 2 &&& closed landmarks 3 &&&
       closed landmarks 4);
    (* I *)
    (8, fun landmarks =>
       closed landmarks 1 &&& closed landmarks 2 &&& closed landmarks 3 &&&
       opened landmarks 4);
    (* J *)
    (9, fun landmarks =>
       closed landmarks 1 &&& closed landmarks 2 &&& closed landmarks 3 &&&
       opened landmarks 4);
    (* K *)
    (10, fun landmarks =>
       opened landmarks 1 &&& opened landmarks 2 &&& closed landmarks 3 &&&
       closed landmarks 4 &&&
       py_lt (distance_between landmarks 4 10) (Ok 0.1%float));
    (* L *)
    (11, fun landmarks =>
       opened landmarks 1 &&& closed landmarks 2 &&& closed landmarks 3 &&&
       closed landmarks 4 &&&
       py_gt (coord landmarks 4 x) (coord landmarks 3 x));
    (* M *)
    (12, fun landmarks =>
       closed landmarks 1 &&& closed landmarks 2 &&& closed landmarks 3 &&&
       py_lt (coord landmarks 4 x) (coord landmarks 5 x));
    (* N *)
    (13, fun landmarks =>
       closed landmarks 1 &&& closed landmarks 2 &&& closed landmarks 3 &&&
       closed landmarks 4 &&&
       py_lt (coord landmarks 4 x) (coord landmarks 9 x));
    (* O *)
    (14, fun landmarks =>
       py_lt (distance_between landmarks 4 8) (Ok 0.08%float));
    (* P *)
    (15, fun landmarks =>
       opened landmarks 1 &&& closed landmarks 2 &&& closed landmarks 3 &&&
       closed landmarks 4 &&&
       py_gt (coord landmarks 8 y) (coord landmarks 5 y));
    (* Q *)
    (16, fun landmarks =>
       opened landmarks 1 &&& closed landmarks 2 &&& closed landmarks 3 &&&
       opened landmarks 4 &&&
       py_gt (coord landmarks 8 y) (coord landmarks 5 y));
    (* R *)
    (17, fun landmarks =>
       opened landmarks 1 &&& opened landmarks 2 &&& closed landmarks 3 &&&
       closed landmarks 4 &&&
       py_lt (distance_between landmarks 8 12) (Ok 0.1%float));
    (* S *)
    (18, fun landmarks =>
       closed landmarks 1 &&& closed landmarks 2 &&& closed landmarks 3 &&&
       closed landmarks 4 &&&
       py_lt (coord landmarks 4 z) (coord landmarks 8 z));
    (* T *)
    (19, fun landmarks =>
       closed landmarks 1 &&& closed landmarks 2 &&& closed landmarks 3 &&&
       closed landmarks 4 &&&
       py_gt (coord landmarks 4 x) (coord landmarks 6 x) &&&
       py_lt (coord landmarks 4 x) (coord landmarks 10 x));
    (* U *)
    (20, fun landmarks =>
       opened landmarks 1 &&& opened landmarks 2 &&& closed landmarks 3 &&&
       closed landmarks 4 &&&
       py_lt (distance_between landmarks 8 12) (Ok 0.15%float));
    (* V *)
    (21, fun landmarks =>
       opened landmarks 1 &&& opened landmarks 2 &&& closed landmarks 3 &&&
       closed landmarks 4 &&&
       py_gt (distance_between landmarks 8 12) (Ok 0.15%float));
    (* W *)
    (22, fun landmarks =>
       opened landmarks 1 &&& opened landmarks 2 &&& opened landmarks 3 &&&
       closed landmarks 4);
    (* X *)
    (23, fun landmarks =>
       py_gt (coord landmarks 8 y) (coord landmarks 7 y) &&&
       py_lt (coord landmarks 7 y) (coord landmarks 6 y) &&&
       closed landmarks 2 &&& closed landmarks 3 &&& closed landmarks 4);
    (* Y *)
    (24, fun landmarks =>
       closed landmarks 1 &&& closed landmarks 2 &&& closed landmarks 3 &&&
       opened landmarks 4 &&& opened landmarks 0);
    (* Z *)
    (25, fun landmarks =>
       opened landmarks 1 &&& closed landmarks 2 &&& closed landmarks 3 &&&
       closed landmarks 4 &&&
       py_gt (coord landmarks 8 y) (coord landmarks 5 y))
  ].

(** [self.gestures]: the letter each id stands for. *)
Definition gestures : list (nat * string) :=
  [ (0, "A"); (1, "B"); (2, "C"); (3, "D"); (4, "E"); (5, "F"); (6, "G");
    (7, "H"); (8, "I"); (9, "J"); (10, "K"); (11, "L"); (12, "M"); (13, "N");
    (14, "O"); (15, "P"); (16, "Q"); (17, "R"); (18, "S"); (19, "T");
    (20, "U"); (21, "V"); (22, "W"); (23, "X"); (24, "Y"); (25, "Z") ]%string.

(** The 26 letters, in the order of their ids. *)
Definition letters : list string :=
  [ "A"; "B"; "C"; "D"; "E"; "F"; "G"; "H"; "I"; "J"; "K"; "L"; "M"; "N";
    "O"; "P"; "Q"; "R"; "S"; "T"; "U"; "V"; "W"; "X"; "Y"; "Z" ]%string.

(** The state of a recognizer the classifier reads: its rule table. *)
Record GestureRecognizer : Type := mkRecognizer {
  rules : list (nat * Rule)
}.

(** The recognizer [__init__] builds. *)
Definition recognizer : GestureRecognizer := mkRecognizer _init_classifier.

(** ** The confidence scorer *)

(** [for i in fingers: if not self._is_finger_closed(landmarks, i):
    extended_fingers += 1]. *)
Fixpoint count_extended (landmarks : Landmarks) (fingers : list nat)
    (extended_fingers : nat) : res nat :=
  match fingers with
  | [] => Ok extended_fingers
  | i :: rest =>
      c <- _is_finger_closed landmarks i ;;
      count_extended landmarks rest
        (if negb c then S extended_fingers else extended_fingers)
  end.

(** The letter-specific part: the [if]/[elif] chain on [gesture_id]. *)
Definition reinforce (landmarks : Landmarks) (gesture_id : nat)
    (confidence : float) : res float :=
  if gesture_id =? 0 then
    y4 <- coord landmarks 4 y ;; y3 <- coord landmarks 3 y ;;
    Ok (if (y4 <? y3 - 0.1)%float then (confidence + 0.15)%float
        else confidence)
  else if gesture_id =? 1 then
    extended_fingers <- count_extended landmarks (seq 1 4) 0 ;;
    Ok (if extended_fingers =? 4 then (confidence + 0.15)%float
        else (confidence - 0.3)%float)
  else if gesture_id =? 2 then
    d <- distance_between landmarks 4 8 ;;
    Ok (if (0.05 <? d)%float && (d <? 0.15)%float
        then (confidence + 0.15)%float else confidence)
  else if gesture_id =? 3 then
    c <- opened landmarks 1 &&& closed landmarks 2 ;;
    Ok (if c then (confidence + 0.15)%float else confidence)
  else if gesture_id =? 11 then
    c <- opened landmarks 1 &&&
         py_gt (coord landmarks 4 x) (coord landmarks 3 x) ;;
    Ok (if c then (confidence + 0.15)%float else confidence)
  else if gesture_id =? 14 then
    d <- distance_between landmarks 4 8 ;;
    Ok (if (0.05 <? d)%float && (d <? 0.1)%float
        then (confidence + 0.15)%float else confidence)
  else if gesture_id =? 21 then
    c <- opened landmarks 1 &&& opened landmarks 2 ;;
    if c then
      c' <- py_gt (distance_between landmarks 8 12) (Ok 0.2%float) ;;
      Ok (if c' then (confidence + 0.15)%float else confidence)
    else Ok confidence
  else if gesture_id =? 22 then
    extended_fingers <- count_extended landmarks (seq 1 3) 0 ;;
    Ok (if extended_fingers =? 3 then (confidence + 0.15)%float
        else confidence)
  else if gesture_id =? 24 then
    c <- opened landmarks 4 &&& opened landmarks 0 ;;
    Ok (if c then (confidence + 0.15)%float else confidence)
  else Ok confidence.

(** One turn of the ambiguity loop: a rule other than the scored one that
    matches costs 0.1; a rule that raises is passed over. *)
Definition penalise (landmarks : Landmarks) (gesture_id : nat)
    (confidence : float) (entry : nat * Rule) : float :=
  let '(other_id, rule_func) := entry in
  if negb (other_id =? gesture_id) then
    try_except
      (b <- rule_func landmarks ;;
       Ok (if b then (confidence - 0.1)%float else confidence))
      (fun _ => confidence)
  else confidence.

(** [0.2 < landmarks[0].x < 0.8 and 0.2 < landmarks[0].y < 0.8]. *)
Definition centered (landmarks : Landmarks) : res bool :=
  (x0 <- coord landmarks 0 x ;; Ok ((0.2 <? x0)%float && (x0 <? 0.8)%float))
  &&&
  (y0 <- coord landmarks 0 y ;; Ok ((0.2 <? y0)%float && (y0 <? 0.8)%float)).

(** [max(0.0, min(confidence, 1.0))]. *)
Definition clamp (confidence : float) : float :=
  py_max 0.0%float (py_min confidence 1.0%float).

Definition _get_gesture_confidence (self : GestureRecognizer)
    (landmarks : Landmarks) (gesture_id : nat) : res float :=
  let confidence := 0.75%float in
  confidence <- reinforce landmarks gesture_id confidence ;;
  let confidence :=
    fold_left (penalise landmarks gesture_id) (rules self) confidence in
  c <- centered landmarks ;;
  let confidence := if c then (confidence + 0.05)%float else confidence in
  Ok (clamp confidence).

(** ** The selector *)

(** The state of the loop: [(best_gesture, best_confidence)]. *)
Definition Best : Type := (option nat * float)%type.

(** One turn of the loop of [_recognize_gesture], with its [try]. *)
Definition consider (self : GestureRecognizer) (landmarks : Landmarks)
    (best : Best) (entry : nat * Rule) : Best :=
  let '(gesture_id, rule_func) := entry in
  try_except
    (b <- rule_func landmarks ;;
     if b then
       confidence <- _get_gesture_confidence self landmarks gesture_id ;;
       Ok (if (snd best <? confidence)%float
           then (Some gesture_id, confidence) else best)
     else Ok best)
    (fun _ => best).

Definition _recognize_gesture (self : GestureRecognizer)
    (landmarks : Landmarks) : Best :=
  let '(best_gesture, best_confidence) :=
    fold_left (consider self landmarks) (rules self) (None, 0.0%float) in
  if (0.7 <? best_confidence)%float then (best_gesture, best_confidence)
  else (None, 0.0%float).

(** ** The gate of [process_frame] *)

(** The fields of the response that depend on the hand; [landmarks] is
    [None] when no hand was detected. *)
Record Response : Type := mkResponse {
  hand_detected : bool;
  gesture_detected : bool;
  gesture : option string;
  confidence : float;
  response_landmarks : option (list (float * float * float))
}.

(** The value under a key of a dictionary, if any. *)
Fixpoint gesture_name (table : list (nat * string)) (gesture_id : nat)
    : option string :=
  match table with
  | [] => None
  | (k, name) :: rest =>
      if k =? gesture_id then Some name else gesture_name rest gesture_id
  end.

(** [mapping[key]]: a missing key raises [KeyError]. *)
Definition mapping_item (mapping : list (nat * string)) (key : nat)
    : res string :=
  match gesture_name mapping key with
  | Some text => Ok text
  | None => Raise KeyError
  end.

(** [for landmark in hand_landmarks.landmark:
       landmarks_list.append({'x': landmark.x, 'y': landmark.y,
                              'z': landmark.z})]. *)
Fixpoint landmark_dicts (landmarks : Landmarks)
    : res (list (float * float * float)) :=
  match landmarks with
  | [] => Ok []
  | landmark :: rest =>
      vx <- attr x landmark ;; vy <- attr y landmark ;;
      vz <- attr z landmark ;;
      landmarks_list <- landmark_dicts rest ;;
      Ok ((vx, vy, vz) :: landmarks_list)
  end.

(** What [process_frame] does with the first hand before it classifies
    it: it draws the hand, then copies its landmarks. *)
Definition annotate (hand_landmarks : Landmarks)
    : res (list (float * float * float)) :=
  _ <- draw_landmarks hand_landmarks ;;
  landmark_dicts hand_landmarks.

(** [multi_hand_landmarks] is what the detector returned: no hand, or the
    landmark lists of the hands it found.  Nothing catches an exception
    here: it reaches the route of [app.py]. *)
Definition process_frame (self : GestureRecognizer)
    (multi_hand_landmarks : list Landmarks) : res Response :=
  match multi_hand_landmarks with
  | [] => Ok (mkResponse false false None 0.0%float None)
  | hand_landmarks :: _ =>
      landmarks_list <- annotate hand_landmarks ;;
      match _recognize_gesture self hand_landmarks with
      | (Some gesture_id, c) =>
          if (0.6 <? c)%float
          then
            name <- mapping_item gestures gesture_id ;;
            Ok (mkResponse true true (Some name) c (Some landmarks_list))
          else Ok (mkResponse true false None 0.0%float (Some landmarks_list))
      | (None, _) =>
          Ok (mkResponse true false None 0.0%float (Some landmarks_list))
      end
  end.

(** ** Sample hands *)

Definition hand_of (pts : list (float * float * float)) : Landmarks :=
  map (fun '(a, b, c) => point a b c) pts.

(** Index, middle and ring finger curled, little finger straight, thumb tip
    above its joint, wrist in the middle of the frame. *)
Definition hand_I : Landmarks :=
  hand_of
    [ (0.5, 0.7, 0);
      (0.6, 0.65, 0); (0.65, 0.6, 0); (0.7, 0.55, 0); (0.7, 0.5, 0);
      (0.55, 0.6, 0); (0.55, 0.5, 0); (0.55, 0.58, 0); (0.55, 0.6, 0);
      (0.5, 0.6, 0); (0.5, 0.5, 0); (0.5, 0.58, 0); (0.5, 0.6, 0);
      (0.45, 0.6, 0); (0.45, 0.5, 0); (0.45, 0.58, 0); (0.45, 0.6, 0);
      (0.4, 0.6, 0); (0.4, 0.5, 0); (0.4, 0.4, 0); (0.4, 0.35, 0) ]%float.

(** A hand whose thumb tip (landmark 4) lies below its joint (landmark 3)
    in the image, the other fingers as in [hand_I]. *)
Definition hand_thumb_down : Landmarks :=
  hand_of
    [ (0.5, 0.7, 0);
      (0.6, 0.65, 0); (0.65, 0.6, 0); (0.7, 0.5, 0); (0.7, 0.6, 0);
      (0.55, 0.6, 0); (0.55, 0.5, 0); (0.55, 0.58, 0); (0.55, 0.6, 0);
      (0.5, 0.6, 0); (0.5, 0.5, 0); (0.5, 0.58, 0); (0.5, 0.6, 0);
      (0.45, 0.6, 0); (0.45, 0.5, 0); (0.45, 0.58, 0); (0.45, 0.6, 0);
      (0.4, 0.6, 0); (0.4, 0.5, 0); (0.4, 0.4, 0); (0.4, 0.35, 0) ]%float.


(** [hand_I] with the middle joint of the index finger (landmark 6) at
    x = 1e200. *)
Definition hand_far : Landmarks :=
  hand_of
    [ (0.5, 0.7, 0);
      (0.6, 0.65, 0); (0.65, 0.6, 0); (0.7, 0.55, 0); (0.7, 0.5, 0);
      (0.55, 0.6, 0); (1e200, 0.5, 0); (0.55, 0.58, 0); (0.55, 0.6, 0);
      (0.5, 0.6, 0); (0.5, 0.5, 0); (0.5, 0.58, 0); (0.5, 0.6, 0);
      (0.45, 0.6, 0); (0.45, 0.5, 0); (0.45, 0.58, 0); (0.45, 0.6, 0);
      (0.4, 0.6, 0); (0.4, 0.5, 0); (0.4, 0.4, 0); (0.4, 0.35, 0) ]%float.

(** A fist: the four fingers curled, the index finger bent at its middle
    joint, the thumb tip below its joint in the image, left of the index
    knuckle and close to the index tip. *)
Definition hand_fist : Landmarks :=
  hand_of
    [ (0.5, 0.7, 0);
      (0.6, 0.65, 0); (0.65, 0.6, 0); (0.6, 0.5, 0); (0.5, 0.55, 0);
      (0.55, 0.6, 0); (0.65, 0.6, 0); (0.57, 0.58, 0); (0.55, 0.6, 0);
      (0.52, 0.6, 0); (0.52, 0.5, 0); (0.52, 0.58, 0); (0.52, 0.6, 0);
      (0.45, 0.6, 0); (0.45, 0.5, 0); (0.45, 0.58, 0); (0.45, 0.6, 0);
      (0.4, 0.6, 0); (0.4, 0.5, 0); (0.4, 0.58, 0); (0.4, 0.6, 0) ]%float.

(** The four fingers curled and the thumb tip above its joint, left of the
    index knuckle: the rules of E and M match. *)
Definition hand_M : Landmarks :=
  hand_of
    [ (0.5, 0.7, 0);
      (0.6, 0.65, 0); (0.65, 0.6, 0); (0.7, 0.55, 0); (0.52, 0.5, 0);
      (0.55, 0.6, 0); (0.55, 0.5, 0); (0.55, 0.58, 0); (0.55, 0.6, 0);
      (0.5, 0.6, 0); (0.5, 0.5, 0); (0.5, 0.58, 0); (0.5, 0.6, 0);
      (0.45, 0.6, 0); (0.45, 0.5, 0); (0.45, 0.58, 0); (0.45, 0.6, 0);
      (0.4, 0.6, 0); (0.4, 0.5, 0); (0.4, 0.58, 0); (0.4, 0.6, 0) ]%float.

(** The four fingers curled, the index finger bent at its middle joint, the
    thumb as in [hand_I]: the rules of E and X match. *)
Definition hand_X : Landmarks :=
  hand_of
    [ (0.5, 0.7, 0);
      (0.6, 0.65, 0); (0.65, 0.6, 0); (0.7, 0.55, 0); (0.7, 0.5, 0);
      (0.55, 0.6, 0); (0.65, 0.6, 0); (0.57, 0.58, 0); (0.55, 0.6, 0);
      (0.5, 0.6, 0); (0.5, 0.5, 0); (0.5, 0.58, 0); (0.5, 0.6, 0);
      (0.45, 0.6, 0); (0.45, 0.5, 0); (0.45, 0.58, 0); (0.45, 0.6, 0);
      (0.4, 0.6, 0); (0.4, 0.5, 0); (0.4, 0.58, 0); (0.4, 0.6, 0) ]%float.

(** The degenerate hand: all 21 landmarks at the same point. *)
Definition degenerate_hand (a b c : float) : Landmarks :=
  repeat (point a b c) 21.

(** ** Reading the rule table *)

(** [table[gesture_id]]. *)
Fixpoint lookup_rule (table : list (nat * Rule)) (gesture_id : nat)
    : option Rule :=
  match table with
  | [] => None
  | (k, rule_func) :: rest =>
      if k =? gesture_id then Some rule_func else lookup_rule rest gesture_id
  end.

(** The outcome of the rule of a letter on a hand. *)
Definition rule_result (self : GestureRecognizer) (landmarks : Landmarks)
    (gesture_id : nat) : option (res bool) :=
  option_map (fun rule_func => rule_func landmarks)
    (lookup_rule (rules self) gesture_id).

(** The rule of the letter exists, ran to completion and answered [True]. *)
Definition rule_matches (self : GestureRecognizer) (landmarks : Landmarks)
    (gesture_id : nat) : bool :=
  match rule_result self landmarks gesture_id with
  | Some m => holds m
  | None => false
  end.

(** ** The finger test in the words of the specification *)

(** The Euclidean distance between two points given by their coordinates:
    the square root of the sum of the squares of the three coordinate
    differences. *)
Definition euclidean (p q : float * float * float) : res float :=
  let '(x1, y1, z1) := p in
  let '(x2, y2, z2) := q in
  sx <- pow2 (x1 - x2)%float ;;
  sy <- pow2 (y1 - y2)%float ;;
  sz <- pow2 (z1 - z2)%float ;;
  Ok (sqrt (sx + sy + sz))%float.

(** The landmark at a point. *)
Definition landmark_at (p : float * float * float) : Landmark :=
  let '(a, b, c) := p in point a b c.

(** ** The scorer in the words of the specification *)

(** The extra geometric check of the letters that have one. *)
Definition extra_check (landmarks : Landmarks) (gesture_id : nat)
    : option (res bool) :=
  match gesture_id with
  | 0 (* A *) =>
      Some (py_lt (coord landmarks 4 y)
                  (y3 <- coord landmarks 3 y ;; Ok (y3 - 0.1)%float))
  | 1 (* B *) =>
      Some (opened landmarks 1 &&& opened landmarks 2 &&&
            opened landmarks 3 &&& opened landmarks 4)
  | 2 (* C *) =>
      Some (d <- distance_between landmarks 4 8 ;;
            Ok ((0.05 <? d)%float && (d <? 0.15)%float))
  | 3 (* D *) => Some (opened landmarks 1 &&& closed landmarks 2)
  | 11 (* L *) =>
      Some (opened landmarks 1 &&&
            py_gt (coord landmarks 4 x) (coord landmarks 3 x))
  | 14 (* O *) =>
      Some (d <- distance_between landmarks 4 8 ;;
            Ok ((0.05 <? d)%float && (d <? 0.1)%float))
  | 21 (* V *) =>
      Some (opened landmarks 1 &&& opened landmarks 2 &&&
            py_gt (distance_between landmarks 8 12) (Ok 0.2%float))
  | 22 (* W *) =>
      Some (opened landmarks 1 &&& opened landmarks 2 &&&
            opened landmarks 3)
  | 24 (* Y *) => Some (opened landmarks 4 &&& opened landmarks 0)
  | _ => None
  end.

(** Step 2: +0.15 when the check of the letter passes; for B, -0.3 when it
    does not; nothing for a letter without a check. *)
Definition spec_reinforcement (landmarks : Landmarks) (gesture_id : nat)
    (score : float) : float :=
  match extra_check landmarks gesture_id with
  | Some check =>
      if holds check then (score + 0.15)%float
      else if gesture_id =? 1 then (score - 0.3)%float
      else score
  | None => score
  end.

(** Step 3: the number of other letters whose rule matches as well. *)
Definition others_matching (self : GestureRecognizer) (landmarks : Landmarks)
    (gesture_id : nat) : nat :=
  length (filter (fun entry : nat * Rule =>
                    negb (fst entry =? gesture_id) &&
                    holds (snd entry landmarks))
                 (rules self)).

(** Step 4: the wrist strictly inside [0.2, 0.8] on both axes. *)
Definition wrist_centered (landmarks : Landmarks) : bool :=
  match nth_error landmarks 0 with
  | Some wrist =>
      match x wrist, y wrist with
      | Some wx, Some wy =>
          ((0.2 <? wx)%float && (wx <? 0.8)%float) &&
          ((0.2 <? wy)%float && (wy <? 0.8)%float)
      | _, _ => false
      end
  | None => false
  end.

(** Step 5: the score brought back into [0, 1]: 0 below 0, 1 above 1. *)
Definition spec_clamp (score : float) : float :=
  if (score <? 0)%float then 0%float
  else if (1 <? score)%float then 1%float
  else score.

(** Steps 1 to 5. *)
Definition spec_confidence (self : GestureRecognizer) (landmarks : Landmarks)
    (gesture_id : nat) : float :=
  let score := 0.75%float in
  let score := spec_reinforcement landmarks gesture_id score in
  let score :=
    Nat.iter (others_matching self landmarks gesture_id)
             (fun s => (s - 0.1)%float) score in
  let score :=
    if wrist_centered landmarks then (score + 0.05)%float else score in
  spec_clamp score.

(** ** The selector, entry by entry *)

(** The confidence the loop of the selector computes for an entry of the
    table, when its rule matches and the scorer returns. *)
Definition scored (self : GestureRecognizer) (landmarks : Landmarks)
    (entry : nat * Rule) : option float :=
  match snd entry landmarks with
  | Ok true =>
      match _get_gesture_confidence self landmarks (fst entry) with
      | Ok c => Some c
      | Raise _ => None
      end
  | _ => None
  end.

(** [hand_I] with the thumb tip and the index tip 2e200 apart. *)
Definition hand_huge : Landmarks :=
  hand_of
    [ (0.5, 0.7, 0);
      (0.6, 0.65, 0); (0.65, 0.6, 0); (0.7, 0.55, 0); (1e200, 0.5, 0);
      (0.55, 0.6, 0); (0.55, 0.5, 0); (0.55, 0.58, 0); (-1e200, 0.6, 0);
      (0.5, 0.6, 0); (0.5, 0.5, 0); (0.5, 0.58, 0); (0.5, 0.6, 0);
      (0.45, 0.6, 0); (0.45, 0.5, 0); (0.45, 0.58, 0); (0.45, 0.6, 0);
      (0.4, 0.6, 0); (0.4, 0.5, 0); (0.4, 0.4, 0); (0.4, 0.35, 0) ]%float.

(** A degenerate hand with extreme coordinates: an infinity, a NaN and a
    number close to the largest float. *)
Definition hand_extreme : Landmarks := degenerate_hand infinity nan 1e308.

(** What the loop of the selector has established after the entries of
    [table]: either nothing scored above 0, or the best entry is the first
    one among those of greatest confidence. *)
Definition leads (self : GestureRecognizer) (landmarks : Landmarks)
    (table : list (nat * Rule)) (best : Best) : Prop :=
  match best with
  | (None, best_confidence) =>
      best_confidence = 0%float /\
      forall entry c, In entry table ->
        scored self landmarks entry = Some c -> (0 <? c)%float = false
  | (Some best_gesture, best_confidence) =>
      exists before rule_func after,
        table = before ++ (best_gesture, rule_func) :: after /\
        scored self landmarks (best_gesture, rule_func)
          = Some best_confidence /\
        (0 <? best_confidence)%float = true /\
        (forall entry c, In entry before ->
           scored self landmarks entry = Some c ->
           (c <? best_confidence)%float = true) /\
        (forall entry c, In entry after ->
           scored self landmarks entry = Some c ->
           (c <=? best_confidence)%float = true)
  end.

(** ** A table in another order *)

(** The table with its entries of rank 8 and 9 (I and J) exchanged. *)
Definition swap_I_J (table : list (nat * Rule)) : list (nat * Rule) :=
  match skipn 8 table with
  | entry_I :: entry_J :: rest => firstn 8 table ++ entry_J :: entry_I :: rest
  | _ => table
  end.

Definition recognizer_J_first : GestureRecognizer :=
  mkRecognizer (swap_I_J _init_classifier).

(** ** Malformed inputs *)

(** [hand_I] without its last landmark: 20 landmarks. *)
Definition hand_20 : Landmarks := firstn 20 hand_I.

(** [hand_I] with a last landmark that has no coordinates. *)
Definition hand_blank_tip : Landmarks :=
  firstn 20 hand_I ++ [mkLandmark None None None].

(** Four landmarks only. *)
Definition hand_4 : Landmarks := firstn 4 hand_I.

(** A rule made total: an error counts as "no match". *)
Definition no_raise (rule_func : Rule) : Rule :=
  fun landmarks => Ok (holds (rule_func landmarks)).

Definition isolate_errors (self : GestureRecognizer) : GestureRecognizer :=
  mkRecognizer
    (map (fun entry : nat * Rule => (fst entry, no_raise (snd entry)))
         (rules self)).

(** ** The arithmetic of the scorer *)

(** The value the scorer returns from a reinforced score [r], [k] other
    matching rules and a wrist that is centred or not. *)
Definition score (r : float) (k : nat) (wrist_in_frame : bool) : float :=
  clamp (let s := Nat.iter k (fun s => (s - 0.1)%float) r in
         if wrist_in_frame then (s + 0.05)%float else s).

(** The number of rules that match a hand. *)
Definition total_matching (self : GestureRecognizer) (landmarks : Landmarks)
    : nat :=
  length (filter (fun entry : nat * Rule => holds (snd entry landmarks))
                 (rules self)).

(** [a] is below [b], or both have been clamped to 0. *)
Definition lower (a b : float) : Prop :=
  (a <? b)%float = true \/ (a = 0%float /\ b = 0%float).

(** * The heuristic recognizer of [sign_language_model.py] *)

(** [self.asl_mapping]. *)
Definition asl_mapping : list (nat * string) :=
  [ (0, "A"); (1, "B"); (2, "C"); (3, "D"); (4, "E");
    (5, "F"); (6, "G"); (7, "H"); (8, "I"); (9, "J") ]%string.

(** [for landmark in hand_landmarks.landmark:
       landmarks_flat.extend([landmark.x, landmark.y, landmark.z])]. *)
Fixpoint flatten_landmarks (landmarks : Landmarks) : res (list float) :=
  match landmarks with
  | [] => Ok []
  | landmark :: rest =>
      vx <- attr x landmark ;; vy <- attr y landmark ;;
      vz <- attr z landmark ;;
      landmarks_flat <- flatten_landmarks rest ;;
      Ok (vx :: vy :: vz :: landmarks_flat)
  end.

(** The body of the loop over the detected hands: the text and the
    confidence it assigns, then the drawing of the hand. *)
Definition classify_hand (hand_landmarks : Landmarks)
    : res (string * float) :=
  landmarks_flat <- flatten_landmarks hand_landmarks ;;
  index_tip_y <- coord hand_landmarks 8 y ;;
  wrist_y <- coord hand_landmarks 0 y ;;
  middle_tip_y <- coord hand_landmarks 12 y ;;
  let letter_index :=
    if (index_tip_y <? wrist_y - 0.1)%float then 0
    else if (middle_tip_y <? wrist_y - 0.15)%float then 1
    else 2 in
  recognized_text <- mapping_item asl_mapping letter_index ;;
  let confidence := 0.7%float in
  _ <- draw_landmarks hand_landmarks ;;
  Ok (recognized_text, confidence).

(** [for hand_landmarks in results.multi_hand_landmarks: ...]: each hand
    overwrites the text and the confidence. *)
Fixpoint classify_hands (multi_hand_landmarks : list Landmarks)
    (current : string * float) : res (string * float) :=
  match multi_hand_landmarks with
  | [] => Ok current
  | hand_landmarks :: rest =>
      current' <- classify_hand hand_landmarks ;;
      classify_hands rest current'
  end.

(** [max(contours, key=cv2.contourArea)] then [cv2.contourArea] of it, the
    contours being given by their areas; and [random.randint(0, 9)] by the
    number it returned. *)
Definition _fallback_detection (contour_areas : list float)
    (random_index : nat) : res (string * float) :=
  match contour_areas with
  | [] => Ok (""%string, 0.0%float)
  | first_area :: others =>
      let area := fold_left py_max others first_area in
      if (area <? 5000)%float then Ok (""%string, 0.0%float)
      else
        letter <- mapping_item asl_mapping random_index ;;
        Ok (letter, 0.5%float)
  end.

(** [process_image]: what the detector found in the image is an input
    ([multi_hand_landmarks]), and so is what the fallback needs. *)
Definition process_image (mediapipe_available : bool)
    (contour_areas : list float) (random_index : nat)
    (multi_hand_landmarks : list Landmarks) : res (string * float) :=
  if negb mediapipe_available then
    _fallback_detection contour_areas random_index
  else
    Ok (try_except
          (classify_hands multi_hand_landmarks (""%string, 0.0%float))
          (fun _ => (""%string, 0.0%float))).

(** ** The frame route of [app.py] *)

(** The [sign_language] entry the route adds to the results, if any:
    [if sign_text and confidence > 0.5], inside a [try] that swallows every
    exception. *)
Definition sign_language_entry (recognizer_defined : bool)
    (outcome : res (string * float)) : option (string * float) :=
  if recognizer_defined then
    try_except
      (r <- outcome ;;
       let '(sign_text, c) := r in
       Ok (if negb (sign_text =? "")%string && (0.5 <? c)%float
           then Some (sign_text, c) else None))
      (fun _ => None)
  else None.

(** * The database of [models_db.py] and the routes of [app.py] that use it *)

(** [Gesture.query.filter_by(name=...).first()]; no row has a null name. *)
Definition gesture_named (db : Database.t) (gesture_name : option string)
    : option Gesture.t :=
  match gesture_name with
  | None => None
  | Some n =>
      find (fun g => (Gesture.name g =? n)%string) (Database.gestures db)
  end.

(** [default_gestures] of [initialize_default_gestures]: name, description
    and difficulty level. *)
Definition default_gestures : list (string * string * Z) :=
  [
    ("A", "Letter A - Fist with thumb pointing up", 1);
    ("B", "Letter B - All fingers extended and together", 1);
    ("C", "Letter C - Fingers together curved in C shape", 2);
    ("D", "Letter D - Index finger pointing up, others closed", 2);
    ("E", "Letter E - All fingers curled, palm facing out", 1);
    ("F", "Letter F - Index finger and thumb touch, other fingers extended", 3);
    ("G", "Letter G - Index pointing, thumb extended", 2);
    ("H", "Letter H - Index and middle finger extended together", 2);
    ("I", "Letter I - Pinky finger extended, others closed", 1);
    ("J", "Letter J - Pinky extended with J motion", 3);
    ("K", "Letter K - Index and middle finger in V, thumb between", 3);
    ("L", "Letter L - Index finger and thumb in L shape", 1);
    ("M", "Letter M - Thumb tucked between folded fingers", 2);
    ("N", "Letter N - Thumb tucked under index and middle fingers", 2);
    ("O", "Letter O - Fingertips and thumb form circle", 1);
    ("P", "Letter P - Index pointing down, thumb to side", 3);
    ("Q", "Letter Q - Finger pointing down, thumb and pinky out", 3);
    ("R", "Letter R - Crossed index and middle fingers", 3);
    ("S", "Letter S - Fist with thumb over fingers", 2);
    ("T", "Letter T - Thumb between index and middle finger", 2);
    ("U", "Letter U - Index and middle finger extended together", 2);
    ("V", "Letter V - Index and middle finger in V shape", 1);
    ("W", "Letter W - Index, middle, and ring fingers extended", 2);
    ("X", "Letter X - Index finger bent at middle joint", 3);
    ("Y", "Letter Y - Thumb and pinky extended, others closed", 2);
    ("Z", "Letter Z - Index finger traces Z shape", 4)
  ]%string%Z.

(** One turn of the loop of [initialize_default_gestures]. *)
Definition add_default_gesture (db : Database.t)
    (gesture_data : string * string * Z) : Database.t :=
  let '(n, d, level) := gesture_data in
  match gesture_named db (Some n) with
  | Some _ => db
  | None =>
      Database.make
        (Database.gestures db
           ++ [Gesture.make (Database.next_gesture_id db) n d level])
        (Database.users db)
        (Database.recognition_sessions db)
        (Database.practice_progress db)
        (Database.next_gesture_id db + 1)%Z
        (Database.next_user_id db)
        (Database.next_session_id db)
        (Database.next_progress_id db)
  end.

Definition initialize_default_gestures (db : Database.t) : Database.t :=
  fold_left add_default_gesture default_gestures db.

(** The fields of the body of a [save_recognition] request that is a JSON
    object: [gesture_name], [confidence], [duration_ms] and [success] with
    their defaults applied, each of the type the route expects. *)
Record RecognitionData : Type := mkRecognitionData {
  data_gesture_name : option string;
  data_confidence : float;
  data_duration_ms : Z;
  data_success : bool
}.

(** What [request.get_json()] meets: a request that carries no JSON
    document, on which it raises; a document that Python takes for false
    ([null], [{}], [0], ...); a document that Python takes for true and
    that is no object ([[1]], [5], ...), on which [data.get] raises; or an
    object with its fields. *)
Inductive RequestBody : Type :=
| NoJson
| EmptyJson
| JsonOther
| JsonObject (d : RecognitionData).

(** The range of an [INTEGER] column: a value outside it makes the
    database raise. *)
Definition int32 (v : Z) : bool :=
  (-2147483648 <=? v)%Z && (v <=? 2147483647)%Z.

(** [PracticeProgress.query.filter_by(user_id=..., gesture_id=...).first()]. *)
Definition same_progress (user gesture : Z) (p : PracticeProgress.t) : bool :=
  (PracticeProgress.user_id p =? user)%Z &&
  (PracticeProgress.gesture_id p =? gesture)%Z.

Definition progress_of (db : Database.t) (user gesture : Z)
    : option PracticeProgress.t :=
  find (same_progress user gesture) (Database.practice_progress db).

(** The update of the row found: one more practice, and 5 more points of
    proficiency, up to 100, on a success. *)
Definition practise (success : bool) (p : PracticeProgress.t)
    : PracticeProgress.t :=
  PracticeProgress.make
    (PracticeProgress.id p)
    (PracticeProgress.user_id p)
    (PracticeProgress.gesture_id p)
    (if success
     then Z.min 100 (PracticeProgress.proficiency_level p + 5)
     else PracticeProgress.proficiency_level p)
    (PracticeProgress.times_practiced p + 1)%Z.

(** The row [first()] returned is the one that is updated. *)
Fixpoint update_first (user gesture : Z) (success : bool)
    (rows : list PracticeProgress.t) : list PracticeProgress.t :=
  match rows with
  | [] => []
  | p :: rest =>
      if same_progress user gesture p then practise success p :: rest
      else p :: update_first user gesture success rest
  end.

(** [if user_id:]: a user id that is present and not 0. *)
Definition logged_in (session_user_id : option Z) : option Z :=
  match session_user_id with
  | Some u => if (u =? 0)%Z then None else Some u
  | None => None
  end.

(** The foreign key of [recognition_sessions.user_id]: a user id that is
    not null must be the id of a user. *)
Definition user_known (db : Database.t) (session_user_id : option Z) : bool :=
  match session_user_id with
  | None => true
  | Some u => existsb (fun row => (User.id row =? u)%Z) (Database.users db)
  end.

(** The database with the id of a session drawn from its counter. *)
Definition draw_session_id (db : Database.t) : Database.t :=
  Database.make
    (Database.gestures db) (Database.users db)
    (Database.recognition_sessions db) (Database.practice_progress db)
    (Database.next_gesture_id db) (Database.next_user_id db)
    (Database.next_session_id db + 1)%Z (Database.next_progress_id db).

(** [save_recognition]: the database after the request and the status of
    the response.  The database raises on a session row whose id or
    duration does not fit its column, or whose user id is not the id of a
    user, and on a progress row whose id, number of practices or
    proficiency does not fit; [get_json] raises on a request without a
    JSON document, [data.get] on a document that is no object.  The handler
    then rolls back and answers 500: the tables are as before, an id
    already drawn for the session is lost.  No row of the tables has a
    null in a column the route reads. *)
Definition save_recognition (db : Database.t) (session_user_id : option Z)
    (data : RequestBody) : Database.t * nat :=
  match data with
  | NoJson => (db, 500)
  | EmptyJson => (db, 400)
  | JsonOther => (db, 500)
  | JsonObject d =>
      match gesture_named db (data_gesture_name d) with
      | None => (db, 404)
      | Some gesture =>
          if negb (int32 (Database.next_session_id db) &&
                   int32 (data_duration_ms d)) then (db, 500)
          else if negb (user_known db session_user_id) then
            (draw_session_id db, 500)
          else
          let recognition_session :=
            RecognitionSession.make
              (Database.next_session_id db) session_user_id
              (Gesture.id gesture) (data_success d) (data_confidence d)
              (data_duration_ms d) in
          let sessions :=
            Database.recognition_sessions db ++ [recognition_session] in
          match logged_in session_user_id with
          | None =>
              (Database.make
                 (Database.gestures db) (Database.users db) sessions
                 (Database.practice_progress db)
                 (Database.next_gesture_id db) (Database.next_user_id db)
                 (Database.next_session_id db + 1)%Z
                 (Database.next_progress_id db), 200)
          | Some user_id =>
              match progress_of db user_id (Gesture.id gesture) with
              | Some practice_progress =>
                  let updated := practise (data_success d) practice_progress in
                  if negb (int32 (PracticeProgress.times_practiced updated) &&
                           int32 (PracticeProgress.proficiency_level updated))
                  then (draw_session_id db, 500)
                  else
                  (Database.make
                     (Database.gestures db) (Database.users db) sessions
                     (update_first user_id (Gesture.id gesture)
                        (data_success d) (Database.practice_progress db))
                     (Database.next_gesture_id db)
                     (Database.next_user_id db)
                     (Database.next_session_id db + 1)%Z
                     (Database.next_progress_id db), 200)
              | None =>
                  if negb (int32 (Database.next_progress_id db))
                  then (draw_session_id db, 500)
                  else
                  (Database.make
                     (Database.gestures db) (Database.users db) sessions
                     (Database.practice_progress db
                        ++ [PracticeProgress.make
                              (Database.next_progress_id db) user_id
                              (Gesture.id gesture)
                              (if data_success d then 10 else 5)%Z 1%Z])
                     (Database.next_gesture_id db)
                     (Database.next_user_id db)
                     (Database.next_session_id db + 1)%Z
                     (Database.next_progress_id db + 1)%Z, 200)
              end
          end
      end
  end.

(** What a session of a user makes the route write fits the columns: the
    progress row of the user for the gesture, updated, or the id of a first
    row. *)
Definition progress_fits (db : Database.t) (session_user_id : option Z)
    (gesture : Z) (success : bool) : bool :=
  match logged_in session_user_id with
  | None => true
  | Some user_id =>
      match progress_of db user_id gesture with
      | Some practice_progress =>
          int32 (PracticeProgress.times_practiced
                   (practise success practice_progress)) &&
          int32 (PracticeProgress.proficiency_level
                   (practise success practice_progress))
      | None => int32 (Database.next_progress_id db)
      end
  end.

(** The invariants of the [practice_progress] table. *)
Definition progress_key (p : PracticeProgress.t) : Z * Z :=
  (PracticeProgress.user_id p, PracticeProgress.gesture_id p).

Definition proficiency_in_range (db : Database.t) : Prop :=
  Forall (fun p => (0 <= PracticeProgress.proficiency_level p <= 100)%Z)
         (Database.practice_progress db).

Definition progress_unique (db : Database.t) : Prop :=
  NoDup (map progress_key (Database.practice_progress db)).

(** [n] successful [save_recognition] requests in a row. *)
Fixpoint save_successes (n : nat) (user_id : Z) (d : RecognitionData)
    (db : Database.t) : Database.t :=
  match n with
  | 0 => db
  | S m =>
      fst (save_recognition (save_successes m user_id d db)
             (Some user_id) (JsonObject d))
  end.

(** A database for the examples: the default gestures, a guest user, and
    a progress row of that user for the gesture A at 98 points. *)
Definition sample_db : Database.t :=
  let db :=
    initialize_default_gestures
      (Database.make [] [User.make 1 "guest" "guest@example.com"] [] []
                     1 2 1 1)%Z in
  Database.make
    (Database.gestures db) (Database.users db)
    (Database.recognition_sessions db)
    [PracticeProgress.make 1 1 1 98 7]%Z
    (Database.next_gesture_id db) (Database.next_user_id db)
    (Database.next_session_id db) 2%Z.

Definition sample_data (letter : string) : RecognitionData :=
  mkRecognitionData (Some letter) 0.9%float 1200%Z true.
(** * Facts about binary64 comparison and arithmetic

    Derived from the specification of the primitive operations over
    [spec_float]. *)

Ltac sf_compare :=
  repeat match goal with
  | |- context [Z.compare ?a ?b] => destruct (Z.compare_spec a b)
  | H : context [Z.compare ?a ?b] |- _ => destruct (Z.compare_spec a b)
  | |- context [Pos.compare_cont Eq ?a ?b] =>
      change (Pos.compare_cont Eq a b) with (Pos.compare a b);
      destruct (Pos.compare_spec a b)
  | H : context [Pos.compare_cont Eq ?a ?b] |- _ =>
      change (Pos.compare_cont Eq a b) with (Pos.compare a b) in H;
      destruct (Pos.compare_spec a b)
  end.

Ltac sf_cases_2 a b :=
  unfold SFeqb, SFltb, SFleb, SFcompare;
  destruct (Prim2SF a) as [[]|[]| |[] ? ?], (Prim2SF b) as [[]|[]| |[] ? ?];
  simpl; try discriminate; try reflexivity; intros; sf_compare; simpl in *;
  try discriminate; try reflexivity; try lia.

Ltac sf_cases_3 a b c :=
  unfold SFeqb, SFltb, SFleb, SFcompare;
  destruct (Prim2SF a) as [[]|[]| |[] ? ?], (Prim2SF b) as [[]|[]| |[] ? ?],
           (Prim2SF c) as [[]|[]| |[] ? ?];
  simpl; try discriminate; try reflexivity; intros; sf_compare; simpl in *;
  try discriminate; try reflexivity; try lia.

Lemma ltb_irrefl (a : float) : (a <? a)%float = false.
Proof.
  rewrite ltb_spec. unfold SFltb, SFcompare.
  destruct (Prim2SF a) as [[]|[]| |[] m e]; try reflexivity;
    rewrite Z.compare_refl, Pos.compare_cont_refl; reflexivity.
Qed.

Lemma ltb_trans (a b c : float) :
  (a <? b)%float = true -> (b <? c)%float = true -> (a <? c)%float = true.
Proof. rewrite !ltb_spec. sf_cases_3 a b c. Qed.

Lemma ltb_leb (a b : float) : (a <? b)%float = true -> (a <=? b)%float = true.
Proof. rewrite ltb_spec, leb_spec. sf_cases_2 a b. Qed.

Lemma leb_trans (a b c : float) :
  (a <=? b)%float = true -> (b <=? c)%float = true -> (a <=? c)%float = true.
Proof. rewrite !leb_spec. sf_cases_3 a b c. Qed.

Lemma leb_ltb_trans (a b c : float) :
  (a <=? b)%float = true -> (b <? c)%float = true -> (a <? c)%float = true.
Proof. rewrite !ltb_spec, !leb_spec. sf_cases_3 a b c. Qed.

Lemma ltb_leb_trans (a b c : float) :
  (a <? b)%float = true -> (b <=? c)%float = true -> (a <? c)%float = true.
Proof. rewrite !ltb_spec, !leb_spec. sf_cases_3 a b c. Qed.

(** [a <=? a] says that [a] is a number (not NaN). *)
Lemma leb_refl_l (a b : float) :
  (a <=? b)%float = true -> (a <=? a)%float = true.
Proof.
  rewrite !leb_spec. unfold SFleb, SFcompare.
  destruct (Prim2SF a) as [[]|[]| |[] ma ea], (Prim2SF b) as [[]|[]| |[] mb eb];
    simpl; try discriminate; try reflexivity; intros;
    rewrite Z.compare_refl, Pos.compare_cont_refl; reflexivity.
Qed.

Lemma leb_refl_r (a b : float) :
  (a <=? b)%float = true -> (b <=? b)%float = true.
Proof.
  rewrite !leb_spec. unfold SFleb, SFcompare.
  destruct (Prim2SF a) as [[]|[]| |[] ma ea], (Prim2SF b) as [[]|[]| |[] mb eb];
    simpl; try discriminate; try reflexivity; intros;
    rewrite Z.compare_refl, Pos.compare_cont_refl; reflexivity.
Qed.

(** Two numbers are comparable. *)
Lemma leb_total (a b : float) :
  (a <=? a)%float = true -> (b <=? b)%float = true ->
  (a <? b)%float = false -> (b <=? a)%float = true.
Proof. rewrite !ltb_spec, !leb_spec. sf_cases_2 a b. Qed.

Lemma leb_not_ltb (a b : float) :
  (a <=? b)%float = true -> (b <? a)%float = false.
Proof. rewrite !ltb_spec, !leb_spec. sf_cases_2 a b. Qed.

Lemma eqb_not_ltb (a b : float) :
  (a =? b)%float = true -> (a <? b)%float = false.
Proof. rewrite FloatAxioms.eqb_spec, ltb_spec. sf_cases_2 a b. Qed.

(** Away from zero, [<=?] is antisymmetric up to Leibniz equality. *)
Lemma leb_antisym (a b : float) :
  (0 <? a)%float = true ->
  (a <=? b)%float = true -> (b <=? a)%float = true -> a = b.
Proof.
  rewrite !ltb_spec, !leb_spec. intros H0 H1 H2. apply Prim2SF_inj.
  revert H0 H1 H2. change (Prim2SF 0) with (S754_zero false).
  unfold SFltb, SFleb, SFcompare.
  destruct (Prim2SF a) as [[]|[]| |[] ma ea], (Prim2SF b) as [[]|[]| |[] mb eb];
    simpl; try discriminate; try reflexivity; intros; sf_compare; simpl in *;
    try discriminate; try reflexivity; try lia; subst; reflexivity.
Qed.

Lemma mul_comm (a b : float) : (a * b)%float = (b * a)%float.
Proof.
  apply Prim2SF_inj. rewrite !mul_spec. unfold SF64mul, SFmul.
  destruct (Prim2SF a) as [sa|sa| |sa ma ea], (Prim2SF b) as [sb|sb| |sb mb eb];
    try reflexivity; rewrite (xorb_comm sa sb); try reflexivity.
  rewrite (Pos.mul_comm ma mb), (Z.add_comm ea eb). reflexivity.
Qed.

(** [a - a] is [+0], or NaN when [a] is infinite or NaN. *)
Lemma sub_diag (a : float) : (a - a)%float = 0%float \/ (a - a)%float = nan.
Proof.
  assert (H : Prim2SF (a - a) = S754_zero false \/ Prim2SF (a - a) = S754_nan).
  { rewrite sub_spec. unfold SF64sub, SFsub.
    destruct (Prim2SF a) as [[]|[]| |s m e]; auto.
    left.
    set (v := cond_Zopp s (Z.pos (fst (shl_align m e (IntDef.Z.min e e))))).
    replace (IntDef.Z.sub v v) with 0%Z by (change (0 = v - v)%Z; lia).
    reflexivity. }
  destruct H as [H | H]; [left | right]; apply Prim2SF_inj; rewrite H;
    reflexivity.
Qed.

(** * Landmark geometry *)

Lemma hand21_item (landmarks : Landmarks) (i : nat) :
  is_hand21 landmarks = true -> i < 21 ->
  exists a b c, nth_error landmarks i = Some (point a b c).
Proof.
  unfold is_hand21. intros H Hi.
  apply andb_prop in H as [Hlen Hall]. apply Nat.eqb_eq in Hlen.
  destruct (nth_error landmarks i) as [p|] eqn:Hp.
  - rewrite forallb_forall in Hall.
    specialize (Hall p (nth_error_In _ _ Hp)).
    destruct p as [[a|] [b|] [c|]]; try discriminate.
    now exists a, b, c.
  - apply nth_error_None in Hp. lia.
Qed.

(** What the thumb test computes: it answers [True] exactly when the joint
    has the greater y-coordinate, [landmarks[3].y > landmarks[4].y]. *)
Lemma thumb_closed_value (landmarks : Landmarks) (y3 y4 : float) :
  coord landmarks 3 y = Ok y3 -> coord landmarks 4 y = Ok y4 ->
  _is_finger_closed landmarks 0 = Ok (y4 <? y3)%float.
Proof.
  intros H3 H4. unfold _is_finger_closed, py_gt. simpl.
  rewrite H3, H4. reflexivity.
Qed.

(** C2: on a 21-landmark hand whose thumb tip has the greater y-coordinate
    (tip 0.6, joint 0.5), the finger-closed predicate at finger 0 answers
    false: the comparison of the code is [landmarks[3].y > landmarks[4].y]. *)
Theorem thumb_tip_below_joint_not_closed :
  is_hand21 hand_thumb_down = true /\
  coord hand_thumb_down 3 y = Ok 0.5%float /\
  coord hand_thumb_down 4 y = Ok 0.6%float /\
  (0.5 <? 0.6)%float = true /\
  _is_finger_closed hand_thumb_down 0 = Ok false.
Proof. repeat split; reflexivity. Qed.

(** ** The finger test *)

Lemma pow2_raises (v : float) (e : exn) :
  pow2 v = Raise e -> e = OverflowError.
Proof.
  unfold pow2. destruct (libm_pow2 (abs v)) as [ix errno_is_erange].
  repeat match goal with
         | |- context [if ?b then _ else _] => destruct b
         end; congruence.
Qed.

(** [_get_distance] between two well-formed points is their Euclidean
    distance. *)
Lemma distance_euclidean (p q : float * float * float) :
  _get_distance (landmark_at p) (landmark_at q) = euclidean p q.
Proof. destruct p as [[x1 y1] z1], q as [[x2 y2] z2]. reflexivity. Qed.

Lemma euclidean_raises (p q : float * float * float) (e : exn) :
  euclidean p q = Raise e -> e = OverflowError.
Proof.
  destruct p as [[x1 y1] z1], q as [[x2 y2] z2]. unfold euclidean.
  destruct (pow2 (x1 - x2)) as [sx|ex] eqn:Hx; cbn [bind];
    [|intros [= <-]; now apply pow2_raises in Hx].
  destruct (pow2 (y1 - y2)) as [sy|ey] eqn:Hy; cbn [bind];
    [|intros [= <-]; now apply pow2_raises in Hy].
  destruct (pow2 (z1 - z2)) as [sz|ez] eqn:Hz; cbn [bind];
    [discriminate|intros [= <-]; now apply pow2_raises in Hz].
Qed.

Lemma hand21_landmark (landmarks : Landmarks) (i : nat) :
  is_hand21 landmarks = true -> i < 21 ->
  exists p, nth_error landmarks i = Some (landmark_at p).
Proof.
  intros H Hi. destruct (hand21_item landmarks i H Hi) as (a & b & c & Hp).
  now exists (a, b, c).
Qed.

(** The finger test on three well-formed points, in terms of the three
    distances. *)
Lemma finger_closed_value (landmarks : Landmarks) (finger_idx : nat)
    (base mid tip : float * float * float) :
  1 <= finger_idx ->
  nth_error landmarks (finger_idx * 4 + 1) = Some (landmark_at base) ->
  nth_error landmarks (finger_idx * 4 + 2) = Some (landmark_at mid) ->
  nth_error landmarks (finger_idx * 4 + 3) = Some (landmark_at tip) ->
  _is_finger_closed landmarks finger_idx
  = (base_to_middle <- euclidean base mid ;;
     middle_to_tip <- euclidean mid tip ;;
     base_to_tip <- euclidean base tip ;;
     Ok (base_to_tip <? (base_to_middle + middle_to_tip) * 0.7)%float).
Proof.
  intros Hi H1 H2 H3. unfold _is_finger_closed, distance_between, item.
  destruct (Nat.eqb_spec finger_idx 0) as [E | _]; [lia|].
  cbv zeta. rewrite H1, H2, H3. cbn [bind].
  now rewrite !distance_euclidean.
Qed.

(** C3, amended: on a 21-landmark hand and for fingers 1 to 4 the
    predicate takes the Euclidean distances between the landmarks [4i+1],
    [4i+2] and [4i+3]; when the three distances are computed it answers
    whether the base-to-tip distance is strictly below 0.7 times the sum of
    the base-to-middle and middle-to-tip distances (with equality the finger
    is not closed); when the square of a coordinate difference is out of
    range it raises [OverflowError] and answers nothing. *)
Theorem finger_closed_iff_ratio (landmarks : Landmarks) (finger_idx : nat) :
  is_hand21 landmarks = true -> 1 <= finger_idx <= 4 ->
  exists base mid tip,
    nth_error landmarks (finger_idx * 4 + 1) = Some (landmark_at base) /\
    nth_error landmarks (finger_idx * 4 + 2) = Some (landmark_at mid) /\
    nth_error landmarks (finger_idx * 4 + 3) = Some (landmark_at tip) /\
    _get_distance (landmark_at base) (landmark_at mid) = euclidean base mid /\
    _get_distance (landmark_at mid) (landmark_at tip) = euclidean mid tip /\
    _get_distance (landmark_at base) (landmark_at tip) = euclidean base tip /\
    (forall base_to_mid mid_to_tip base_to_tip,
       euclidean base mid = Ok base_to_mid ->
       euclidean mid tip = Ok mid_to_tip ->
       euclidean base tip = Ok base_to_tip ->
       _is_finger_closed landmarks finger_idx
         = Ok (base_to_tip <? 0.7 * (base_to_mid + mid_to_tip))%float /\
       ((base_to_tip =? 0.7 * (base_to_mid + mid_to_tip))%float = true ->
        _is_finger_closed landmarks finger_idx = Ok false)) /\
    (raises (euclidean base mid) || raises (euclidean mid tip)
       || raises (euclidean base tip) = true ->
     _is_finger_closed landmarks finger_idx = Raise OverflowError).
Proof.
  intros H Hi.
  destruct (hand21_landmark landmarks (finger_idx * 4 + 1) H) as (base & H1);
    [lia|].
  destruct (hand21_landmark landmarks (finger_idx * 4 + 2) H) as (mid & H2);
    [lia|].
  destruct (hand21_landmark landmarks (finger_idx * 4 + 3) H) as (tip & H3);
    [lia|].
  exists base, mid, tip.
  do 3 (split; [assumption|]).
  do 3 (split; [apply distance_euclidean|]).
  rewrite (finger_closed_value landmarks finger_idx base mid tip)
    by (trivial; lia).
  split.
  - intros base_to_mid mid_to_tip base_to_tip -> -> ->. cbn [bind].
    rewrite (mul_comm 0.7). split; [reflexivity|].
    intros Heq. apply eqb_not_ltb in Heq. now rewrite Heq.
  - destruct (euclidean base mid) as [bm|e1] eqn:E1; cbn [bind raises orb].
    + destruct (euclidean mid tip) as [mt|e2] eqn:E2; cbn [bind raises orb].
      * destruct (euclidean base tip) as [bt|e3] eqn:E3;
          cbn [bind raises orb]; [discriminate|].
        intros _. now rewrite (euclidean_raises _ _ _ E3).
      * intros _. now rewrite (euclidean_raises _ _ _ E2).
    + intros _. now rewrite (euclidean_raises _ _ _ E1).
Qed.

(** The distance of a point to itself is [0], or NaN when a coordinate is
    infinite or NaN; it never raises. *)
Lemma distance_self (a b c : float) :
  _get_distance (point a b c) (point a b c) = Ok 0%float \/
  _get_distance (point a b c) (point a b c) = Ok nan.
Proof.
  unfold _get_distance, point, attr; cbn [x y z bind].
  destruct (sub_diag a) as [-> | ->], (sub_diag b) as [-> | ->],
    (sub_diag c) as [-> | ->]; vm_compute; auto.
Qed.

Lemma degenerate_finger_open (a b c : float) (finger_idx : nat) :
  finger_idx <= 4 ->
  _is_finger_closed (degenerate_hand a b c) finger_idx = Ok false.
Proof.
  intros Hi.
  assert (Hcases : finger_idx = 0 \/ finger_idx = 1 \/ finger_idx = 2 \/
                   finger_idx = 3 \/ finger_idx = 4) by lia.
  destruct Hcases as [-> | [-> | [-> | [-> | ->]]]].
  - unfold _is_finger_closed, py_gt, coord, item, degenerate_hand.
    cbn. now rewrite ltb_irrefl.
  - unfold _is_finger_closed, distance_between, item, degenerate_hand.
    cbn [Nat.eqb Nat.mul Nat.add repeat nth_error bind].
    destruct (distance_self a b c) as [-> | ->]; reflexivity.
  - unfold _is_finger_closed, distance_between, item, degenerate_hand.
    cbn [Nat.eqb Nat.mul Nat.add repeat nth_error bind].
    destruct (distance_self a b c) as [-> | ->]; reflexivity.
  - unfold _is_finger_closed, distance_between, item, degenerate_hand.
    cbn [Nat.eqb Nat.mul Nat.add repeat nth_error bind].
    destruct (distance_self a b c) as [-> | ->]; reflexivity.
  - unfold _is_finger_closed, distance_between, item, degenerate_hand.
    cbn [Nat.eqb Nat.mul Nat.add repeat nth_error bind].
    destruct (distance_self a b c) as [-> | ->]; reflexivity.
Qed.

(** C6, amended: on the degenerate hand every distance is 0 (or NaN), the
    strict test [0 < 0.7 * (0 + 0)] fails, so the predicate answers false
    for every finger 0 to 4, and the rule of E answers false; the rule of B
    (all four fingers open) is the one that matches. *)
Theorem degenerate_hand_all_open (a b c : float) :
  is_hand21 (degenerate_hand a b c) = true /\
  Forall (fun finger_idx =>
            _is_finger_closed (degenerate_hand a b c) finger_idx = Ok false)
         [0; 1; 2; 3; 4] /\
  rule_result recognizer (degenerate_hand a b c) 4 = Some (Ok false) /\
  rule_result recognizer (degenerate_hand a b c) 1 = Some (Ok true).
Proof.
  split; [reflexivity|]. split; [|split].
  - repeat constructor; apply degenerate_finger_open; lia.
  - unfold rule_result. cbn [recognizer rules _init_classifier lookup_rule
      Nat.eqb option_map]. unfold closed, py_and.
    rewrite (degenerate_finger_open a b c 1) by lia. reflexivity.
  - unfold rule_result. cbn [recognizer rules _init_classifier lookup_rule
      Nat.eqb option_map]. unfold opened, py_and, py_not.
    rewrite (degenerate_finger_open a b c 1), (degenerate_finger_open a b c 2),
      (degenerate_finger_open a b c 3), (degenerate_finger_open a b c 4) by lia.
    reflexivity.
Qed.

(** * The confidence scorer *)

Lemma clamp_range (v : float) :
  (0 <=? clamp v)%float = true /\ (clamp v <=? 1)%float = true.
Proof.
  unfold clamp, py_max, py_min.
  destruct (1 <? v)%float eqn:H1.
  - split; reflexivity.
  - destruct (0 <? v)%float eqn:H0.
    + split; [now apply ltb_leb|].
      apply leb_total; [reflexivity | | assumption].
      apply ltb_leb in H0. now apply leb_refl_r in H0.
    + split; reflexivity.
Qed.

(** The ambiguity loop subtracts 0.1 once per other matching rule. *)
Lemma penalise_fold (landmarks : Landmarks) (gesture_id : nat)
    (table : list (nat * Rule)) (score : float) :
  fold_left (penalise landmarks gesture_id) table score
  = Nat.iter (others_matching (mkRecognizer table) landmarks gesture_id)
             (fun s => (s - 0.1)%float) score.
Proof.
  unfold others_matching. cbn [rules].
  revert score. induction table as [|[k rule_func] table IH]; intros score.
  - reflexivity.
  - cbn [fold_left filter fst snd penalise]. rewrite IH.
    destruct (k =? gesture_id); cbn [negb andb]; [reflexivity|].
    destruct (rule_func landmarks) as [[|]|e];
      cbn [bind try_except holds length]; try reflexivity.
    now rewrite Nat.iter_succ_r.
Qed.

Lemma confidence_value (self : GestureRecognizer) (landmarks : Landmarks)
    (gesture_id : nat) (c : float) :
  _get_gesture_confidence self landmarks gesture_id = Ok c ->
  exists r b,
    reinforce landmarks gesture_id 0.75 = Ok r /\
    centered landmarks = Ok b /\
    c = clamp
          (let s := Nat.iter (others_matching self landmarks gesture_id)
                             (fun s => (s - 0.1)%float) r in
           if b then (s + 0.05)%float else s).
Proof.
  unfold _get_gesture_confidence. destruct self as [table]. cbn [rules].
  destruct (reinforce landmarks gesture_id 0.75) as [r|e]; [|discriminate].
  cbn [bind]. rewrite penalise_fold.
  destruct (centered landmarks) as [b|e]; [|discriminate].
  cbn [bind]. intros [= <-]. now exists r, b.
Qed.

Lemma confidence_range (self : GestureRecognizer) (landmarks : Landmarks)
    (gesture_id : nat) (c : float) :
  _get_gesture_confidence self landmarks gesture_id = Ok c ->
  (0 <=? c)%float = true /\ (c <=? 1)%float = true.
Proof.
  intros H. apply confidence_value in H as (r & b & _ & _ & ->).
  apply clamp_range.
Qed.

Lemma hand21_centered (landmarks : Landmarks) :
  is_hand21 landmarks = true ->
  centered landmarks = Ok (wrist_centered landmarks).
Proof.
  intros H. destruct (hand21_item landmarks 0 H) as (a & b & c & H0); [lia|].
  unfold centered, wrist_centered, coord, item. rewrite H0.
  cbv [bind attr point x y py_and].
  now destruct ((0.2 <? a)%float && (a <? 0.8)%float).
Qed.

(** Case analysis on the outcome of every primitive test that occurs. *)
Ltac prim_step :=
  match goal with
  | H : context [_is_finger_closed ?l ?i] |- _ =>
      destruct (_is_finger_closed l i) as [[|]|?]
  | H : context [distance_between ?l ?i ?j] |- _ =>
      destruct (distance_between l i j) as [?|?]
  | H : context [coord ?l ?i ?f] |- _ =>
      destruct (coord l i f) as [?|?]
  | |- context [_is_finger_closed ?l ?i] =>
      destruct (_is_finger_closed l i) as [[|]|?]
  | |- context [distance_between ?l ?i ?j] =>
      destruct (distance_between l i j) as [?|?]
  | |- context [coord ?l ?i ?f] =>
      destruct (coord l i f) as [?|?]
  end.

Ltac prim_simpl :=
  unfold closed, opened in *;
  repeat match goal with
         | H : context [_is_finger_closed ?l 0] |- _ =>
             change (_is_finger_closed l 0)
               with (py_gt (coord l 3 y) (coord l 4 y)) in H
         | |- context [_is_finger_closed ?l 0] =>
             change (_is_finger_closed l 0)
               with (py_gt (coord l 3 y) (coord l 4 y))
         end;
  cbn [bind py_and py_not py_lt py_gt holds closed opened negb andb
       count_extended seq Nat.eqb try_except raises] in *.

Ltac prim_cases :=
  prim_simpl; try discriminate;
  repeat (prim_step; prim_simpl; try discriminate).

Ltac table_entry H :=
  unfold rule_matches, rule_result in H;
  cbn [recognizer rules _init_classifier lookup_rule Nat.eqb option_map] in H.

(** On a letter whose rule matched, the letter-specific part of the scorer
    does not raise and adds what the specification says. *)
Lemma reinforce_matched (landmarks : Landmarks) (gesture_id : nat)
    (score : float) :
  rule_matches recognizer landmarks gesture_id = true ->
  reinforce landmarks gesture_id score
  = Ok (spec_reinforcement landmarks gesture_id score).
Proof.
  intros H. unfold spec_reinforcement.
  do 26 (destruct gesture_id as [|gesture_id];
         [ table_entry H; unfold reinforce, extra_check; prim_cases;
           try reflexivity;
           repeat match goal with
                  | |- context [if ?b then _ else _] => destruct b
                  end; reflexivity
         | ]).
  table_entry H. discriminate.
Qed.

Lemma reinforce_B (landmarks : Landmarks) (score : float) :
  (forall finger_idx, 1 <= finger_idx <= 4 ->
     raises (_is_finger_closed landmarks finger_idx) = false) ->
  reinforce landmarks 1 score = Ok (spec_reinforcement landmarks 1 score).
Proof.
  intros H.
  pose proof (H 1 ltac:(lia)) as H1. pose proof (H 2 ltac:(lia)) as H2.
  pose proof (H 3 ltac:(lia)) as H3. pose proof (H 4 ltac:(lia)) as H4.
  clear H. unfold spec_reinforcement, reinforce, extra_check.
  prim_cases; reflexivity.
Qed.

Lemma confidence_formula (self : GestureRecognizer) (landmarks : Landmarks)
    (g : nat) :
  _get_gesture_confidence self landmarks g
  = (r <- reinforce landmarks g 0.75 ;;
     b <- centered landmarks ;;
     Ok (clamp
           (let s := Nat.iter (others_matching self landmarks g)
                              (fun s => (s - 0.1)%float) r in
            if b then (s + 0.05)%float else s))).
Proof.
  unfold _get_gesture_confidence. destruct self as [table]. cbn [rules].
  destruct (reinforce landmarks g 0.75) as [r|e]; [|reflexivity].
  cbn [bind]. now rewrite penalise_fold.
Qed.

Lemma others_matching_le (self : GestureRecognizer) (landmarks : Landmarks)
    (g : nat) :
  others_matching self landmarks g <= length (rules self).
Proof.
  unfold others_matching. induction (rules self) as [|entry table IH];
    [reflexivity|].
  cbn [filter]. destruct (_ && _); cbn [length]; lia.
Qed.

(** The letter-specific part leaves 0.75, or adds 0.15, or takes 0.3 off. *)
Lemma reinforce_values (landmarks : Landmarks) (g : nat) (r : float) :
  reinforce landmarks g 0.75 = Ok r ->
  r = 0.75%float \/ r = (0.75 + 0.15)%float \/ r = (0.75 - 0.3)%float.
Proof.
  unfold reinforce.
  repeat match goal with
         | |- context [if Nat.eqb ?a ?b then _ else _] =>
             destruct (Nat.eqb a b)
         end;
    intros H; prim_cases;
    repeat match goal with
           | H : context [if ?b then _ else _] |- _ => destruct b
           end;
    injection H as <-; auto.
Qed.

Ltac each_count k :=
  do 27 (destruct k as [|k];
         [try (vm_compute; reflexivity); try (intros; lia);
          try (vm_compute; discriminate)|]);
  try lia.

(** On the scores the recognizer can reach, [max(0.0, min(s, 1.0))] is the
    score brought back into [0, 1]. *)
Lemma clamp_refines_spec (r : float) (k : nat) (b : bool) :
  r = 0.75%float \/ r = (0.75 + 0.15)%float \/ r = (0.75 - 0.3)%float ->
  k <= 26 ->
  clamp (if b then (Nat.iter k (fun s => (s - 0.1)%float) r + 0.05)%float
         else Nat.iter k (fun s => (s - 0.1)%float) r)
  = spec_clamp
      (if b then (Nat.iter k (fun s => (s - 0.1)%float) r + 0.05)%float
       else Nat.iter k (fun s => (s - 0.1)%float) r).
Proof.
  intros [-> | [-> | ->]] Hk; destruct b; each_count k.
Qed.

Lemma confidence_of_reinforce (landmarks : Landmarks) (gesture_id : nat) :
  is_hand21 landmarks = true ->
  reinforce landmarks gesture_id 0.75
  = Ok (spec_reinforcement landmarks gesture_id 0.75) ->
  _get_gesture_confidence recognizer landmarks gesture_id
  = Ok (spec_confidence recognizer landmarks gesture_id).
Proof.
  intros Hhand Hr.
  rewrite confidence_formula, Hr, (hand21_centered _ Hhand). cbn [bind].
  unfold spec_confidence. cbv zeta. f_equal.
  apply clamp_refines_spec.
  - now apply reinforce_values in Hr.
  - apply (others_matching_le recognizer).
Qed.

(** C4: on a 21-landmark hand and a letter whose rule matched, the scorer
    returns 0.75, plus the reinforcement of the letter (A, B, C, D, L, O,
    V, W, Y only: +0.15 when its check passes, -0.3 for B otherwise), minus
    0.1 per other matching letter, plus 0.05 for a centred wrist, clamped
    to [0, 1]: a score below 0 gives 0, a score above 1 gives 1.  The same
    holds for B wherever its four finger tests return, which is where the
    -0.3 applies. *)
Theorem confidence_refines_spec (landmarks : Landmarks) (gesture_id : nat) :
  is_hand21 landmarks = true ->
  rule_matches recognizer landmarks gesture_id = true \/
  (gesture_id = 1 /\
   forall finger_idx, 1 <= finger_idx <= 4 ->
     raises (_is_finger_closed landmarks finger_idx) = false) ->
  _get_gesture_confidence recognizer landmarks gesture_id
  = Ok (spec_confidence recognizer landmarks gesture_id).
Proof.
  intros Hhand [Hm | [-> HB]]; apply confidence_of_reinforce; trivial.
  - now apply reinforce_matched.
  - now apply reinforce_B.
Qed.

(** C5: whatever the coordinates, a confidence the scorer returns lies in
    [0, 1]; and on a 21-landmark hand it does return one for every letter
    whose rule matched. *)
Theorem confidence_in_unit_interval (landmarks : Landmarks)
    (gesture_id : nat) :
  is_hand21 landmarks = true ->
  (forall c, _get_gesture_confidence recognizer landmarks gesture_id = Ok c ->
     (0 <=? c)%float = true /\ (c <=? 1)%float = true) /\
  (rule_matches recognizer landmarks gesture_id = true ->
   exists c, _get_gesture_confidence recognizer landmarks gesture_id = Ok c /\
             (0 <=? c)%float = true /\ (c <=? 1)%float = true).
Proof.
  intros Hhand. split.
  - intros c. apply confidence_range.
  - intros Hm. exists (spec_confidence recognizer landmarks gesture_id).
    assert (Hc : _get_gesture_confidence recognizer landmarks gesture_id
                 = Ok (spec_confidence recognizer landmarks gesture_id)).
    { apply confidence_of_reinforce; trivial. now apply reinforce_matched. }
    split; [exact Hc|]. exact (confidence_range _ _ _ _ Hc).
Qed.

(** * The selector *)

Lemma consider_scored (self : GestureRecognizer) (landmarks : Landmarks)
    (best : Best) (entry : nat * Rule) :
  consider self landmarks best entry
  = match scored self landmarks entry with
    | Some c =>
        if (snd best <? c)%float then (Some (fst entry), c) else best
    | None => best
    end.
Proof.
  destruct entry as [g rule_func]. unfold consider, scored. cbn [fst snd].
  destruct (rule_func landmarks) as [[|]|e]; cbn [bind try_except];
    try reflexivity.
  destruct (_get_gesture_confidence self landmarks g) as [c|e];
    reflexivity.
Qed.

Lemma scored_range (self : GestureRecognizer) (landmarks : Landmarks)
    (entry : nat * Rule) (c : float) :
  scored self landmarks entry = Some c ->
  (0 <=? c)%float = true /\ (c <=? 1)%float = true.
Proof.
  unfold scored. destruct (snd entry landmarks) as [[|]|e]; try discriminate.
  destruct (_get_gesture_confidence self landmarks (fst entry)) as [c'|e]
    eqn:Hc; try discriminate.
  intros [= <-]. now apply confidence_range in Hc.
Qed.

Lemma scored_number (self : GestureRecognizer) (landmarks : Landmarks)
    (entry : nat * Rule) (c : float) :
  scored self landmarks entry = Some c -> (c <=? c)%float = true.
Proof.
  intros H. apply scored_range in H as [H _]. now apply leb_refl_r in H.
Qed.

(** The invariant of the loop. *)
Lemma fold_consider_leads (self : GestureRecognizer) (landmarks : Landmarks)
    (table : list (nat * Rule)) :
  leads self landmarks table
    (fold_left (consider self landmarks) table (None, 0%float)).
Proof.
  induction table as [|entry table IH] using rev_ind.
  - cbn. split; [reflexivity|]. intros entry c [].
  - rewrite fold_left_app. cbn [fold_left]. rewrite consider_scored.
    destruct (fold_left (consider self landmarks) table (None, 0%float))
      as [[g|] bc]; cbn [leads snd] in *.
    + destruct IH as (before & rule_func & after & -> & Hs & H0 & Hb & Ha).
      destruct (scored self landmarks entry) as [c|] eqn:Hc.
      * destruct (bc <? c)%float eqn:Hlt.
        -- exists (before ++ (g, rule_func) :: after), (snd entry), [].
           destruct entry as [ge re]. cbn [fst snd].
           repeat split; trivial.
           ++ now apply ltb_trans with bc.
           ++ intros e' c' Hin Hs'.
              apply in_app_or in Hin as [Hin | [<- | Hin]].
              ** apply ltb_trans with bc; eauto.
              ** rewrite Hs in Hs'. now injection Hs' as <-.
              ** apply leb_ltb_trans with bc; eauto.
           ++ intros e' c' [].
        -- exists before, rule_func, (after ++ [entry]).
           rewrite <- app_assoc. repeat split; trivial.
           intros e' c' Hin Hs'.
           apply in_app_or in Hin as [Hin | [<- | []]]; eauto.
           rewrite Hc in Hs'. injection Hs' as <-.
           apply leb_total; trivial.
           ++ apply ltb_leb in H0. now apply leb_refl_r in H0.
           ++ now apply scored_number in Hc.
      * exists before, rule_func, (after ++ [entry]).
        rewrite <- app_assoc. repeat split; trivial.
        intros e' c' Hin Hs'.
        apply in_app_or in Hin as [Hin | [<- | []]]; eauto.
        congruence.
    + destruct IH as [-> IH].
      destruct (scored self landmarks entry) as [c|] eqn:Hc.
      * destruct (0 <? c)%float eqn:Hlt.
        -- exists table, (snd entry), []. destruct entry as [ge re].
           cbn [fst snd]. repeat split; trivial.
           ++ intros e' c' Hin Hs'.
              apply leb_ltb_trans with 0%float; trivial.
              apply leb_total; [reflexivity | | now apply IH with e'].
              now apply scored_number in Hs'.
           ++ intros e' c' [].
        -- split; [reflexivity|]. intros e' c' Hin Hs'.
           apply in_app_or in Hin as [Hin | [<- | []]]; eauto.
           congruence.
      * split; [reflexivity|]. intros e' c' Hin Hs'.
        apply in_app_or in Hin as [Hin | [<- | []]]; eauto.
        congruence.
Qed.

(** A letter is returned: it leads, above 0.7. *)
Lemma recognize_some (self : GestureRecognizer) (landmarks : Landmarks)
    (g : nat) (c : float) :
  _recognize_gesture self landmarks = (Some g, c) ->
  (0.7 <? c)%float = true /\ leads self landmarks (rules self) (Some g, c).
Proof.
  unfold _recognize_gesture.
  pose proof (fold_consider_leads self landmarks (rules self)) as H.
  destruct (fold_left _ _ _) as [bg bc].
  destruct (0.7 <? bc)%float eqn:Hlt; [|discriminate].
  intros [= -> ->]. now split.
Qed.

(** No letter is returned: the answer is [(None, 0.0)] and nothing scored
    above 0.7. *)
Lemma recognize_none (self : GestureRecognizer) (landmarks : Landmarks)
    (c : float) :
  _recognize_gesture self landmarks = (None, c) ->
  c = 0%float /\
  forall entry c', In entry (rules self) ->
    scored self landmarks entry = Some c' -> (0.7 <? c')%float = false.
Proof.
  unfold _recognize_gesture.
  pose proof (fold_consider_leads self landmarks (rules self)) as H.
  destruct (fold_left _ _ _) as [[bg|] bc]; cbn [leads] in H.
  - destruct H as (before & rule_func & after & Ht & Hs & H0 & Hb & Ha).
    destruct (0.7 <? bc)%float eqn:Hlt; [discriminate|].
    intros [= <-]. split; [reflexivity|]. intros entry c' Hin Hs'.
    destruct (0.7 <? c')%float eqn:Hc'; [|reflexivity].
    rewrite <- Hlt. symmetry. apply ltb_leb_trans with c'; trivial.
    rewrite Ht in Hin. apply in_app_or in Hin as [Hin | [<- | Hin]].
    + apply ltb_leb; eauto.
    + rewrite Hs in Hs'. injection Hs' as <-.
      apply ltb_leb in H0. now apply leb_refl_r in H0.
    + eauto.
  - destruct H as [-> H].
    intros Hr. assert (c = 0%float) as ->.
    { destruct (0.7 <? 0)%float; now injection Hr. }
    split; [reflexivity|]. intros entry c' Hin Hs'.
    destruct (0.7 <? c')%float eqn:Hc'; [|reflexivity].
    specialize (H entry c' Hin Hs').
    rewrite <- H. symmetry. apply ltb_trans with 0.7%float; trivial.
Qed.

(** ** The table of the recognizer *)

Lemma rules_ids : map fst (rules recognizer) = seq 0 26.
Proof. reflexivity. Qed.

Lemma seq_split (start len : nat) (before after : list nat) (g : nat) :
  seq start len = before ++ g :: after ->
  (forall k, In k before -> k < g) /\ (forall k, In k after -> g < k).
Proof.
  revert start len. induction before as [|a before IH]; intros start len H.
  - destruct len as [|len]; [discriminate|]. cbn in H.
    injection H as <- <-. split; [intros k []|].
    intros k Hk. apply in_seq in Hk. lia.
  - destruct len as [|len]; [discriminate|]. cbn in H.
    injection H as <- H. destruct (IH _ _ H) as [Hb Ha]. split; trivial.
    intros k [<- | Hk]; auto.
    assert (Hg : In g (seq (S start) len)).
    { rewrite H. apply in_or_app. right. now left. }
    apply in_seq in Hg. lia.
Qed.

Lemma lookup_rule_In (table : list (nat * Rule)) (g : nat) (r : Rule) :
  lookup_rule table g = Some r -> In (g, r) table.
Proof.
  induction table as [|[k rule_func] table IH]; cbn; [discriminate|].
  destruct (Nat.eqb_spec k g) as [-> | Hk].
  - intros [= ->]. now left.
  - intros H. right. auto.
Qed.

Lemma In_lookup_rule (table : list (nat * Rule)) (g : nat) (r : Rule) :
  NoDup (map fst table) -> In (g, r) table -> lookup_rule table g = Some r.
Proof.
  induction table as [|[k rule_func] table IH]; cbn; [intros _ []|].
  intros Hnd [H | H].
  - injection H as -> ->. now rewrite Nat.eqb_refl.
  - apply NoDup_cons_iff in Hnd as [Hk Hnd].
    destruct (Nat.eqb_spec k g) as [-> | _]; auto.
    exfalso. apply Hk. apply in_map_iff. now exists (g, r).
Qed.

Lemma rules_NoDup : NoDup (map fst (rules recognizer)).
Proof. rewrite rules_ids. apply seq_NoDup. Qed.

(** Where an entry stands in the table of the recognizer: after the
    smaller ids and before the greater ones. *)
Lemma rules_split (before after : list (nat * Rule)) (g : nat) (r : Rule) :
  rules recognizer = before ++ (g, r) :: after ->
  lookup_rule (rules recognizer) g = Some r /\
  (forall entry, In entry before -> fst entry < g) /\
  (forall entry, In entry after -> g < fst entry).
Proof.
  intros H. split.
  - apply In_lookup_rule; [apply rules_NoDup|].
    rewrite H. apply in_or_app. right. now left.
  - pose proof rules_ids as Hids. rewrite H, map_app in Hids. cbn [map fst] in Hids.
    symmetry in Hids. apply seq_split in Hids as [Hb Ha].
    split; intros entry Hin; [apply Hb | apply Ha]; now apply in_map.
Qed.

Lemma scored_lookup (self : GestureRecognizer) (landmarks : Landmarks)
    (g : nat) (r : Rule) (c : float) :
  lookup_rule (rules self) g = Some r ->
  scored self landmarks (g, r) = Some c <->
  rule_matches self landmarks g = true /\
  _get_gesture_confidence self landmarks g = Ok c.
Proof.
  intros Hl. unfold scored, rule_matches, rule_result. rewrite Hl.
  cbn [option_map fst snd].
  destruct (r landmarks) as [[|]|e]; cbn [holds];
    try (split; [discriminate | intros [? _]; discriminate]).
  destruct (_get_gesture_confidence self landmarks g) as [c'|e]; split.
  - intros [= ->]. now split.
  - now intros [_ [= ->]].
  - discriminate.
  - now intros [_ ?].
Qed.

Lemma rule_matches_lookup (self : GestureRecognizer) (landmarks : Landmarks)
    (g : nat) :
  rule_matches self landmarks g = true ->
  exists r, lookup_rule (rules self) g = Some r.
Proof.
  unfold rule_matches, rule_result.
  destruct (lookup_rule (rules self) g) as [r|]; [eauto | discriminate].
Qed.

(** What a returned letter satisfies, in terms of letters. *)
Lemma recognizer_best (landmarks : Landmarks) (g : nat) (c : float) :
  _recognize_gesture recognizer landmarks = (Some g, c) ->
  rule_matches recognizer landmarks g = true /\
  _get_gesture_confidence recognizer landmarks g = Ok c /\
  (0.7 <? c)%float = true /\
  forall g' c',
    rule_matches recognizer landmarks g' = true ->
    _get_gesture_confidence recognizer landmarks g' = Ok c' ->
    (c' <=? c)%float = true /\ (g' < g -> (c' <? c)%float = true).
Proof.
  intros H. apply recognize_some in H as [Hlt H]. cbn [leads] in H.
  destruct H as (before & r & after & Ht & Hs & H0 & Hb & Ha).
  destruct (rules_split _ _ _ _ Ht) as (Hl & Hidb & Hida).
  pose proof (proj1 (scored_lookup _ landmarks _ _ c Hl) Hs) as [Hm Hc].
  repeat split; trivial.
  - destruct (rule_matches_lookup _ _ _ H) as [r' Hl'].
    pose proof (proj2 (scored_lookup _ landmarks _ _ c' Hl') (conj H H1))
      as Hs'.
    apply lookup_rule_In in Hl'. rewrite Ht in Hl'.
    apply in_app_or in Hl' as [Hin | [Heq | Hin]].
    + apply ltb_leb. eauto.
    + injection Heq as <- <-. rewrite Hs in Hs'. injection Hs' as <-.
      now apply scored_number in Hs.
    + eauto.
  - intros Hlt'.
    destruct (rule_matches_lookup _ _ _ H) as [r' Hl'].
    pose proof (proj2 (scored_lookup _ landmarks _ _ c' Hl') (conj H H1))
      as Hs'.
    apply lookup_rule_In in Hl'. rewrite Ht in Hl'.
    apply in_app_or in Hl' as [Hin | [Heq | Hin]].
    + eauto.
    + injection Heq as <- <-. lia.
    + apply Hida in Hin. cbn in Hin. lia.
Qed.

Lemma recognizer_none (landmarks : Landmarks) (c : float) :
  _recognize_gesture recognizer landmarks = (None, c) ->
  c = 0%float /\
  forall g' c',
    rule_matches recognizer landmarks g' = true ->
    _get_gesture_confidence recognizer landmarks g' = Ok c' ->
    (0.7 <? c')%float = false.
Proof.
  intros H. apply recognize_none in H as [-> H]. split; [reflexivity|].
  intros g' c' Hm Hc.
  destruct (rule_matches_lookup _ _ _ Hm) as [r' Hl'].
  apply (H (g', r')); [now apply lookup_rule_In|].
  now apply scored_lookup.
Qed.

Lemma matched_confidence (landmarks : Landmarks) (g : nat) :
  is_hand21 landmarks = true ->
  rule_matches recognizer landmarks g = true ->
  _get_gesture_confidence recognizer landmarks g
  = Ok (spec_confidence recognizer landmarks g).
Proof.
  intros Hhand Hm. apply confidence_of_reinforce; trivial.
  now apply reinforce_matched.
Qed.

(** C1: the selector goes through the 26 rules in the order A to Z, scores
    every rule that matches and keeps the greatest confidence under a
    strict comparison, so that among equal confidences the first letter
    stays; it returns that letter with its confidence exactly when the
    confidence exceeds 0.7, and [(None, 0.0)] otherwise. *)
Theorem selector_first_best_above_threshold (landmarks : Landmarks) :
  is_hand21 landmarks = true ->
  map fst (rules recognizer) = seq 0 26 /\
  gestures = combine (seq 0 26) letters /\
  (forall g, rule_matches recognizer landmarks g = true ->
     exists c, _get_gesture_confidence recognizer landmarks g = Ok c) /\
  (forall g c,
     _recognize_gesture recognizer landmarks = (Some g, c) <->
     rule_matches recognizer landmarks g = true /\
     _get_gesture_confidence recognizer landmarks g = Ok c /\
     (0.7 <? c)%float = true /\
     forall g' c',
       rule_matches recognizer landmarks g' = true ->
       _get_gesture_confidence recognizer landmarks g' = Ok c' ->
       (c' <=? c)%float = true /\ (g' < g -> (c' <? c)%float = true)) /\
  (forall c,
     _recognize_gesture recognizer landmarks = (None, c) <->
     c = 0%float /\
     forall g' c',
       rule_matches recognizer landmarks g' = true ->
       _get_gesture_confidence recognizer landmarks g' = Ok c' ->
       (0.7 <? c')%float = false).
Proof.
  intros Hhand. split; [reflexivity|]. split; [reflexivity|].
  split; [|split].
  - intros g Hm. eexists. now apply matched_confidence.
  - intros g c. split; [apply recognizer_best|].
    intros (Hm & Hc & Hlt & Hbest).
    destruct (_recognize_gesture recognizer landmarks) as [[g0|] c0] eqn:Hr.
    + apply recognizer_best in Hr as (Hm0 & Hc0 & Hlt0 & Hbest0).
      destruct (Hbest0 g c Hm Hc) as [Hle Hfirst].
      destruct (Hbest g0 c0 Hm0 Hc0) as [Hle0 Hfirst0].
      assert (c = c0) as <-.
      { apply leb_antisym; trivial. now apply ltb_trans with 0.7%float. }
      destruct (Nat.lt_trichotomy g g0) as [Hlt' | [-> | Hlt']].
      * apply Hfirst in Hlt'. now rewrite ltb_irrefl in Hlt'.
      * reflexivity.
      * apply Hfirst0 in Hlt'. now rewrite ltb_irrefl in Hlt'.
    + apply recognizer_none in Hr as [_ Hr].
      rewrite (Hr g c Hm Hc) in Hlt. discriminate.
  - intros c. split; [apply recognizer_none|].
    intros [-> Hnone].
    destruct (_recognize_gesture recognizer landmarks) as [[g0|] c0] eqn:Hr.
    + apply recognizer_best in Hr as (Hm0 & Hc0 & Hlt0 & _).
      rewrite (Hnone g0 c0 Hm0 Hc0) in Hlt0. discriminate.
    + apply recognizer_none in Hr as [-> _]. reflexivity.
Qed.

(** ** Letters whose rules coincide *)

(** The entries of the table that match are those other than [g] that
    match, and the entry of [g] when it matches. *)
Lemma others_matching_total (self : GestureRecognizer)
    (landmarks : Landmarks) (g : nat) :
  length (filter (fun entry : nat * Rule => holds (snd entry landmarks))
                 (rules self))
  = others_matching self landmarks g
    + length (filter (fun entry : nat * Rule =>
                        (fst entry =? g) && holds (snd entry landmarks))
                     (rules self)).
Proof.
  unfold others_matching. destruct self as [table]. cbn [rules].
  induction table as [|[k r] table IH]; [reflexivity|].
  cbn [filter fst snd].
  destruct (k =? g), (holds (r landmarks)); cbn [negb andb length]; lia.
Qed.

Lemma own_count_absent (landmarks : Landmarks) (table : list (nat * Rule))
    (g : nat) :
  ~ In g (map fst table) ->
  filter (fun entry : nat * Rule =>
            (fst entry =? g) && holds (snd entry landmarks)) table = [].
Proof.
  induction table as [|[k r] table IH]; [reflexivity|].
  cbn [map fst snd filter In]. intros H.
  destruct (Nat.eqb_spec k g) as [-> | _]; [exfalso; apply H; now left|].
  cbn [andb]. apply IH. intros Hin. apply H. now right.
Qed.

Lemma own_count (landmarks : Landmarks) (table : list (nat * Rule))
    (g : nat) (r : Rule) :
  NoDup (map fst table) -> lookup_rule table g = Some r ->
  length (filter (fun entry : nat * Rule =>
                    (fst entry =? g) && holds (snd entry landmarks)) table)
  = if holds (r landmarks) then 1 else 0.
Proof.
  induction table as [|[k r'] table IH]; [discriminate|].
  cbn [map fst snd filter lookup_rule]. intros Hnd Hl.
  apply NoDup_cons_iff in Hnd as [Hk Hnd].
  destruct (Nat.eqb_spec k g) as [-> | _].
  - injection Hl as ->. cbn [andb].
    rewrite (own_count_absent landmarks table g Hk).
    now destruct (holds (r landmarks)).
  - cbn [andb]. auto.
Qed.

(** Two letters with the same rule have the same number of competitors. *)
Lemma same_rule_same_penalty (self : GestureRecognizer)
    (landmarks : Landmarks) (g1 g2 : nat) (r : Rule) :
  NoDup (map fst (rules self)) ->
  lookup_rule (rules self) g1 = Some r ->
  lookup_rule (rules self) g2 = Some r ->
  others_matching self landmarks g1 = others_matching self landmarks g2.
Proof.
  intros Hnd H1 H2.
  pose proof (others_matching_total self landmarks g1) as T1.
  pose proof (others_matching_total self landmarks g2) as T2.
  rewrite (own_count landmarks _ _ _ Hnd H1) in T1.
  rewrite (own_count landmarks _ _ _ Hnd H2) in T2. lia.
Qed.

Lemma twin_letters_same_confidence (landmarks : Landmarks) :
  _get_gesture_confidence recognizer landmarks 9
  = _get_gesture_confidence recognizer landmarks 8 /\
  _get_gesture_confidence recognizer landmarks 25
  = _get_gesture_confidence recognizer landmarks 15.
Proof.
  rewrite !confidence_formula.
  destruct (lookup_rule (rules recognizer) 8) as [rI|] eqn:HI;
    [|discriminate HI].
  destruct (lookup_rule (rules recognizer) 15) as [rP|] eqn:HP;
    [|discriminate HP].
  rewrite (same_rule_same_penalty recognizer landmarks 9 8 rI rules_NoDup),
    (same_rule_same_penalty recognizer landmarks 25 15 rP rules_NoDup);
    trivial.
  split; reflexivity.
Qed.

(** C9: the rules of J and I are the same function, and so are those of Z
    and P; the scorer gives both letters of a pair the same confidence; and
    the selector never returns J (id 9) nor Z (id 25), the strict
    comparison keeping the earlier letter of the pair. *)
Theorem selector_never_J_nor_Z (landmarks : Landmarks) :
  is_hand21 landmarks = true ->
  gesture_name gestures 8 = Some "I"%string /\
  gesture_name gestures 9 = Some "J"%string /\
  gesture_name gestures 15 = Some "P"%string /\
  gesture_name gestures 25 = Some "Z"%string /\
  lookup_rule (rules recognizer) 9 = lookup_rule (rules recognizer) 8 /\
  lookup_rule (rules recognizer) 25 = lookup_rule (rules recognizer) 15 /\
  _get_gesture_confidence recognizer landmarks 9
  = _get_gesture_confidence recognizer landmarks 8 /\
  _get_gesture_confidence recognizer landmarks 25
  = _get_gesture_confidence recognizer landmarks 15 /\
  fst (_recognize_gesture recognizer landmarks) <> Some 9 /\
  fst (_recognize_gesture recognizer landmarks) <> Some 25.
Proof.
  intros _.
  destruct (twin_letters_same_confidence landmarks) as [HJ HZ].
  do 6 (split; [reflexivity|]).
  split; [exact HJ|]. split; [exact HZ|]. split.
  - destruct (_recognize_gesture recognizer landmarks) as [bg c] eqn:Hr.
    cbn [fst]. intros ->.
    apply recognizer_best in Hr as (Hm & Hc & _ & Hbest).
    rewrite HJ in Hc.
    destruct (Hbest 8 c Hm Hc) as [_ Hlt].
    specialize (Hlt ltac:(lia)). now rewrite ltb_irrefl in Hlt.
  - destruct (_recognize_gesture recognizer landmarks) as [bg c] eqn:Hr.
    cbn [fst]. intros ->.
    apply recognizer_best in Hr as (Hm & Hc & _ & Hbest).
    rewrite HZ in Hc.
    destruct (Hbest 15 c Hm Hc) as [_ Hlt].
    specialize (Hlt ltac:(lia)). now rewrite ltb_irrefl in Hlt.
Qed.

(** * The gate of the caller *)

Lemma matched_has_name (landmarks : Landmarks) (g : nat) :
  rule_matches recognizer landmarks g = true ->
  exists name, gesture_name gestures g = Some name.
Proof.
  intros H.
  do 26 (destruct g as [|g]; [cbn; eauto|]).
  table_entry H. discriminate.
Qed.

Lemma landmark_dicts_well_formed (landmarks : Landmarks) :
  forallb has_coords landmarks = true ->
  exists landmarks_list, landmark_dicts landmarks = Ok landmarks_list.
Proof.
  induction landmarks as [|p rest IH]; cbn [forallb landmark_dicts].
  - eauto.
  - intros H. apply andb_prop in H as [Hp Hrest].
    destruct (IH Hrest) as [landmarks_list ->].
    destruct p as [[a|] [b|] [c|]]; try discriminate Hp.
    cbv [attr bind x y z]. eauto.
Qed.

(** A hand of 21 well-formed landmarks that MediaPipe draws is copied. *)
Lemma annotate_hand21 (landmarks : Landmarks) :
  is_hand21 landmarks = true -> draw_landmarks landmarks = Ok tt ->
  exists landmarks_list, annotate landmarks = Ok landmarks_list.
Proof.
  intros H Hd. unfold annotate. rewrite Hd. cbn [bind].
  apply landmark_dicts_well_formed.
  unfold is_hand21 in H. now apply andb_prop in H as [_ H].
Qed.

(** C10: a letter the selector returns has a confidence above 0.7, hence
    above 0.6: the gate of [process_frame] lets every returned letter
    through, and reports no gesture exactly when the selector returned
    none.  [process_frame] draws and copies the hand first; it returns the
    response unless that raises, and that does not raise on a hand of 21
    well-formed landmarks that MediaPipe draws. *)
Theorem gate_never_rejects (landmarks : Landmarks) :
  (is_hand21 landmarks = true -> draw_landmarks landmarks = Ok tt ->
   exists landmarks_list, annotate landmarks = Ok landmarks_list) /\
  match _recognize_gesture recognizer landmarks with
  | (Some g, c) =>
      (0.7 <? c)%float = true /\ (0.6 <? c)%float = true /\
      exists name,
        gesture_name gestures g = Some name /\
        process_frame recognizer [landmarks]
        = (landmarks_list <- annotate landmarks ;;
           Ok (mkResponse true true (Some name) c (Some landmarks_list)))
  | (None, c) =>
      c = 0%float /\
      process_frame recognizer [landmarks]
      = (landmarks_list <- annotate landmarks ;;
         Ok (mkResponse true false None 0%float (Some landmarks_list)))
  end.
Proof.
  split; [apply annotate_hand21|].
  unfold process_frame.
  destruct (_recognize_gesture recognizer landmarks) as [[g|] c] eqn:Hr.
  - apply recognizer_best in Hr as (Hm & _ & Hlt & _).
    assert (H6 : (0.6 <? c)%float = true)
      by now apply ltb_trans with 0.7%float.
    destruct (matched_has_name _ _ Hm) as [name Hname].
    repeat split; trivial. exists name. split; [exact Hname|].
    unfold mapping_item. now rewrite H6, Hname.
  - apply recognizer_none in Hr as [-> _]. now split.
Qed.

(** * The order of the table *)

Lemma swap_I_J_perm (table : list (nat * Rule)) :
  Permutation (swap_I_J table) table.
Proof.
  unfold swap_I_J. pose proof (firstn_skipn 8 table) as E.
  destruct (skipn 8 table) as [|a [|b rest]]; try apply Permutation_refl.
  assert (H : Permutation (firstn 8 table ++ b :: a :: rest)
                          (firstn 8 table ++ a :: b :: rest))
    by (apply Permutation_app_head, perm_swap).
  now rewrite E in H.
Qed.

Lemma filter_length_perm {A : Type} (f : A -> bool) (l l' : list A) :
  Permutation l l' -> length (filter f l) = length (filter f l').
Proof.
  induction 1 as [|a l l' _ IH|a b l|l l' l'' _ IH1 _ IH2]; cbn [filter].
  - reflexivity.
  - destruct (f a); cbn [length]; congruence.
  - destruct (f a), (f b); reflexivity.
  - congruence.
Qed.

(** The scorer counts the competitors: it does not depend on the order of
    the table. *)
Lemma confidence_perm (self1 self2 : GestureRecognizer)
    (landmarks : Landmarks) (g : nat) :
  Permutation (rules self1) (rules self2) ->
  _get_gesture_confidence self1 landmarks g
  = _get_gesture_confidence self2 landmarks g.
Proof.
  intros HP. rewrite !confidence_formula. unfold others_matching.
  now rewrite (filter_length_perm _ _ _ HP).
Qed.

Lemma scored_perm (self1 self2 : GestureRecognizer) (landmarks : Landmarks)
    (entry : nat * Rule) :
  Permutation (rules self1) (rules self2) ->
  scored self1 landmarks entry = scored self2 landmarks entry.
Proof.
  intros HP. unfold scored. now rewrite (confidence_perm _ _ _ _ HP).
Qed.

Lemma leads_max (self : GestureRecognizer) (landmarks : Landmarks)
    (table : list (nat * Rule)) (g : nat) (c : float) :
  leads self landmarks table (Some g, c) ->
  (0 <? c)%float = true /\
  (exists r, In (g, r) table /\ scored self landmarks (g, r) = Some c) /\
  forall entry c', In entry table ->
    scored self landmarks entry = Some c' -> (c' <=? c)%float = true.
Proof.
  cbn [leads]. intros (before & r & after & -> & Hs & H0 & Hb & Ha).
  split; [assumption|]. split.
  - exists r. split; [|assumption]. apply in_or_app. right. now left.
  - intros entry c' Hin Hs'.
    apply in_app_or in Hin as [Hin | [<- | Hin]].
    + apply ltb_leb. eauto.
    + rewrite Hs in Hs'. injection Hs' as <-. now apply scored_number in Hs.
    + eauto.
Qed.

(** Two tables with the same entries: both selectors return a letter, with
    the same confidence, or both return none. *)
Lemma recognize_perm (self1 self2 : GestureRecognizer)
    (landmarks : Landmarks) :
  Permutation (rules self1) (rules self2) ->
  match _recognize_gesture self1 landmarks,
        _recognize_gesture self2 landmarks with
  | (Some g1, c1), (Some g2, c2) =>
      c1 = c2 /\
      exists r1, In (g1, r1) (rules self2) /\
                 scored self2 landmarks (g1, r1) = Some c2
  | (None, c1), (None, c2) => c1 = 0%float /\ c2 = 0%float
  | _, _ => False
  end.
Proof.
  intros HP.
  destruct (_recognize_gesture self1 landmarks) as [[g1|] c1] eqn:H1;
    destruct (_recognize_gesture self2 landmarks) as [[g2|] c2] eqn:H2.
  - apply recognize_some in H1 as [Hlt1 L1].
    apply recognize_some in H2 as [Hlt2 L2].
    apply leads_max in L1 as (H01 & (r1 & Hin1 & Hs1) & Hmax1).
    apply leads_max in L2 as (H02 & (r2 & Hin2 & Hs2) & Hmax2).
    assert (c1 = c2) as <-.
    { apply leb_antisym; trivial.
      - apply (Hmax2 (g1, r1)).
        + now apply (Permutation_in _ HP).
        + now rewrite <- (scored_perm _ _ _ _ HP).
      - apply (Hmax1 (g2, r2)).
        + now apply (Permutation_in _ (Permutation_sym HP)).
        + now rewrite (scored_perm _ _ _ _ HP). }
    split; [reflexivity|]. exists r1. split.
    + now apply (Permutation_in _ HP).
    + now rewrite <- (scored_perm _ _ _ _ HP).
  - apply recognize_some in H1 as [Hlt1 L1].
    apply recognize_none in H2 as [_ H2].
    apply leads_max in L1 as (_ & (r1 & Hin1 & Hs1) & _).
    rewrite (H2 (g1, r1) c1) in Hlt1; [discriminate | |].
    + now apply (Permutation_in _ HP).
    + now rewrite <- (scored_perm _ _ _ _ HP).
  - apply recognize_some in H2 as [Hlt2 L2].
    apply recognize_none in H1 as [_ H1].
    apply leads_max in L2 as (_ & (r2 & Hin2 & Hs2) & _).
    rewrite (H1 (g2, r2) c2) in Hlt2; [discriminate | |].
    + now apply (Permutation_in _ (Permutation_sym HP)).
    + now rewrite (scored_perm _ _ _ _ HP).
  - apply recognize_none in H1 as [-> _].
    apply recognize_none in H2 as [-> _]. now split.
Qed.

(** Under a permutation of the table, an entry scores what its letter
    scores in the table of the recognizer. *)
Lemma scored_permuted (self' : GestureRecognizer) (landmarks : Landmarks)
    (entry : nat * Rule) (c : float) :
  Permutation (rules self') (rules recognizer) ->
  In entry (rules self') ->
  rule_matches recognizer landmarks (fst entry) = true ->
  _get_gesture_confidence recognizer landmarks (fst entry) = Ok c ->
  scored self' landmarks entry = Some c.
Proof.
  intros HP Hin Hm Hc. rewrite (scored_perm _ _ _ _ HP).
  destruct entry as [g r]. cbn [fst] in *.
  apply (scored_lookup recognizer landmarks g r); [|now split].
  apply In_lookup_rule; [apply rules_NoDup|].
  now apply (Permutation_in _ HP).
Qed.

Lemma permuted_order_core (self' : GestureRecognizer)
    (landmarks : Landmarks) :
  Permutation (rules self') (rules recognizer) ->
  snd (_recognize_gesture self' landmarks)
  = snd (_recognize_gesture recognizer landmarks) /\
  (fst (_recognize_gesture self' landmarks) = None <->
   fst (_recognize_gesture recognizer landmarks) = None) /\
  (forall g' c, _recognize_gesture self' landmarks = (Some g', c) ->
     rule_matches recognizer landmarks g' = true /\
     _get_gesture_confidence recognizer landmarks g' = Ok c) /\
  (forall g c, _recognize_gesture recognizer landmarks = (Some g, c) ->
     (forall g', g' <> g ->
        rule_matches recognizer landmarks g' = true ->
        _get_gesture_confidence recognizer landmarks g' <> Ok c) ->
     _recognize_gesture self' landmarks = (Some g, c)).
Proof.
  intros HP. pose proof (recognize_perm self' recognizer landmarks HP) as H.
  destruct (_recognize_gesture self' landmarks) as [[g1|] c1];
    destruct (_recognize_gesture recognizer landmarks) as [[g2|] c2];
    try contradiction; cbn [fst snd].
  - destruct H as (-> & r1 & Hin & Hs).
    assert (Hg1 : rule_matches recognizer landmarks g1 = true /\
                  _get_gesture_confidence recognizer landmarks g1 = Ok c2).
    { apply (scored_lookup recognizer landmarks g1 r1); trivial.
      apply In_lookup_rule; [apply rules_NoDup | assumption]. }
    split; [reflexivity|]. split; [split; discriminate|]. split.
    + intros g' c [= <- <-]. exact Hg1.
    + intros g c [= <- <-] Huniq.
      destruct (Nat.eq_dec g1 g2) as [-> | Hne]; [reflexivity|].
      destruct Hg1 as [Hm Hc]. now destruct (Huniq g1 Hne Hm).
  - destruct H as [-> ->].
    split; [reflexivity|]. split; [split; reflexivity|]. split; discriminate.
Qed.

(** The letter a permuted table returns stands, in that table, after the
    matching letters of lower confidence only, and before no matching letter
    of higher confidence. *)
Lemma permuted_order_first (self' : GestureRecognizer)
    (landmarks : Landmarks) (g' : nat) (c : float) :
  Permutation (rules self') (rules recognizer) ->
  _recognize_gesture self' landmarks = (Some g', c) ->
  exists before rule_func after,
    rules self' = before ++ (g', rule_func) :: after /\
    (forall g c', In g (map fst before) ->
       rule_matches recognizer landmarks g = true ->
       _get_gesture_confidence recognizer landmarks g = Ok c' ->
       (c' <? c)%float = true) /\
    (forall g c', In g (map fst after) ->
       rule_matches recognizer landmarks g = true ->
       _get_gesture_confidence recognizer landmarks g = Ok c' ->
       (c' <=? c)%float = true).
Proof.
  intros HP Hr. apply recognize_some in Hr as [_ L]. cbn [leads] in L.
  destruct L as (before & r & after & Ht & _ & _ & Hb & Ha).
  exists before, r, after. split; [exact Ht|].
  split; intros g c' Hin Hm Hc;
    apply in_map_iff in Hin as (entry & <- & Hin).
  - apply (Hb entry c' Hin). apply scored_permuted; trivial.
    rewrite Ht. apply in_or_app. now left.
  - apply (Ha entry c' Hin). apply scored_permuted; trivial.
    rewrite Ht. apply in_or_app. right. now right.
Qed.

(** C7, amended: under any permutation of the table the selector returns
    the same confidence, and a letter exactly when the original order
    returns one; the letter is one whose rule matches with that confidence,
    and it is the same letter whenever no other matching letter has that
    very confidence; with a tie, the tied letter that comes first in the
    evaluation order is returned: every matching letter evaluated before the
    returned one has a strictly lower confidence, and none evaluated after
    it has a higher one. *)
Theorem permuted_order_same_confidence (self' : GestureRecognizer)
    (landmarks : Landmarks) :
  Permutation (rules self') (rules recognizer) ->
  snd (_recognize_gesture self' landmarks)
  = snd (_recognize_gesture recognizer landmarks) /\
  (fst (_recognize_gesture self' landmarks) = None <->
   fst (_recognize_gesture recognizer landmarks) = None) /\
  (forall g' c, _recognize_gesture self' landmarks = (Some g', c) ->
     rule_matches recognizer landmarks g' = true /\
     _get_gesture_confidence recognizer landmarks g' = Ok c) /\
  (forall g c, _recognize_gesture recognizer landmarks = (Some g, c) ->
     (forall g', g' <> g ->
        rule_matches recognizer landmarks g' = true ->
        _get_gesture_confidence recognizer landmarks g' <> Ok c) ->
     _recognize_gesture self' landmarks = (Some g, c)) /\
  (forall g' c, _recognize_gesture self' landmarks = (Some g', c) ->
     exists before rule_func after,
       rules self' = before ++ (g', rule_func) :: after /\
       (forall g c', In g (map fst before) ->
          rule_matches recognizer landmarks g = true ->
          _get_gesture_confidence recognizer landmarks g = Ok c' ->
          (c' <? c)%float = true) /\
       (forall g c', In g (map fst after) ->
          rule_matches recognizer landmarks g = true ->
          _get_gesture_confidence recognizer landmarks g = Ok c' ->
          (c' <=? c)%float = true)).
Proof.
  intros HP.
  destruct (permuted_order_core self' landmarks HP) as (H1 & H2 & H3 & H4).
  split; [exact H1|]. split; [exact H2|]. split; [exact H3|].
  split; [exact H4|].
  intros g' c. now apply permuted_order_first.
Qed.

(** * Errors inside the rules *)

Lemma holds_no_raise (rule_func : Rule) (landmarks : Landmarks) :
  holds (no_raise rule_func landmarks) = holds (rule_func landmarks).
Proof. unfold no_raise. now destruct (rule_func landmarks) as [[|]|e]. Qed.

Lemma others_matching_isolate (self : GestureRecognizer)
    (landmarks : Landmarks) (g : nat) :
  others_matching (isolate_errors self) landmarks g
  = others_matching self landmarks g.
Proof.
  unfold others_matching, isolate_errors. destruct self as [table].
  cbn [rules]. induction table as [|[k r] table IH]; [reflexivity|].
  cbn [map filter fst snd]. rewrite holds_no_raise.
  destruct (negb (k =? g) && holds (r landmarks)); cbn [length]; congruence.
Qed.

Lemma confidence_isolate (self : GestureRecognizer) (landmarks : Landmarks)
    (g : nat) :
  _get_gesture_confidence (isolate_errors self) landmarks g
  = _get_gesture_confidence self landmarks g.
Proof. now rewrite !confidence_formula, others_matching_isolate. Qed.

Lemma consider_isolate (self : GestureRecognizer) (landmarks : Landmarks)
    (best : Best) (entry : nat * Rule) :
  consider (isolate_errors self) landmarks best
           (fst entry, no_raise (snd entry))
  = consider self landmarks best entry.
Proof.
  rewrite !consider_scored. unfold scored. cbn [fst snd].
  rewrite confidence_isolate. unfold no_raise.
  now destruct (snd entry landmarks) as [[|]|e].
Qed.

(** A rule that raises counts as a rule that answers false, for this letter
    and for the penalty of the others; the other rules are evaluated as
    before. *)
Lemma recognize_isolate (self : GestureRecognizer) (landmarks : Landmarks) :
  _recognize_gesture (isolate_errors self) landmarks
  = _recognize_gesture self landmarks.
Proof.
  unfold _recognize_gesture.
  assert (H : forall table best,
             fold_left (consider (isolate_errors self) landmarks)
               (map (fun entry : nat * Rule =>
                       (fst entry, no_raise (snd entry))) table) best
             = fold_left (consider self landmarks) table best).
  { induction table as [|entry table IH]; intros best; [reflexivity|].
    cbn [map fold_left]. now rewrite consider_isolate, IH. }
  unfold isolate_errors at 2. cbn [rules]. now rewrite H.
Qed.

Lemma no_match_none (landmarks : Landmarks) :
  (forall g, rule_matches recognizer landmarks g = false) ->
  _recognize_gesture recognizer landmarks = (None, 0%float).
Proof.
  intros H.
  destruct (_recognize_gesture recognizer landmarks) as [[g|] c] eqn:Hr.
  - apply recognizer_best in Hr as (Hm & _). rewrite H in Hm. discriminate.
  - apply recognizer_none in Hr as [-> _]. reflexivity.
Qed.

Lemma raises_bind {A B : Type} (m : res A) (k : A -> res B) :
  raises m = true -> raises (bind m k) = true.
Proof. now destruct m. Qed.

Lemma raises_and (a b : res bool) :
  raises a = true -> raises (a &&& b) = true.
Proof. apply raises_bind. Qed.

Lemma raises_not (a : res bool) : raises a = true -> raises (py_not a) = true.
Proof. apply raises_bind. Qed.

Lemma raises_lt (a b : res float) :
  raises a = true -> raises (py_lt a b) = true.
Proof. apply raises_bind. Qed.

Lemma raises_gt (a b : res float) :
  raises a = true -> raises (py_gt a b) = true.
Proof. apply raises_bind. Qed.

Lemma short_item (landmarks : Landmarks) (i : nat) :
  length landmarks < 8 -> 7 <= i -> item landmarks i = Raise IndexError.
Proof.
  intros Hlen Hi. unfold item.
  destruct (nth_error landmarks i) eqn:H; [|reflexivity].
  assert (i < length landmarks) by (apply nth_error_Some; congruence). lia.
Qed.

Lemma short_index_finger (landmarks : Landmarks) :
  length landmarks < 8 -> raises (_is_finger_closed landmarks 1) = true.
Proof.
  intros Hlen. unfold _is_finger_closed, distance_between.
  cbn [Nat.eqb Nat.mul Nat.add].
  rewrite (short_item landmarks 7 Hlen) by lia.
  destruct (item landmarks 5) as [p5|e]; [|reflexivity].
  destruct (item landmarks 6) as [p6|e]; [|reflexivity].
  cbn [bind]. now destruct (_get_distance p5 p6).
Qed.

Lemma short_index_tip (landmarks : Landmarks) (i : nat) :
  length landmarks < 8 ->
  raises (distance_between landmarks i 8) = true.
Proof.
  intros Hlen. unfold distance_between.
  rewrite (short_item landmarks 8 Hlen) by lia.
  now destruct (item landmarks i).
Qed.

Lemma short_coord (landmarks : Landmarks) (i : nat)
    (f : Landmark -> option float) :
  length landmarks < 8 -> 7 <= i -> raises (coord landmarks i f) = true.
Proof. intros Hlen Hi. unfold coord. now rewrite short_item. Qed.

(** With fewer than 8 landmarks every rule raises. *)
Lemma short_input_all_raise (landmarks : Landmarks) :
  length landmarks < 8 ->
  Forall (fun entry : nat * Rule => raises (snd entry landmarks) = true)
         (rules recognizer).
Proof.
  intros Hlen.
  pose proof (short_index_finger landmarks Hlen) as H1.
  pose proof (short_index_tip landmarks 4 Hlen) as H2.
  pose proof (short_coord landmarks 8 y Hlen ltac:(lia)) as H3.
  unfold recognizer, _init_classifier. cbn [rules].
  repeat (apply Forall_cons;
          [ cbn [snd]; unfold closed, opened;
            repeat apply raises_and;
            first [ exact H1 | apply raises_not; exact H1
                  | apply raises_lt; exact H2 | apply raises_gt; exact H3 ]
          | ]).
  apply Forall_nil.
Qed.

Lemma all_raise_no_match (landmarks : Landmarks) :
  Forall (fun entry : nat * Rule => raises (snd entry landmarks) = true)
         (rules recognizer) ->
  forall g, rule_matches recognizer landmarks g = false.
Proof.
  intros H g. unfold rule_matches, rule_result.
  destruct (lookup_rule (rules recognizer) g) as [r|] eqn:Hl; [|reflexivity].
  apply lookup_rule_In in Hl. rewrite Forall_forall in H.
  specialize (H _ Hl). cbn [snd option_map] in *.
  now destruct (r landmarks).
Qed.

(** C8, amended: on every input, malformed or not, the selector returns a
    pair and lets no exception through; a rule that raises counts as a
    rule that answers false, for its letter only, the other rules being
    evaluated as before; the answer is [(None, 0.0)] when no rule matches,
    which is the case whenever there are fewer than 8 landmarks, where
    every rule raises. *)
Theorem rule_errors_are_isolated (landmarks : Landmarks) :
  _recognize_gesture (isolate_errors recognizer) landmarks
  = _recognize_gesture recognizer landmarks /\
  ((forall g, rule_matches recognizer landmarks g = false) ->
   _recognize_gesture recognizer landmarks = (None, 0%float)) /\
  (length landmarks < 8 ->
   Forall (fun entry : nat * Rule => raises (snd entry landmarks) = true)
          (rules recognizer) /\
   _recognize_gesture recognizer landmarks = (None, 0%float)).
Proof.
  split; [apply recognize_isolate|]. split; [apply no_match_none|].
  intros Hlen. pose proof (short_input_all_raise landmarks Hlen) as H.
  split; [exact H|]. apply no_match_none. now apply all_raise_no_match.
Qed.


(** * Letters the selector cannot return *)

(** A matching letter competes with all the matching rules but its own. *)
Lemma matched_penalty (landmarks : Landmarks) (g : nat) :
  rule_matches recognizer landmarks g = true ->
  S (others_matching recognizer landmarks g)
  = total_matching recognizer landmarks.
Proof.
  intros Hm. unfold total_matching.
  rewrite (others_matching_total recognizer landmarks g).
  unfold rule_matches, rule_result in Hm.
  destruct (lookup_rule (rules recognizer) g) as [r|] eqn:Hl;
    [|discriminate].
  cbn [option_map] in Hm.
  rewrite (own_count landmarks _ _ _ rules_NoDup Hl), Hm. lia.
Qed.

Lemma confidence_score (self : GestureRecognizer) (landmarks : Landmarks)
    (g : nat) :
  _get_gesture_confidence self landmarks g
  = (r <- reinforce landmarks g 0.75 ;;
     b <- centered landmarks ;;
     Ok (score r (others_matching self landmarks g) b)).
Proof. apply confidence_formula. Qed.

(** A letter [g] is never returned when an earlier letter [g0] matches
    whenever [g] does, with the same letter-specific part of the score. *)
Lemma shadowed_equal (landmarks : Landmarks) (g g0 : nat) :
  g0 < g ->
  (rule_matches recognizer landmarks g = true ->
   rule_matches recognizer landmarks g0 = true) ->
  reinforce landmarks g0 0.75 = reinforce landmarks g 0.75 ->
  fst (_recognize_gesture recognizer landmarks) <> Some g.
Proof.
  intros Hlt Himp Hre.
  destruct (_recognize_gesture recognizer landmarks) as [bg c] eqn:Hr.
  cbn [fst]. intros ->.
  apply recognizer_best in Hr as (Hm & Hc & _ & Hbest).
  pose proof (Himp Hm) as Hm0.
  assert (Hk : others_matching recognizer landmarks g0
               = others_matching recognizer landmarks g).
  { apply matched_penalty in Hm, Hm0. lia. }
  assert (Hc0 : _get_gesture_confidence recognizer landmarks g0 = Ok c).
  { rewrite confidence_score in *. now rewrite Hre, Hk. }
  destruct (Hbest g0 c Hm0 Hc0) as [_ H].
  specialize (H Hlt). now rewrite ltb_irrefl in H.
Qed.

Lemma score_reinforced_not_below (k : nat) (b : bool) :
  k <= 26 ->
  (score (0.75 + 0.15) k b <? score 0.75 k b)%float = false.
Proof.
  intros Hk.
  do 27 (destruct k as [|k]; [destruct b; vm_compute; reflexivity|]).
  lia.
Qed.

(** A letter [g] is never returned when an earlier letter [g0] matches
    whenever [g] does and is reinforced. *)
Lemma shadowed_reinforced (landmarks : Landmarks) (g g0 : nat) :
  g0 < g ->
  (rule_matches recognizer landmarks g = true ->
   rule_matches recognizer landmarks g0 = true) ->
  (rule_matches recognizer landmarks g0 = true ->
   reinforce landmarks g0 0.75 = Ok (0.75 + 0.15)%float) ->
  (rule_matches recognizer landmarks g = true ->
   reinforce landmarks g 0.75 = Ok 0.75%float \/
   reinforce landmarks g 0.75 = Ok (0.75 + 0.15)%float) ->
  fst (_recognize_gesture recognizer landmarks) <> Some g.
Proof.
  intros Hlt Himp Hre0 Hre.
  destruct (_recognize_gesture recognizer landmarks) as [bg c] eqn:Hr.
  cbn [fst]. intros ->.
  apply recognizer_best in Hr as (Hm & Hc & _ & Hbest).
  pose proof (Himp Hm) as Hm0.
  assert (Hk : others_matching recognizer landmarks g0
               = others_matching recognizer landmarks g).
  { pose proof (matched_penalty _ _ Hm). pose proof (matched_penalty _ _ Hm0).
    lia. }
  pose proof (others_matching_le recognizer landmarks g) as Hle.
  change (length (rules recognizer)) with 26 in Hle.
  rewrite confidence_score in Hc.
  pose proof (confidence_score recognizer landmarks g0) as Hc0.
  rewrite (Hre0 Hm0), Hk in Hc0. cbn [bind] in Hc0.
  destruct (centered landmarks) as [b|e];
    [|destruct (reinforce landmarks g 0.75); discriminate].
  cbn [bind] in Hc0.
  destruct (Hbest g0 _ Hm0 Hc0) as [_ H]. specialize (H Hlt).
  destruct (Hre Hm) as [Hr | Hr]; rewrite Hr in Hc; cbn [bind] in Hc;
    injection Hc as <-.
  - now rewrite score_reinforced_not_below in H.
  - now rewrite ltb_irrefl in H.
Qed.

(** The primitive tests, then the float comparisons of the hypotheses. *)
Ltac prim_all :=
  prim_cases;
  repeat (match goal with
          | H : context [PrimFloat.ltb ?a ?b] |- _ =>
              destruct (PrimFloat.ltb a b)
          end; prim_simpl; try discriminate).

Ltac rule_goal :=
  unfold rule_matches, rule_result;
  cbn [recognizer rules _init_classifier lookup_rule Nat.eqb option_map].

Ltac rule_implies :=
  let H := fresh "H" in
  intros H; table_entry H; rule_goal; prim_all; reflexivity.

Ltac reinforce_value :=
  let H := fresh "H" in
  intros H; table_entry H; unfold reinforce; cbn [Nat.eqb];
  prim_all; auto.

Lemma rule_K_implies_H (landmarks : Landmarks) :
  rule_matches recognizer landmarks 10 = true ->
  rule_matches recognizer landmarks 7 = true.
Proof. rule_implies. Qed.

Lemma rule_R_implies_H (landmarks : Landmarks) :
  rule_matches recognizer landmarks 17 = true ->
  rule_matches recognizer landmarks 7 = true.
Proof. rule_implies. Qed.

Lemma rule_U_implies_H (landmarks : Landmarks) :
  rule_matches recognizer landmarks 20 = true ->
  rule_matches recognizer landmarks 7 = true.
Proof. rule_implies. Qed.

Lemma rule_N_implies_E (landmarks : Landmarks) :
  rule_matches recognizer landmarks 13 = true ->
  rule_matches recognizer landmarks 4 = true.
Proof. rule_implies. Qed.

Lemma rule_S_implies_E (landmarks : Landmarks) :
  rule_matches recognizer landmarks 18 = true ->
  rule_matches recognizer landmarks 4 = true.
Proof. rule_implies. Qed.

Lemma rule_T_implies_E (landmarks : Landmarks) :
  rule_matches recognizer landmarks 19 = true ->
  rule_matches recognizer landmarks 4 = true.
Proof. rule_implies. Qed.

Lemma rule_C_implies_B (landmarks : Landmarks) :
  rule_matches recognizer landmarks 2 = true ->
  rule_matches recognizer landmarks 1 = true.
Proof. rule_implies. Qed.

Lemma rule_G_implies_D (landmarks : Landmarks) :
  rule_matches recognizer landmarks 6 = true ->
  rule_matches recognizer landmarks 3 = true.
Proof. rule_implies. Qed.

Lemma rule_L_implies_D (landmarks : Landmarks) :
  rule_matches recognizer landmarks 11 = true ->
  rule_matches recognizer landmarks 3 = true.
Proof. rule_implies. Qed.

Lemma rule_P_implies_D (landmarks : Landmarks) :
  rule_matches recognizer landmarks 15 = true ->
  rule_matches recognizer landmarks 3 = true.
Proof. rule_implies. Qed.

Lemma reinforce_B_matched (landmarks : Landmarks) :
  rule_matches recognizer landmarks 1 = true ->
  reinforce landmarks 1 0.75 = Ok (0.75 + 0.15)%float.
Proof. reinforce_value. Qed.

Lemma reinforce_D_matched (landmarks : Landmarks) :
  rule_matches recognizer landmarks 3 = true ->
  reinforce landmarks 3 0.75 = Ok (0.75 + 0.15)%float.
Proof. reinforce_value. Qed.

Lemma reinforce_C_matched (landmarks : Landmarks) :
  rule_matches recognizer landmarks 2 = true ->
  reinforce landmarks 2 0.75 = Ok 0.75%float \/
  reinforce landmarks 2 0.75 = Ok (0.75 + 0.15)%float.
Proof.
  intros H. table_entry H. unfold reinforce. cbn [Nat.eqb]. prim_cases;
    match goal with
    | |- context [if ?b then _ else _] => destruct b
    end; auto.
Qed.

Lemma reinforce_L_matched (landmarks : Landmarks) :
  rule_matches recognizer landmarks 11 = true ->
  reinforce landmarks 11 0.75 = Ok (0.75 + 0.15)%float.
Proof. reinforce_value. Qed.

(** X1: the selector never returns K, R or U, whose rules imply the rule
    of H, nor N, S or T, whose rules imply the rule of E: the earlier
    letter matches too, with the same confidence, and the strict
    comparison keeps it. *)
Theorem selector_never_K_R_U_N_S_T (landmarks : Landmarks) :
  Forall (fun g => fst (_recognize_gesture recognizer landmarks) <> Some g)
         [10; 17; 20; 13; 18; 19].
Proof.
  repeat apply Forall_cons; try apply Forall_nil.
  - apply shadowed_equal with 7;
      [lia | apply rule_K_implies_H | reflexivity].
  - apply shadowed_equal with 7;
      [lia | apply rule_R_implies_H | reflexivity].
  - apply shadowed_equal with 7;
      [lia | apply rule_U_implies_H | reflexivity].
  - apply shadowed_equal with 4;
      [lia | apply rule_N_implies_E | reflexivity].
  - apply shadowed_equal with 4;
      [lia | apply rule_S_implies_E | reflexivity].
  - apply shadowed_equal with 4;
      [lia | apply rule_T_implies_E | reflexivity].
Qed.

(** X2: the selector never returns C, whose rule implies the rule of B,
    nor G, L or P, whose rules imply the rule of D: the earlier letter
    matches too and is reinforced by 0.15, so that its confidence is not
    below. *)
Theorem selector_never_C_G_L_P (landmarks : Landmarks) :
  Forall (fun g => fst (_recognize_gesture recognizer landmarks) <> Some g)
         [2; 6; 11; 15].
Proof.
  repeat apply Forall_cons; try apply Forall_nil.
  - apply shadowed_reinforced with 1;
      [lia | apply rule_C_implies_B | apply reinforce_B_matched
      | apply reinforce_C_matched].
  - apply shadowed_reinforced with 3;
      [lia | apply rule_G_implies_D | apply reinforce_D_matched
      | intros _; left; reflexivity].
  - apply shadowed_reinforced with 3;
      [lia | apply rule_L_implies_D | apply reinforce_D_matched
      | intros H; right; now apply reinforce_L_matched].
  - apply shadowed_reinforced with 3;
      [lia | apply rule_P_implies_D | apply reinforce_D_matched
      | intros _; left; reflexivity].
Qed.

(** X3: when the test of the little finger returns, the selector never
    returns M (E or I matches before it); when the test of the index finger
    returns, it never returns X (D or E matches before it). *)
Theorem selector_never_M_nor_X (landmarks : Landmarks) :
  (raises (_is_finger_closed landmarks 4) = false ->
   fst (_recognize_gesture recognizer landmarks) <> Some 12) /\
  (raises (_is_finger_closed landmarks 1) = false ->
   fst (_recognize_gesture recognizer landmarks) <> Some 23).
Proof.
  split; intros Hf.
  - destruct (_is_finger_closed landmarks 4) as [[|]|e] eqn:H4;
      [| |discriminate].
    + apply shadowed_equal with 4; [lia | | reflexivity].
      intros H. table_entry H. rule_goal. unfold closed, opened in *.
      rewrite H4. prim_all. reflexivity.
    + apply shadowed_equal with 8; [lia | | reflexivity].
      intros H. table_entry H. rule_goal. unfold closed, opened in *.
      rewrite H4. prim_all. reflexivity.
  - destruct (_is_finger_closed landmarks 1) as [[|]|e] eqn:H1;
      [| |discriminate].
    + apply shadowed_equal with 4; [lia | | reflexivity].
      intros H. table_entry H. rule_goal. unfold closed, opened in *.
      rewrite H1. prim_all. reflexivity.
    + apply shadowed_reinforced with 3; [lia | | apply reinforce_D_matched
        | intros _; left; reflexivity].
      intros H. table_entry H. rule_goal. unfold closed, opened in *.
      rewrite H1. prim_all. reflexivity.
Qed.

(** * The values of the scorer *)

Lemma score_at_most (r : float) (k : nat) (b : bool) :
  r = 0.75%float \/ r = (0.75 + 0.15)%float \/ r = (0.75 - 0.3)%float ->
  k <= 26 ->
  (score r k b <=? 0.75 + 0.15 + 0.05)%float = true.
Proof.
  intros [-> | [-> | ->]] Hk; destruct b; each_count k.
Qed.

Lemma score_above_threshold (r : float) (k : nat) (b : bool) :
  r = 0.75%float \/ r = (0.75 + 0.15)%float \/ r = (0.75 - 0.3)%float ->
  k <= 26 ->
  (0.7 <? score r k b)%float = true ->
  k <= 2 /\ (r = 0.75%float -> k <= 1 /\ (k = 1 -> b = true)) /\
  r <> (0.75 - 0.3)%float.
Proof.
  intros [-> | [-> | ->]] Hk; destruct b;
    do 27 (destruct k as [|k];
           [ vm_compute; intros H; try discriminate H;
             repeat split; try lia; try discriminate;
             try (intros _; repeat split; try lia; discriminate) | ]);
    lia.
Qed.

Lemma confidence_as_score (landmarks : Landmarks) (g : nat) (c : float) :
  _get_gesture_confidence recognizer landmarks g = Ok c ->
  exists r b,
    reinforce landmarks g 0.75 = Ok r /\ centered landmarks = Ok b /\
    (r = 0.75%float \/ r = (0.75 + 0.15)%float \/ r = (0.75 - 0.3)%float) /\
    others_matching recognizer landmarks g <= 26 /\
    c = score r (others_matching recognizer landmarks g) b.
Proof.
  intros Hc. rewrite confidence_score in Hc.
  destruct (reinforce landmarks g 0.75) as [r|e] eqn:Hr; [|discriminate].
  destruct (centered landmarks) as [b|e]; [|discriminate].
  cbn [bind] in Hc. injection Hc as <-. exists r, b.
  repeat split; trivial.
  - now apply reinforce_values in Hr.
  - apply (others_matching_le recognizer).
Qed.

(** X4: the scorer of the recognizer never returns more than
    0.75 + 0.15 + 0.05 (0.95000000000000007): the upper bound 1.0 of the
    clamp is never reached. *)
Theorem confidence_at_most_095 (landmarks : Landmarks) (g : nat) (c : float) :
  _get_gesture_confidence recognizer landmarks g = Ok c ->
  (c <=? 0.95000000000000007)%float = true /\ (c <? 1)%float = true.
Proof.
  intros Hc.
  apply confidence_as_score in Hc as (r & b & _ & _ & Hr & Hk & ->).
  pose proof (score_at_most r _ b Hr Hk) as H.
  split; [exact H|].
  now apply leb_ltb_trans with (0.75 + 0.15 + 0.05)%float.
Qed.

(** X5: a letter is returned only when at most two other rules match the
    hand; a letter that is not reinforced tolerates one other matching
    rule, and then only with the wrist centred; B is never returned after
    its penalty of 0.3. *)
Theorem returned_letter_has_few_competitors (landmarks : Landmarks)
    (g : nat) (c : float) :
  _recognize_gesture recognizer landmarks = (Some g, c) ->
  others_matching recognizer landmarks g <= 2 /\
  total_matching recognizer landmarks <= 3 /\
  (reinforce landmarks g 0.75 = Ok 0.75%float ->
   others_matching recognizer landmarks g <= 1 /\
   (others_matching recognizer landmarks g = 1 ->
    centered landmarks = Ok true)) /\
  reinforce landmarks g 0.75 <> Ok (0.75 - 0.3)%float.
Proof.
  intros Hr. apply recognizer_best in Hr as (Hm & Hc & Hlt & _).
  apply matched_penalty in Hm.
  apply confidence_as_score in Hc as (r & b & Hre & Hb & Hr & Hk & ->).
  destruct (score_above_threshold r _ b Hr Hk Hlt) as (H2 & H1 & Hne).
  split; [exact H2|]. split; [lia|]. split.
  - intros Hre'. rewrite Hre in Hre'. injection Hre' as ->.
    destruct (H1 eq_refl) as [Hle Hcen]. split; [exact Hle|].
    intros Hone. rewrite Hb. now rewrite (Hcen Hone).
  - rewrite Hre. intros [= ->]. now apply Hne.
Qed.

Lemma lower_trans (a b c : float) : lower a b -> lower b c -> lower a c.
Proof.
  unfold lower. intros [Hab | [-> ->]] [Hbc | [Hb ->]].
  - left. now apply ltb_trans with b.
  - left. now rewrite Hb in Hab.
  - now left.
  - now right.
Qed.

Lemma score_step (r : float) (k : nat) (b : bool) :
  r = 0.75%float \/ r = (0.75 + 0.15)%float \/ r = (0.75 - 0.3)%float ->
  k < 26 -> lower (score r (S k) b) (score r k b).
Proof.
  unfold lower.
  intros [-> | [-> | ->]] Hk; destruct b;
    do 26 (destruct k as [|k];
           [ first [ left; vm_compute; reflexivity
                   | right; split; vm_compute; reflexivity ] | ]);
    lia.
Qed.

Lemma score_decreasing (r : float) (k1 k2 : nat) (b : bool) :
  r = 0.75%float \/ r = (0.75 + 0.15)%float \/ r = (0.75 - 0.3)%float ->
  k1 < k2 -> k2 <= 26 -> lower (score r k2 b) (score r k1 b).
Proof.
  intros Hr Hlt Hle. induction Hlt as [|k2 Hlt IH].
  - apply score_step; [assumption | lia].
  - apply lower_trans with (score r k2 b).
    + apply score_step; [assumption | lia].
    + apply IH. lia.
Qed.

(** X6: the ambiguity penalty.  Of two hands that give a letter the same
    reinforcement and the same centring, the one on which more other rules
    match gets the strictly lower confidence, unless both confidences have
    been clamped to 0. *)
Theorem more_competitors_lower_confidence (landmarks1 landmarks2 : Landmarks)
    (g : nat) (c1 c2 : float) :
  _get_gesture_confidence recognizer landmarks1 g = Ok c1 ->
  _get_gesture_confidence recognizer landmarks2 g = Ok c2 ->
  reinforce landmarks1 g 0.75 = reinforce landmarks2 g 0.75 ->
  centered landmarks1 = centered landmarks2 ->
  others_matching recognizer landmarks1 g
  < others_matching recognizer landmarks2 g ->
  (c2 <? c1)%float = true \/ (c2 = 0%float /\ c1 = 0%float).
Proof.
  intros H1 H2 Hre Hcen Hlt.
  apply confidence_as_score in H1 as (r1 & b1 & Hr1 & Hb1 & Hv1 & Hk1 & ->).
  apply confidence_as_score in H2 as (r2 & b2 & Hr2 & Hb2 & Hv2 & Hk2 & ->).
  rewrite Hre, Hr2 in Hr1. injection Hr1 as <-.
  rewrite Hcen, Hb2 in Hb1. injection Hb1 as <-.
  now apply score_decreasing.
Qed.

(** * The distance *)

Lemma binary_round_aux_sign (m : Z) (e : Z) (l : location) :
  binary_round_aux prec emax true m e l
  = SFopp (binary_round_aux prec emax false m e l).
Proof.
  unfold binary_round_aux.
  destruct (shr_fexp prec emax m e l) as [mrs' e'].
  destruct (shr_fexp prec emax _ e' loc_Exact) as [mrs'' e''].
  destruct (shr_m mrs''); try reflexivity.
  now destruct (Z.leb e'' _).
Qed.

Lemma binary_round_aux_not_negative (m : Z) (e : Z) (l : location) :
  SFltb (binary_round_aux prec emax false m e l) (S754_zero false) = false.
Proof.
  unfold binary_round_aux.
  destruct (shr_fexp prec emax m e l) as [mrs' e'].
  destruct (shr_fexp prec emax _ e' loc_Exact) as [mrs'' e''].
  destruct (shr_m mrs''); try reflexivity.
  now destruct (Z.leb e'' _).
Qed.

Lemma sqrt_not_negative (v : float) : (sqrt v <? 0)%float = false.
Proof.
  rewrite ltb_spec, sqrt_spec. change (Prim2SF 0) with (S754_zero false).
  unfold SF64sqrt, SFsqrt.
  destruct (Prim2SF v) as [[]|[]| |[] m e]; try reflexivity.
  destruct (SFsqrt_core_binary prec emax (Z.pos m) e) as [[mz ez] lz].
  apply binary_round_aux_not_negative.
Qed.

Lemma binary_normalize_opp (m e : Z) :
  binary_normalize prec emax (- m) e false
  = SFopp (binary_normalize prec emax m e false) \/
  (binary_normalize prec emax (- m) e false = S754_zero false /\
   binary_normalize prec emax m e false = S754_zero false).
Proof.
  destruct m as [|p|p]; cbn [Z.opp binary_normalize].
  - right. now split.
  - left. unfold binary_round.
    destruct (shl_align p e _) as [mz ez]. apply binary_round_aux_sign.
  - left. unfold binary_round.
    destruct (shl_align p e _) as [mz ez].
    rewrite binary_round_aux_sign.
    now destruct (binary_round_aux prec emax false (Z.pos mz) ez loc_Exact)
      as [[]|[]| |[] ? ?].
Qed.

Lemma SFsub_swap (a b : spec_float) :
  SF64sub b a = SFopp (SF64sub a b) \/
  (SF64sub b a = S754_zero false /\ SF64sub a b = S754_zero false).
Proof.
  unfold SF64sub, SFsub.
  destruct a as [sa|sa| |sa ma ea], b as [sb|sb| |sb mb eb];
    try (left; reflexivity);
    try (destruct sa, sb; (left; reflexivity) || (right; split; reflexivity)).
  replace (IntDef.Z.min eb ea) with (IntDef.Z.min ea eb)
    by (change (Z.min ea eb = Z.min eb ea); apply Z.min_comm).
  set (ez := IntDef.Z.min ea eb).
  set (A := cond_Zopp sa (Z.pos (fst (shl_align ma ea ez)))).
  set (B := cond_Zopp sb (Z.pos (fst (shl_align mb eb ez)))).
  replace (IntDef.Z.sub B A) with (- (IntDef.Z.sub A B))%Z
    by (change (- (A - B) = B - A)%Z; lia).
  apply binary_normalize_opp.
Qed.

Lemma sub_swap (a b : float) :
  (b - a)%float = (- (a - b))%float \/
  ((b - a)%float = 0%float /\ (a - b)%float = 0%float).
Proof.
  destruct (SFsub_swap (Prim2SF a) (Prim2SF b)) as [H | [H1 H2]].
  - left. apply Prim2SF_inj. now rewrite opp_spec, !sub_spec.
  - right. split; apply Prim2SF_inj; rewrite sub_spec; assumption.
Qed.

Lemma pow2_opp (v : float) : pow2 (- v) = pow2 v.
Proof.
  unfold pow2, is_nan, is_infinity, is_zero.
  assert (Habs : abs (- v) = abs v).
  { apply Prim2SF_inj. rewrite !abs_spec, opp_spec.
    now destruct (Prim2SF v) as [[]|[]| |[] m e]. }
  assert (Heq : (- v =? - v)%float = (v =? v)%float).
  { rewrite !FloatAxioms.eqb_spec, opp_spec. unfold SFeqb, SFcompare.
    destruct (Prim2SF v) as [[]|[]| |[] m e]; try reflexivity;
      cbn [SFopp negb];
      now rewrite Z.compare_refl, Pos.compare_cont_refl. }
  assert (Hzero : (- v =? zero)%float = (v =? zero)%float).
  { rewrite !FloatAxioms.eqb_spec, opp_spec.
    change (Prim2SF zero) with (S754_zero false).
    now destruct (Prim2SF v) as [[]|[]| |[] m e]. }
  assert (Hnan : (v =? v)%float = false -> (- v)%float = v).
  { intros H. apply Prim2SF_inj. rewrite opp_spec.
    rewrite FloatAxioms.eqb_spec in H. revert H. unfold SFeqb, SFcompare.
    destruct (Prim2SF v) as [[]|[]| |[] m e]; try discriminate;
      try reflexivity;
      now rewrite Z.compare_refl, Pos.compare_cont_refl. }
  rewrite Habs, Heq, Hzero.
  destruct (v =? v)%float eqn:Hv; cbn [negb]; [reflexivity|].
  now rewrite Hnan.
Qed.

Lemma pow2_sub_swap (a b : float) : pow2 (b - a) = pow2 (a - b).
Proof.
  destruct (sub_swap a b) as [-> | [-> ->]]; [apply pow2_opp | reflexivity].
Qed.

(** X7: the distance is symmetric, errors included. *)
Theorem distance_symmetric (landmark1 landmark2 : Landmark) :
  _get_distance landmark2 landmark1 = _get_distance landmark1 landmark2.
Proof.
  unfold _get_distance, attr.
  destruct landmark1 as [[x1|] [y1|] [z1|]], landmark2 as [[x2|] [y2|] [z2|]];
    cbn [x y z bind];
    rewrite ?(pow2_sub_swap x1 x2), ?(pow2_sub_swap y1 y2),
      ?(pow2_sub_swap z1 z2);
    try reflexivity;
    repeat match goal with
           | |- context [pow2 ?v] => destruct (pow2 v); cbn [bind]
           end; reflexivity.
Qed.

(** X8: a distance that is returned is never negative (it is a number not
    below 0, or NaN). *)
Theorem distance_not_negative (landmark1 landmark2 : Landmark) (d : float) :
  _get_distance landmark1 landmark2 = Ok d -> (d <? 0)%float = false.
Proof.
  unfold _get_distance. intros H.
  repeat match type of H with
         | bind ?m _ = _ => destruct m; cbn [bind] in H; [|discriminate H]
         end.
  injection H as <-. apply sqrt_not_negative.
Qed.

(** * The heuristic recognizer *)

Lemma classify_hand_outcome (hand_landmarks : Landmarks) (text : string)
    (c : float) :
  classify_hand hand_landmarks = Ok (text, c) ->
  In text ["A"; "B"; "C"]%string /\ c = 0.7%float.
Proof.
  unfold classify_hand. intros H.
  destruct (flatten_landmarks hand_landmarks); [|discriminate].
  destruct (coord hand_landmarks 8 y) as [i|]; [|discriminate].
  destruct (coord hand_landmarks 0 y) as [w|]; [|discriminate].
  destruct (coord hand_landmarks 12 y) as [m|]; [|discriminate].
  cbn [bind] in H.
  destruct (draw_landmarks hand_landmarks) as [[]|];
    [|destruct (mapping_item _ _); discriminate].
  destruct (i <? w - 0.1)%float; [|destruct (m <? w - 0.15)%float];
    cbn in H; injection H as <- <-; cbn; auto.
Qed.

Lemma flatten_well_formed (landmarks : Landmarks) :
  forallb has_coords landmarks = true ->
  exists flat, flatten_landmarks landmarks = Ok flat.
Proof.
  induction landmarks as [|p rest IH]; cbn [forallb flatten_landmarks].
  - eauto.
  - intros H. apply andb_prop in H as [Hp Hrest].
    destruct (IH Hrest) as [flat ->].
    destruct p as [[a|] [b|] [c|]]; try discriminate Hp.
    cbv [attr bind x y z]. eauto.
Qed.

Lemma flatten_missing (landmarks : Landmarks) :
  forallb has_coords landmarks = false ->
  raises (flatten_landmarks landmarks) = true.
Proof.
  induction landmarks as [|p rest IH]; cbn [forallb flatten_landmarks];
    [discriminate|].
  destruct p as [[a|] [b|] [c|]]; cbv [attr bind x y z has_coords];
    try reflexivity.
  cbn [andb]. intros H. specialize (IH H).
  now destruct (flatten_landmarks rest).
Qed.

Lemma classify_hand21 (hand_landmarks : Landmarks) :
  is_hand21 hand_landmarks = true ->
  draw_landmarks hand_landmarks = Ok tt ->
  exists text, classify_hand hand_landmarks = Ok (text, 0.7%float).
Proof.
  intros H Hd. unfold classify_hand. rewrite Hd.
  destruct (hand21_item _ 8 H) as (a8 & b8 & c8 & H8); [lia|].
  destruct (hand21_item _ 0 H) as (a0 & b0 & c0 & H0); [lia|].
  destruct (hand21_item _ 12 H) as (a12 & b12 & c12 & H12); [lia|].
  unfold is_hand21 in H. apply andb_prop in H as [_ H].
  destruct (flatten_well_formed _ H) as [flat ->].
  unfold coord, item. rewrite H8, H0, H12. cbv [bind attr point y].
  destruct (b8 <? b0 - 0.1)%float; [|destruct (b12 <? b0 - 0.15)%float];
    cbn; eauto.
Qed.

Lemma classify_hand_malformed (hand_landmarks : Landmarks) :
  length hand_landmarks < 13 \/ forallb has_coords hand_landmarks = false ->
  raises (classify_hand hand_landmarks) = true.
Proof.
  unfold classify_hand. intros [Hlen | Hmiss].
  - destruct (flatten_landmarks hand_landmarks); [|reflexivity].
    destruct (coord hand_landmarks 8 y); [|reflexivity].
    destruct (coord hand_landmarks 0 y); [|reflexivity].
    cbn [bind]. unfold coord, item.
    destruct (nth_error hand_landmarks 12) eqn:H12; [|reflexivity].
    assert (12 < length hand_landmarks)
      by (apply nth_error_Some; congruence). lia.
  - apply raises_bind. now apply flatten_missing.
Qed.

Lemma classify_hands_outcome (multi_hand_landmarks : list Landmarks)
    (current : string * float) (text : string) (c : float) :
  classify_hands multi_hand_landmarks current = Ok (text, c) ->
  (multi_hand_landmarks = [] /\ current = (text, c)) \/
  (multi_hand_landmarks <> [] /\
   In text ["A"; "B"; "C"]%string /\ c = 0.7%float).
Proof.
  revert current.
  induction multi_hand_landmarks as [|hand rest IH]; intros current H.
  - left. cbn in H. injection H as ->. now split.
  - right. split; [discriminate|]. cbn [classify_hands] in H.
    destruct (classify_hand hand) as [[t0 c0]|e] eqn:Hh; [|discriminate].
    cbn [bind] in H. apply IH in H as [[-> [= <- <-]] | (_ & H)].
    + now apply classify_hand_outcome in Hh.
    + exact H.
Qed.

(** The outcomes of [process_image] with MediaPipe available. *)
Lemma process_image_cases (contour_areas : list float)
    (random_index : nat) (multi_hand_landmarks : list Landmarks) :
  exists text c,
    process_image true contour_areas random_index multi_hand_landmarks
    = Ok (text, c) /\
    ((text = ""%string /\ c = 0.0%float) \/
     (In text ["A"; "B"; "C"]%string /\ c = 0.7%float)) /\
    (multi_hand_landmarks <> [] ->
     Forall (fun hand => is_hand21 hand = true /\
                         draw_landmarks hand = Ok tt) multi_hand_landmarks ->
     In text ["A"; "B"; "C"]%string /\ c = 0.7%float).
Proof.
  unfold process_image. cbn [negb].
  destruct (classify_hands multi_hand_landmarks (""%string, 0.0%float))
    as [[text c]|e] eqn:H; cbn [try_except].
  - exists text, c. split; [reflexivity|].
    apply classify_hands_outcome in H as [[-> [= <- <-]] | (Hne & H)].
    + split; [now left|]. now intros [].
    + split; [now right|]. now intros _ _.
  - exists ""%string, 0.0%float. split; [reflexivity|].
    split; [now left|]. intros _ Hall. exfalso.
    clear -H Hall. revert H. generalize (""%string, 0.0%float).
    induction Hall as [|hand rest [Hhand Hdraw] _ IH]; intros current H;
      [discriminate|].
    cbn [classify_hands] in H.
    destruct (classify_hand21 _ Hhand Hdraw) as [text Ht]. rewrite Ht in H.
    cbn [bind] in H. now apply IH in H.
Qed.

(** X9: with MediaPipe available, [process_image] answers the empty text
    with confidence 0.0, or one of the letters A, B, C with confidence 0.7,
    and nothing else; it never raises; and when every detected hand is a
    well-formed 21-landmark hand that MediaPipe draws (and there is one) it
    always answers a letter. *)
Theorem process_image_outcomes (contour_areas : list float)
    (random_index : nat) (multi_hand_landmarks : list Landmarks) :
  exists text c,
    process_image true contour_areas random_index multi_hand_landmarks
    = Ok (text, c) /\
    ((text = ""%string /\ c = 0.0%float) \/
     (In text ["A"; "B"; "C"]%string /\ c = 0.7%float)) /\
    (multi_hand_landmarks <> [] ->
     Forall (fun hand => is_hand21 hand = true /\
                         draw_landmarks hand = Ok tt) multi_hand_landmarks ->
     In text ["A"; "B"; "C"]%string /\ c = 0.7%float).
Proof. apply process_image_cases. Qed.

(** X10: a hand with fewer than 13 landmarks, or with a landmark without
    coordinates, anywhere among the detected hands makes [process_image]
    answer the empty text with confidence 0.0, whatever the other hands. *)
Theorem process_image_malformed_hand (contour_areas : list float)
    (random_index : nat) (multi_hand_landmarks : list Landmarks)
    (hand : Landmarks) :
  In hand multi_hand_landmarks ->
  length hand < 13 \/ forallb has_coords hand = false ->
  process_image true contour_areas random_index multi_hand_landmarks
  = Ok (""%string, 0.0%float).
Proof.
  intros Hin Hbad. unfold process_image. cbn [negb]. f_equal.
  assert (H : forall current,
             raises (classify_hands multi_hand_landmarks current) = true).
  { induction multi_hand_landmarks as [|h rest IH]; [destruct Hin|].
    intros current. cbn [classify_hands]. destruct Hin as [-> | Hin].
    - apply raises_bind. now apply classify_hand_malformed.
    - destruct (classify_hand h); [|reflexivity]. cbn [bind]. now apply IH. }
  specialize (H (""%string, 0.0%float)).
  now destruct (classify_hands multi_hand_landmarks _).
Qed.

(** * The frame route *)

Lemma fallback_outcome (contour_areas : list float) (random_index : nat)
    (text : string) (c : float) :
  _fallback_detection contour_areas random_index = Ok (text, c) ->
  c = 0.0%float \/ c = 0.5%float.
Proof.
  unfold _fallback_detection.
  destruct contour_areas as [|a others]; [intros [= <- <-]; now left|].
  destruct (_ <? 5000)%float; [intros [= <- <-]; now left|].
  destruct (mapping_item asl_mapping random_index); [|discriminate].
  cbn [bind]. intros [= <- <-]. now right.
Qed.

(** X11: what the fallback detector answers never reaches the response of
    the frame route: its confidence, 0.5, fails the strict test
    [confidence > 0.5]; whereas every letter [process_image] answers with
    MediaPipe available is added to the response, with confidence 0.7. *)
Theorem fallback_never_reported (recognizer_defined : bool)
    (contour_areas : list float) (random_index : nat)
    (multi_hand_landmarks : list Landmarks) :
  sign_language_entry recognizer_defined
    (process_image false contour_areas random_index multi_hand_landmarks)
  = None /\
  forall text c,
    process_image true contour_areas random_index multi_hand_landmarks
    = Ok (text, c) ->
    sign_language_entry true
      (process_image true contour_areas random_index multi_hand_landmarks)
    = if (text =? "")%string then None else Some (text, 0.7%float).
Proof.
  split.
  - unfold sign_language_entry, process_image. cbn [negb].
    destruct recognizer_defined; [|reflexivity].
    destruct (_fallback_detection contour_areas random_index)
      as [[text c]|e] eqn:H; [|reflexivity].
    cbn [bind try_except].
    apply fallback_outcome in H as [-> | ->];
      now rewrite andb_false_r.
  - intros text c H.
    destruct (process_image_cases contour_areas random_index
                multi_hand_landmarks) as (t & c' & H' & Hout & _).
    rewrite H in H'. injection H' as <- <-. rewrite H.
    unfold sign_language_entry. cbn [bind try_except].
    destruct Hout as [[-> ->] | [Hin ->]]; [reflexivity|].
    destruct Hin as [<- | [<- | [<- | []]]]; reflexivity.
Qed.

(** * The gestures of the database *)

Lemma find_app_found {A : Type} (f : A -> bool) (l l' : list A) (a : A) :
  find f l = Some a -> find f (l ++ l') = Some a.
Proof.
  induction l as [|b l IH]; cbn [find app]; [discriminate|].
  now destruct (f b).
Qed.

Lemma find_app_missing {A : Type} (f : A -> bool) (l l' : list A) :
  find f l = None -> find f (l ++ l') = find f l'.
Proof.
  induction l as [|b l IH]; cbn [find app]; [reflexivity|].
  now destruct (f b).
Qed.

Lemma add_default_keeps (db : Database.t) (gesture_data : string * string * Z)
    (n : string) (g : Gesture.t) :
  gesture_named db (Some n) = Some g ->
  gesture_named (add_default_gesture db gesture_data) (Some n) = Some g.
Proof.
  destruct gesture_data as [[n' d] level]. unfold add_default_gesture.
  destruct (gesture_named db (Some n')); [trivial|].
  cbn [gesture_named Database.gestures]. apply find_app_found.
Qed.

Lemma add_default_present (db : Database.t) (n d : string) (level : Z) :
  gesture_named (add_default_gesture db (n, d, level)) (Some n) <> None.
Proof.
  unfold add_default_gesture.
  destruct (gesture_named db (Some n)) eqn:H; [congruence|].
  cbn [gesture_named Database.gestures] in *.
  rewrite (find_app_missing _ _ _ H). cbn [find Gesture.name].
  now rewrite String.eqb_refl.
Qed.

Lemma fold_add_default_keeps (defaults : list (string * string * Z))
    (db : Database.t) (n : string) (g : Gesture.t) :
  gesture_named db (Some n) = Some g ->
  gesture_named (fold_left add_default_gesture defaults db) (Some n) = Some g.
Proof.
  revert db. induction defaults as [|e defaults IH]; intros db H; [exact H|].
  cbn [fold_left]. apply IH. now apply add_default_keeps.
Qed.

Lemma fold_add_default_present (defaults : list (string * string * Z))
    (db : Database.t) (n d : string) (level : Z) :
  In (n, d, level) defaults ->
  gesture_named (fold_left add_default_gesture defaults db) (Some n) <> None.
Proof.
  revert db. induction defaults as [|e defaults IH]; intros db Hin;
    [destruct Hin|].
  cbn [fold_left]. destruct Hin as [-> | Hin]; [|now apply IH].
  pose proof (add_default_present db n d level) as H.
  destruct (gesture_named (add_default_gesture db (n, d, level)) (Some n))
    as [g|] eqn:Hg; [|congruence].
  now rewrite (fold_add_default_keeps defaults _ n g Hg).
Qed.

Lemma fold_add_default_fixed (defaults : list (string * string * Z))
    (db : Database.t) :
  (forall n d level, In (n, d, level) defaults ->
     gesture_named db (Some n) <> None) ->
  fold_left add_default_gesture defaults db = db.
Proof.
  induction defaults as [|[[n d] level] defaults IH]; intros H;
    [reflexivity|].
  cbn [fold_left].
  assert (Hn : add_default_gesture db (n, d, level) = db).
  { unfold add_default_gesture.
    destruct (gesture_named db (Some n)) eqn:Hg; [reflexivity|].
    now destruct (H n d level (or_introl eq_refl)). }
  rewrite Hn. apply IH. intros n' d' level' Hin. apply (H n' d' level').
  now right.
Qed.

Lemma fold_add_default_tables (defaults : list (string * string * Z))
    (db : Database.t) :
  let db' := fold_left add_default_gesture defaults db in
  (exists added,
     Database.gestures db' = Database.gestures db ++ added /\
     Forall (fun g => In (Gesture.name g, Gesture.description g,
                          Gesture.difficulty_level g) defaults /\
                      gesture_named db (Some (Gesture.name g)) = None)
            added) /\
  Database.users db' = Database.users db /\
  Database.recognition_sessions db' = Database.recognition_sessions db /\
  Database.practice_progress db' = Database.practice_progress db.
Proof.
  revert db. induction defaults as [|[[n d] level] defaults IH]; intros db.
  - cbn. split; [|now repeat split]. exists []. now rewrite app_nil_r.
  - cbn [fold_left]. specialize (IH (add_default_gesture db (n, d, level))).
    cbv zeta in *. destruct IH as ((added & Hg & Hall) & Hu & Hs & Hp).
    unfold add_default_gesture in *.
    destruct (gesture_named db (Some n)) eqn:Hn.
    + split; [|now repeat split]. exists added. split; [exact Hg|].
      eapply Forall_impl; [|exact Hall]. cbn beta.
      intros g [Hin Hnone]. split; [now right | exact Hnone].
    + cbn [Database.gestures Database.users Database.recognition_sessions
             Database.practice_progress] in *.
      split; [|now repeat split].
      exists (Gesture.make (Database.next_gesture_id db) n d level :: added).
      split; [now rewrite Hg, <- app_assoc|].
      constructor.
      * cbn. split; [now left | exact Hn].
      * eapply Forall_impl; [|exact Hall]. cbn beta.
        intros g [Hin Hnone]. split; [now right|].
        cbn [gesture_named Database.gestures] in Hnone |- *.
        destruct (find _ (Database.gestures db)) eqn:Hf; [|reflexivity].
        now rewrite (find_app_found _ _ _ _ Hf) in Hnone.
Qed.


(** X12: [initialize_default_gestures] makes every one of the 26 default
    gestures findable by name, keeps the rows that were there (a gesture
    found by a name before is the gesture found after) and is idempotent:
    a second run changes nothing. *)
Theorem initialize_default_gestures_idempotent (db : Database.t) :
  (forall n d level, In (n, d, level) default_gestures ->
     gesture_named (initialize_default_gestures db) (Some n) <> None) /\
  (forall n g, gesture_named db (Some n) = Some g ->
     gesture_named (initialize_default_gestures db) (Some n) = Some g) /\
  initialize_default_gestures (initialize_default_gestures db)
  = initialize_default_gestures db.
Proof.
  unfold initialize_default_gestures. split; [|split].
  - intros n d level. apply fold_add_default_present.
  - intros n g. apply fold_add_default_keeps.
  - apply fold_add_default_fixed. intros n d level.
    apply fold_add_default_present.
Qed.

(** X13: [initialize_default_gestures] only appends gestures: the rows
    added carry the name, description and difficulty level of a default
    gesture whose name was not in the table, and the other tables are
    untouched. *)
Theorem initialize_default_gestures_appends (db : Database.t) :
  (exists added,
     Database.gestures (initialize_default_gestures db)
     = Database.gestures db ++ added /\
     Forall (fun g => In (Gesture.name g, Gesture.description g,
                          Gesture.difficulty_level g) default_gestures /\
                      gesture_named db (Some (Gesture.name g)) = None)
            added) /\
  Database.users (initialize_default_gestures db) = Database.users db /\
  Database.recognition_sessions (initialize_default_gestures db)
  = Database.recognition_sessions db /\
  Database.practice_progress (initialize_default_gestures db)
  = Database.practice_progress db.
Proof. apply (fold_add_default_tables default_gestures db). Qed.

(** * Saving a recognition *)

Lemma practise_key (success : bool) (p : PracticeProgress.t) :
  progress_key (practise success p) = progress_key p.
Proof. reflexivity. Qed.

Lemma same_progress_key (user gesture : Z) (p : PracticeProgress.t) :
  same_progress user gesture p = true <-> progress_key p = (user, gesture).
Proof.
  unfold same_progress, progress_key. rewrite andb_true_iff, !Z.eqb_eq.
  split; [intros [-> ->]; reflexivity | intros [= -> ->]; now split].
Qed.

Lemma update_first_keys (user gesture : Z) (success : bool)
    (rows : list PracticeProgress.t) :
  map progress_key (update_first user gesture success rows)
  = map progress_key rows.
Proof.
  induction rows as [|p rows IH]; [reflexivity|]. cbn [update_first].
  destruct (same_progress user gesture p); cbn [map]; [reflexivity|].
  now rewrite IH.
Qed.

Lemma find_none_key (user gesture : Z) (rows : list PracticeProgress.t) :
  find (same_progress user gesture) rows = None ->
  ~ In (user, gesture) (map progress_key rows).
Proof.
  intros H Hin. apply in_map_iff in Hin as (p & Hk & Hp).
  apply (find_none _ _ H) in Hp. apply same_progress_key in Hk. congruence.
Qed.

Lemma NoDup_snoc {A : Type} (l : list A) (a : A) :
  NoDup l -> ~ In a l -> NoDup (l ++ [a]).
Proof.
  induction 1 as [|b l Hb Hl IH]; cbn [app]; intros Ha.
  - constructor; [intros []|constructor].
  - constructor.
    + intros Hin. apply in_app_or in Hin as [Hin | [<- | []]]; [tauto|].
      apply Ha. now left.
    + apply IH. intros Hin. apply Ha. now right.
Qed.

(** The [practice_progress] table after a request: as before, or with the
    row of a user and gesture updated, or with a first row for them. *)
Lemma save_recognition_progress (db : Database.t) (session_user_id : option Z)
    (data : RequestBody) :
  let rows := Database.practice_progress db in
  let rows' :=
    Database.practice_progress
      (fst (save_recognition db session_user_id data)) in
  rows' = rows \/
  (exists user gesture success,
     rows' = update_first user gesture success rows) \/
  (exists user gesture (success : bool),
     find (same_progress user gesture) rows = None /\
     rows' = rows ++ [PracticeProgress.make (Database.next_progress_id db)
                        user gesture (if success then 10 else 5)%Z 1%Z]).
Proof.
  cbv zeta. unfold save_recognition.
  destruct data as [| | |d]; [now left | now left | now left |].
  destruct (gesture_named db (data_gesture_name d)) as [g|]; [|now left].
  destruct (negb (int32 _ && int32 _)); [now left|].
  destruct (negb (user_known db session_user_id)); [now left|].
  destruct (logged_in session_user_id) as [u|]; [|now left].
  unfold progress_of.
  destruct (find (same_progress u (Gesture.id g)) _) eqn:Hf; cbn [fst].
  - destruct (negb (int32 _ && int32 _)); [now left|].
    right. left. now exists u, (Gesture.id g), (data_success d).
  - destruct (negb (int32 _)); [now left|].
    right. right. now exists u, (Gesture.id g), (data_success d).
Qed.

Lemma update_first_range (user gesture : Z) (success : bool)
    (rows : list PracticeProgress.t) :
  Forall (fun p => (0 <= PracticeProgress.proficiency_level p <= 100)%Z) rows ->
  Forall (fun p => (0 <= PracticeProgress.proficiency_level p <= 100)%Z)
         (update_first user gesture success rows).
Proof.
  induction 1 as [|p rows Hp Hrows IH]; cbn [update_first];
    [constructor|].
  destruct (same_progress user gesture p); constructor; trivial.
  unfold practise. cbn [PracticeProgress.proficiency_level].
  destruct success; lia.
Qed.

(** X14: [save_recognition] keeps every proficiency level between 0 and
    100, whatever the request and its outcome. *)
Theorem save_recognition_proficiency_in_range (db : Database.t)
    (session_user_id : option Z) (data : RequestBody) :
  proficiency_in_range db ->
  proficiency_in_range (fst (save_recognition db session_user_id data)).
Proof.
  unfold proficiency_in_range. intros H.
  destruct (save_recognition_progress db session_user_id data)
    as [-> | [(u & g & s & ->) | (u & g & s & _ & ->)]].
  - exact H.
  - now apply update_first_range.
  - apply Forall_app. split; [exact H|]. constructor; [|constructor].
    cbn. destruct s; lia.
Qed.

(** X15: [save_recognition] keeps the rows of [practice_progress] unique
    by user and gesture: it adds a row only for a pair that has none. *)
Theorem save_recognition_progress_unique (db : Database.t)
    (session_user_id : option Z) (data : RequestBody) :
  progress_unique db ->
  progress_unique (fst (save_recognition db session_user_id data)).
Proof.
  unfold progress_unique. intros H.
  destruct (save_recognition_progress db session_user_id data)
    as [-> | [(u & g & s & ->) | (u & g & s & Hf & ->)]].
  - exact H.
  - now rewrite update_first_keys.
  - rewrite map_app. cbn [map]. apply NoDup_snoc; [exact H|].
    now apply find_none_key.
Qed.

Lemma find_update_first (user gesture : Z) (success : bool)
    (rows : list PracticeProgress.t) (p : PracticeProgress.t) :
  find (same_progress user gesture) rows = Some p ->
  find (same_progress user gesture) (update_first user gesture success rows)
  = Some (practise success p).
Proof.
  induction rows as [|q rows IH]; cbn [find update_first]; [discriminate|].
  destruct (same_progress user gesture q) eqn:Hq.
  - intros [= ->]. cbn [find].
    assert (H : same_progress user gesture (practise success p) = true)
      by exact Hq.
    now rewrite H.
  - intros H. cbn [find]. rewrite Hq. now apply IH.
Qed.

Lemma logged_in_some (user_id : Z) :
  user_id <> 0%Z -> logged_in (Some user_id) = Some user_id.
Proof.
  intros H. unfold logged_in. now destruct (Z.eqb_spec user_id 0).
Qed.

(** A request of a known user for a known gesture, with values that fit
    their columns: it is accepted. *)
Lemma save_recognition_accepted (db : Database.t) (user_id : Z)
    (d : RecognitionData) (n : string) (g : Gesture.t) :
  data_gesture_name d = Some n ->
  gesture_named db (Some n) = Some g ->
  user_id <> 0%Z -> user_known db (Some user_id) = true ->
  int32 (Database.next_session_id db) = true ->
  int32 (data_duration_ms d) = true ->
  progress_fits db (Some user_id) (Gesture.id g) (data_success d) = true ->
  let db' := fst (save_recognition db (Some user_id) (JsonObject d)) in
  snd (save_recognition db (Some user_id) (JsonObject d)) = 200 /\
  Database.gestures db' = Database.gestures db /\
  Database.users db' = Database.users db /\
  Database.next_session_id db' = (Database.next_session_id db + 1)%Z /\
  length (Database.recognition_sessions db')
  = S (length (Database.recognition_sessions db)) /\
  progress_of db' user_id (Gesture.id g)
  = Some match progress_of db user_id (Gesture.id g) with
         | Some p => practise (data_success d) p
         | None =>
             PracticeProgress.make (Database.next_progress_id db) user_id
               (Gesture.id g) (if data_success d then 10 else 5)%Z 1%Z
         end.
Proof.
  intros Hn Hg Hu Hk Hid Hdur Hfit. cbv zeta. unfold save_recognition.
  unfold progress_fits in Hfit. rewrite (logged_in_some _ Hu) in Hfit.
  rewrite Hn, Hg, Hid, Hdur, Hk, (logged_in_some _ Hu). cbn [negb andb].
  destruct (progress_of db user_id (Gesture.id g)) as [p|] eqn:Hp;
    rewrite Hfit; cbn [negb];
    cbn [fst snd Database.gestures Database.users
         Database.recognition_sessions Database.next_session_id];
    (split; [reflexivity|]); (split; [reflexivity|]);
    (split; [reflexivity|]); (split; [reflexivity|]);
    (split; [rewrite length_app; cbn [length]; lia|]);
    unfold progress_of in *; cbn [Database.practice_progress].
  - now apply find_update_first.
  - rewrite (find_app_missing _ _ _ Hp). cbn [find].
    unfold same_progress. cbn [PracticeProgress.user_id
      PracticeProgress.gesture_id]. now rewrite !Z.eqb_refl.
Qed.

Lemma int32_range (v : Z) :
  int32 v = true <-> (-2147483648 <= v <= 2147483647)%Z.
Proof. unfold int32. rewrite andb_true_iff, !Z.leb_le. tauto. Qed.

(** X16: practising a gesture.  After [k + 1] successful requests of a
    known user for a known gesture that had no progress row, the row of
    this user and gesture counts [k + 1] practices and a proficiency of
    [10 + 5 k], capped at 100, and [k + 1] sessions have been recorded;
    this for a duration that fits its INTEGER column and as long as the
    session ids, drawn from a positive counter, and the id of the new
    progress row fit theirs. *)
Theorem repeated_practice (db : Database.t) (user_id : Z)
    (d : RecognitionData) (n : string) (g : Gesture.t) (k : nat) :
  data_gesture_name d = Some n -> data_success d = true ->
  gesture_named db (Some n) = Some g ->
  user_id <> 0%Z -> user_known db (Some user_id) = true ->
  progress_of db user_id (Gesture.id g) = None ->
  int32 (data_duration_ms d) = true ->
  (0 < Database.next_session_id db)%Z ->
  int32 (Database.next_session_id db + Z.of_nat k) = true ->
  int32 (Database.next_progress_id db) = true ->
  let db' := save_successes (S k) user_id d db in
  exists p,
    progress_of db' user_id (Gesture.id g) = Some p /\
    PracticeProgress.times_practiced p = Z.of_nat (S k) /\
    PracticeProgress.proficiency_level p
    = Z.min 100 (10 + 5 * Z.of_nat k) /\
    length (Database.recognition_sessions db')
    = length (Database.recognition_sessions db) + S k.
Proof.
  intros Hn Hs Hg Hu Hk Hp Hdur Hpos Hids Hpid. cbv zeta.
  apply int32_range in Hids.
  assert (H : forall j, j <= k ->
              let db' := save_successes (S j) user_id d db in
              Database.gestures db' = Database.gestures db /\
              Database.users db' = Database.users db /\
              Database.next_session_id db'
              = (Database.next_session_id db + Z.of_nat (S j))%Z /\
              exists p,
                progress_of db' user_id (Gesture.id g) = Some p /\
                PracticeProgress.times_practiced p = Z.of_nat (S j) /\
                PracticeProgress.proficiency_level p
                = Z.min 100 (10 + 5 * Z.of_nat j) /\
                length (Database.recognition_sessions db')
                = length (Database.recognition_sessions db) + S j).
  { induction j as [|j IH]; intros Hj; cbv zeta.
    - cbn [save_successes].
      assert (Hid : int32 (Database.next_session_id db) = true)
        by (apply int32_range; lia).
      assert (Hfit : progress_fits db (Some user_id) (Gesture.id g)
                       (data_success d) = true).
      { unfold progress_fits. now rewrite (logged_in_some _ Hu), Hp. }
      destruct (save_recognition_accepted db user_id d n g Hn Hg Hu Hk
                  Hid Hdur Hfit) as (_ & Hgs & Hus & Hnext & Hlen & Hpr).
      rewrite Hp, Hs in Hpr. split; [exact Hgs|]. split; [exact Hus|].
      split; [rewrite Hnext; lia|].
      eexists. split; [exact Hpr|].
      cbn [PracticeProgress.times_practiced
           PracticeProgress.proficiency_level].
      repeat split; lia.
    - cbv zeta in IH.
      destruct (IH ltac:(lia)) as (Hgs & Hus & Hnext & p & Hpr & Ht & Hl & Hlen).
      change (save_successes (S (S j)) user_id d db)
        with (fst (save_recognition (save_successes (S j) user_id d db)
                     (Some user_id) (JsonObject d))).
      set (db1 := save_successes (S j) user_id d db) in *.
      assert (Hg1 : gesture_named db1 (Some n) = Some g).
      { unfold gesture_named in *. now rewrite Hgs. }
      assert (Hk1 : user_known db1 (Some user_id) = true).
      { unfold user_known in *. now rewrite Hus. }
      assert (Hid1 : int32 (Database.next_session_id db1) = true)
        by (apply int32_range; lia).
      assert (Hfit1 : progress_fits db1 (Some user_id) (Gesture.id g)
                        (data_success d) = true).
      { unfold progress_fits. rewrite (logged_in_some _ Hu), Hpr, Hs.
        cbn [practise PracticeProgress.times_practiced
             PracticeProgress.proficiency_level].
        apply andb_true_intro. split; apply int32_range; lia. }
      destruct (save_recognition_accepted db1 user_id d n g Hn Hg1 Hu Hk1
                  Hid1 Hdur Hfit1)
        as (_ & Hgs' & Hus' & Hnext' & Hlen' & Hpr').
      rewrite Hpr, Hs in Hpr'.
      split; [congruence|]. split; [congruence|].
      split; [rewrite Hnext', Hnext; lia|].
      eexists. split; [exact Hpr'|].
      cbn [practise PracticeProgress.times_practiced
           PracticeProgress.proficiency_level].
      repeat split; lia. }
  destruct (H k (le_n k)) as (_ & _ & _ & H'). exact H'.
Qed.

(** * From the recognizer to the database *)




End Libraries.

(** * Examples

    The theorems above at the sample hands, with a C library whose squares
    are correctly rounded ([rounded_square]) and a MediaPipe that draws the
    hands of 21 well-formed landmarks and refuses any other
    ([draw_hand21]); and the inputs on which statements of the
    specification fail. *)

(** ** The finger test *)

Lemma finger_closed_iff_ratio_witness :
  is_hand21 hand_I = true /\ 1 <= 1 <= 4 /\
  nth_error hand_I 5 = Some (point 0.55 0.6 0) /\
  nth_error hand_I 6 = Some (point 0.55 0.5 0) /\
  nth_error hand_I 7 = Some (point 0.55 0.58 0) /\
  _is_finger_closed rounded_square hand_I 1 = Ok true /\
  exists base mid tip,
    nth_error hand_I (1 * 4 + 1) = Some (landmark_at base) /\
    nth_error hand_I (1 * 4 + 2) = Some (landmark_at mid) /\
    nth_error hand_I (1 * 4 + 3) = Some (landmark_at tip) /\
    _get_distance rounded_square (landmark_at base) (landmark_at mid)
    = euclidean rounded_square base mid /\
    _get_distance rounded_square (landmark_at mid) (landmark_at tip)
    = euclidean rounded_square mid tip /\
    _get_distance rounded_square (landmark_at base) (landmark_at tip)
    = euclidean rounded_square base tip /\
    (forall base_to_mid mid_to_tip base_to_tip,
       euclidean rounded_square base mid = Ok base_to_mid ->
       euclidean rounded_square mid tip = Ok mid_to_tip ->
       euclidean rounded_square base tip = Ok base_to_tip ->
       _is_finger_closed rounded_square hand_I 1
         = Ok (base_to_tip <? 0.7 * (base_to_mid + mid_to_tip))%float /\
       ((base_to_tip =? 0.7 * (base_to_mid + mid_to_tip))%float = true ->
        _is_finger_closed rounded_square hand_I 1 = Ok false)) /\
    (raises (euclidean rounded_square base mid)
     || raises (euclidean rounded_square mid tip)
     || raises (euclidean rounded_square base tip) = true ->
     _is_finger_closed rounded_square hand_I 1 = Raise OverflowError).
Proof.
  split; [reflexivity|]. split; [lia|].
  split; [reflexivity|]. split; [reflexivity|]. split; [reflexivity|].
  split; [vm_compute; reflexivity|].
  apply (finger_closed_iff_ratio rounded_square hand_I 1);
    [reflexivity | lia].
Defined.

(** C3, as stated, fails on [hand_far], a hand of 21 well-formed landmarks
    whose landmark 6 lies at x = 1e200: the tip of the index finger is
    0.02 away from its base, far less than 0.7 times the way through
    landmark 6, but the square of the x-distance from landmark 5 to
    landmark 6 is not a finite float, [_get_distance] raises
    [OverflowError], and the test of the index finger raises it too: it
    answers neither true nor false. *)
Lemma finger_closed_overflows :
  is_hand21 hand_far = true /\
  nth_error hand_far 5 = Some (point 0.55 0.6 0) /\
  nth_error hand_far 6 = Some (point 1e200 0.5 0) /\
  nth_error hand_far 7 = Some (point 0.55 0.58 0) /\
  (exists base_to_tip,
     _get_distance rounded_square (point 0.55 0.6 0) (point 0.55 0.58 0)
     = Ok base_to_tip /\
     (base_to_tip <? 0.03)%float = true) /\
  pow2 rounded_square (0.55 - 1e200) = Raise OverflowError /\
  _get_distance rounded_square (point 0.55 0.6 0) (point 1e200 0.5 0)
  = Raise OverflowError /\
  _is_finger_closed rounded_square hand_far 1 = Raise OverflowError /\
  (forall answer : bool,
     _is_finger_closed rounded_square hand_far 1 <> Ok answer).
Proof.
  split; [reflexivity|]. split; [reflexivity|]. split; [reflexivity|].
  split; [reflexivity|].
  split; [eexists; split; vm_compute; reflexivity|].
  split; [vm_compute; reflexivity|]. split; [vm_compute; reflexivity|].
  split; [vm_compute; reflexivity|].
  intros answer H. vm_compute in H. discriminate H.
Qed.

(** C6, as stated, fails on the hand with every landmark at (0.5, 0.5, 0):
    the index finger is not reported closed and the rule of E (id 4) does
    not match. *)
Lemma degenerate_hand_not_all_closed :
  is_hand21 (degenerate_hand 0.5 0.5 0) = true /\
  _is_finger_closed rounded_square (degenerate_hand 0.5 0.5 0) 1
  = Ok false /\
  rule_matches (recognizer rounded_square) (degenerate_hand 0.5 0.5 0) 4
  = false /\
  ~ ((forall finger_idx, finger_idx <= 4 ->
        _is_finger_closed rounded_square (degenerate_hand 0.5 0.5 0)
          finger_idx = Ok true) /\
     rule_matches (recognizer rounded_square) (degenerate_hand 0.5 0.5 0) 4
     = true).
Proof.
  split; [reflexivity|]. split; [vm_compute; reflexivity|].
  split; [vm_compute; reflexivity|].
  intros [H _]. specialize (H 1 ltac:(lia)). vm_compute in H. discriminate.
Qed.

(** ** The confidence scorer *)

Lemma confidence_refines_spec_witness :
  (is_hand21 hand_I = true /\
   rule_matches (recognizer rounded_square) hand_I 8 = true /\
   others_matching (recognizer rounded_square) hand_I 8 = 1 /\
   wrist_centered hand_I = true /\
   spec_confidence rounded_square (recognizer rounded_square) hand_I 8
   = 0.70000000000000007%float /\
   _get_gesture_confidence rounded_square (recognizer rounded_square)
     hand_I 8
   = Ok 0.70000000000000007%float) /\
  (is_hand21 hand_fist = true /\
   (forall finger_idx, 1 <= finger_idx <= 4 ->
      raises (_is_finger_closed rounded_square hand_fist finger_idx)
      = false) /\
   rule_matches (recognizer rounded_square) hand_fist 1 = false /\
   others_matching (recognizer rounded_square) hand_fist 1 = 6 /\
   wrist_centered hand_fist = true /\
   (0.75 - 0.3 - 0.1 - 0.1 - 0.1 - 0.1 - 0.1 - 0.1 + 0.05 <? 0)%float
   = true /\
   spec_confidence rounded_square (recognizer rounded_square) hand_fist 1
   = 0%float /\
   _get_gesture_confidence rounded_square (recognizer rounded_square)
     hand_fist 1
   = Ok 0%float).
Proof.
  assert (Hfist : forall finger_idx, 1 <= finger_idx <= 4 ->
            raises (_is_finger_closed rounded_square hand_fist finger_idx)
            = false).
  { intros finger_idx Hi.
    assert (Hcases : finger_idx = 1 \/ finger_idx = 2 \/ finger_idx = 3 \/
                     finger_idx = 4) by lia.
    destruct Hcases as [-> | [-> | [-> | ->]]]; vm_compute; reflexivity. }
  split.
  - split; [reflexivity|]. split; [vm_compute; reflexivity|].
    split; [vm_compute; reflexivity|]. split; [vm_compute; reflexivity|].
    split; [vm_compute; reflexivity|].
    transitivity
      (Ok (spec_confidence rounded_square (recognizer rounded_square)
             hand_I 8)).
    + apply (confidence_refines_spec rounded_square hand_I 8);
        [reflexivity|]. left. vm_compute. reflexivity.
    + vm_compute. reflexivity.
  - split; [reflexivity|]. split; [exact Hfist|].
    split; [vm_compute; reflexivity|]. split; [vm_compute; reflexivity|].
    split; [vm_compute; reflexivity|]. split; [vm_compute; reflexivity|].
    split; [vm_compute; reflexivity|].
    transitivity
      (Ok (spec_confidence rounded_square (recognizer rounded_square)
             hand_fist 1)).
    + apply (confidence_refines_spec rounded_square hand_fist 1);
        [reflexivity|]. right. split; [reflexivity | exact Hfist].
    + vm_compute. reflexivity.
Defined.

Lemma confidence_in_unit_interval_witness :
  is_hand21 hand_extreme = true /\
  rule_matches (recognizer rounded_square) hand_extreme 1 = true /\
  exists c,
    _get_gesture_confidence rounded_square (recognizer rounded_square)
      hand_extreme 1 = Ok c /\
    (0 <=? c)%float = true /\ (c <=? 1)%float = true.
Proof.
  split; [reflexivity|]. split; [vm_compute; reflexivity|].
  apply (confidence_in_unit_interval rounded_square hand_extreme 1);
    [reflexivity | vm_compute; reflexivity].
Defined.

(** On a letter whose rule did not match the scorer may raise: the check
    of C squares a coordinate difference of 2e200. *)
Lemma scorer_overflow_on_unmatched_letter :
  is_hand21 hand_huge = true /\
  rule_matches (recognizer rounded_square) hand_huge 2 = false /\
  _get_gesture_confidence rounded_square (recognizer rounded_square)
    hand_huge 2 = Raise OverflowError /\
  _recognize_gesture rounded_square (recognizer rounded_square) hand_huge
  = (Some 8, 0.70000000000000007%float).
Proof.
  repeat split; vm_compute; reflexivity.
Qed.

(** ** The selector *)

Lemma selector_first_best_above_threshold_witness :
  is_hand21 hand_I = true /\
  _recognize_gesture rounded_square (recognizer rounded_square) hand_I
  = (Some 8, 0.70000000000000007%float) /\
  (rule_matches (recognizer rounded_square) hand_I 8 = true /\
   _get_gesture_confidence rounded_square (recognizer rounded_square)
     hand_I 8
   = Ok 0.70000000000000007%float /\
   (0.7 <? 0.70000000000000007)%float = true /\
   forall g' c',
     rule_matches (recognizer rounded_square) hand_I g' = true ->
     _get_gesture_confidence rounded_square (recognizer rounded_square)
       hand_I g' = Ok c' ->
     (c' <=? 0.70000000000000007)%float = true /\
     (g' < 8 -> (c' <? 0.70000000000000007)%float = true)).
Proof.
  split; [reflexivity|]. split; [vm_compute; reflexivity|].
  destruct (selector_first_best_above_threshold rounded_square hand_I
              eq_refl) as (_ & _ & _ & H & _).
  apply H. vm_compute. reflexivity.
Defined.

Lemma selector_never_J_nor_Z_witness :
  is_hand21 hand_I = true /\
  rule_matches (recognizer rounded_square) hand_I 9 = true /\
  fst (_recognize_gesture rounded_square (recognizer rounded_square) hand_I)
  <> Some 9.
Proof.
  split; [reflexivity|]. split; [vm_compute; reflexivity|].
  apply (selector_never_J_nor_Z rounded_square hand_I eq_refl).
Defined.

(** ** The order of the table *)

(** C7, as stated, fails on [hand_I]: I and J match with the same
    confidence; with J before I in the table the selector returns J. *)
Lemma permuted_order_changes_letter :
  Permutation (rules (recognizer_J_first rounded_square))
              (rules (recognizer rounded_square)) /\
  is_hand21 hand_I = true /\
  _recognize_gesture rounded_square (recognizer rounded_square) hand_I
  = (Some 8, 0.70000000000000007%float) /\
  _recognize_gesture rounded_square (recognizer_J_first rounded_square)
    hand_I
  = (Some 9, 0.70000000000000007%float) /\
  fst (_recognize_gesture rounded_square (recognizer_J_first rounded_square)
         hand_I)
  <> fst (_recognize_gesture rounded_square (recognizer rounded_square)
            hand_I).
Proof.
  split; [apply swap_I_J_perm|].
  split; [reflexivity|].
  split; [vm_compute; reflexivity|].
  split; [vm_compute; reflexivity|].
  vm_compute. discriminate.
Qed.

Lemma permuted_order_same_confidence_witness :
  Permutation (rules (recognizer_J_first rounded_square))
              (rules (recognizer rounded_square)) /\
  map fst (rules (recognizer_J_first rounded_square))
  = [0; 1; 2; 3; 4; 5; 6; 7; 9; 8; 10; 11; 12; 13; 14; 15; 16; 17; 18; 19;
     20; 21; 22; 23; 24; 25] /\
  _recognize_gesture rounded_square (recognizer_J_first rounded_square)
    hand_I
  = (Some 9, 0.70000000000000007%float) /\
  snd (_recognize_gesture rounded_square (recognizer_J_first rounded_square)
         hand_I)
  = snd (_recognize_gesture rounded_square (recognizer rounded_square)
           hand_I) /\
  (rule_matches (recognizer rounded_square) hand_I 9 = true /\
   _get_gesture_confidence rounded_square (recognizer rounded_square)
     hand_I 9
   = Ok 0.70000000000000007%float) /\
  exists before rule_func after,
    rules (recognizer_J_first rounded_square)
    = before ++ (9, rule_func) :: after /\
    (forall g c', In g (map fst before) ->
       rule_matches (recognizer rounded_square) hand_I g = true ->
       _get_gesture_confidence rounded_square (recognizer rounded_square)
         hand_I g = Ok c' ->
       (c' <? 0.70000000000000007)%float = true) /\
    (forall g c', In g (map fst after) ->
       rule_matches (recognizer rounded_square) hand_I g = true ->
       _get_gesture_confidence rounded_square (recognizer rounded_square)
         hand_I g = Ok c' ->
       (c' <=? 0.70000000000000007)%float = true).
Proof.
  assert (HJ : _recognize_gesture rounded_square
                 (recognizer_J_first rounded_square) hand_I
               = (Some 9, 0.70000000000000007%float))
    by (vm_compute; reflexivity).
  destruct (permuted_order_same_confidence rounded_square
              (recognizer_J_first rounded_square) hand_I
              (swap_I_J_perm _)) as (H1 & _ & H3 & _ & H5).
  split; [apply swap_I_J_perm|]. split; [reflexivity|].
  split; [exact HJ|]. split; [exact H1|].
  split; [exact (H3 9 _ HJ) | exact (H5 9 _ HJ)].
Defined.

(** ** Malformed inputs *)

(** C8, as stated, fails on 20 landmarks and on a hand with a point
    without coordinates: neither is a well-formed 21-landmark hand, and the
    selector returns I on both. *)
Lemma malformed_hand_still_recognised :
  length hand_20 = 20 /\
  is_hand21 hand_20 = false /\
  _recognize_gesture rounded_square (recognizer rounded_square) hand_20
  = (Some 8, 0.70000000000000007%float) /\
  is_hand21 hand_blank_tip = false /\
  _recognize_gesture rounded_square (recognizer rounded_square)
    hand_blank_tip
  = (Some 8, 0.70000000000000007%float) /\
  _recognize_gesture rounded_square (recognizer rounded_square) hand_20
  <> (None, 0%float).
Proof.
  split; [reflexivity|]. split; [reflexivity|].
  split; [vm_compute; reflexivity|]. split; [reflexivity|].
  split; [vm_compute; reflexivity|]. vm_compute. discriminate.
Qed.

Lemma rule_errors_are_isolated_witness :
  length hand_4 < 8 /\
  Forall (fun entry : nat * Rule => raises (snd entry hand_4) = true)
         (rules (recognizer rounded_square)) /\
  _recognize_gesture rounded_square (recognizer rounded_square) hand_4
  = (None, 0%float).
Proof.
  split; [cbn; lia|].
  apply (rule_errors_are_isolated rounded_square hand_4). cbn; lia.
Defined.

(** [process_frame] on a well-formed hand, and on the 20 landmarks the
    selector alone would classify: MediaPipe refuses to draw them. *)
Lemma process_frame_examples :
  (exists landmarks_list,
     process_frame rounded_square draw_hand21 (recognizer rounded_square)
       [hand_I]
     = Ok (mkResponse true true (Some "I"%string)
             0.70000000000000007%float (Some landmarks_list)) /\
     length landmarks_list = 21) /\
  process_frame rounded_square draw_hand21 (recognizer rounded_square)
    [hand_20]
  = Raise ValueError /\
  process_frame rounded_square (fun _ => Ok tt) (recognizer rounded_square)
    [hand_blank_tip]
  = Raise AttributeError.
Proof.
  split; [|split; vm_compute; reflexivity].
  eexists. split; [vm_compute; reflexivity | reflexivity].
Qed.

(** ** Letters the selector cannot return *)

Lemma selector_never_M_nor_X_witness :
  (raises (_is_finger_closed rounded_square hand_M 4) = false /\
   rule_matches (recognizer rounded_square) hand_M 12 = true /\
   rule_matches (recognizer rounded_square) hand_M 4 = true /\
   _get_gesture_confidence rounded_square (recognizer rounded_square)
     hand_M 12
   = Ok 0.70000000000000007%float /\
   _recognize_gesture rounded_square (recognizer rounded_square) hand_M
   = (Some 4, 0.70000000000000007%float) /\
   fst (_recognize_gesture rounded_square (recognizer rounded_square)
          hand_M) <> Some 12) /\
  (raises (_is_finger_closed rounded_square hand_X 1) = false /\
   rule_matches (recognizer rounded_square) hand_X 23 = true /\
   rule_matches (recognizer rounded_square) hand_X 4 = true /\
   _get_gesture_confidence rounded_square (recognizer rounded_square)
     hand_X 23
   = Ok 0.70000000000000007%float /\
   _recognize_gesture rounded_square (recognizer rounded_square) hand_X
   = (Some 4, 0.70000000000000007%float) /\
   fst (_recognize_gesture rounded_square (recognizer rounded_square)
          hand_X) <> Some 23).
Proof.
  split.
  - do 5 (split; [vm_compute; reflexivity|]).
    apply (selector_never_M_nor_X rounded_square hand_M).
    vm_compute. reflexivity.
  - do 5 (split; [vm_compute; reflexivity|]).
    apply (selector_never_M_nor_X rounded_square hand_X).
    vm_compute. reflexivity.
Defined.

(** ** The values of the scorer *)

Lemma confidence_at_most_095_witness :
  _get_gesture_confidence rounded_square (recognizer rounded_square)
    hand_extreme 1
  = Ok 0.90000000000000002%float /\
  (0.90000000000000002 <=? 0.95000000000000007)%float = true /\
  (0.90000000000000002 <? 1)%float = true.
Proof.
  split; [vm_compute; reflexivity|].
  apply (confidence_at_most_095 rounded_square hand_extreme 1).
  vm_compute. reflexivity.
Defined.

Lemma returned_letter_has_few_competitors_witness :
  _recognize_gesture rounded_square (recognizer rounded_square) hand_I
  = (Some 8, 0.70000000000000007%float) /\
  others_matching (recognizer rounded_square) hand_I 8 <= 2 /\
  total_matching (recognizer rounded_square) hand_I <= 3.
Proof.
  split; [vm_compute; reflexivity|].
  destruct (returned_letter_has_few_competitors rounded_square hand_I 8
              0.70000000000000007%float) as (H1 & H2 & _).
  - vm_compute. reflexivity.
  - split; assumption.
Defined.

Lemma more_competitors_lower_confidence_witness :
  _get_gesture_confidence rounded_square (recognizer rounded_square)
    hand_I 8
  = Ok 0.70000000000000007%float /\
  _get_gesture_confidence rounded_square (recognizer rounded_square)
    hand_thumb_down 8
  = Ok 0.60000000000000009%float /\
  others_matching (recognizer rounded_square) hand_I 8 = 1 /\
  others_matching (recognizer rounded_square) hand_thumb_down 8 = 2 /\
  ((0.60000000000000009 <? 0.70000000000000007)%float = true \/
   (0.60000000000000009%float = 0%float /\
    0.70000000000000007%float = 0%float)).
Proof.
  split; [vm_compute; reflexivity|]. split; [vm_compute; reflexivity|].
  split; [vm_compute; reflexivity|]. split; [vm_compute; reflexivity|].
  apply (more_competitors_lower_confidence rounded_square hand_I
           hand_thumb_down 8).
  - vm_compute. reflexivity.
  - vm_compute. reflexivity.
  - vm_compute. reflexivity.
  - vm_compute. reflexivity.
  - vm_compute. lia.
Defined.

(** ** The distance *)

Lemma distance_not_negative_witness :
  exists d,
    _get_distance rounded_square (point 0.7 0.5 0) (point 0.55 0.6 0)
    = Ok d /\
    (d <? 0)%float = false.
Proof.
  eexists. split; [vm_compute; reflexivity|].
  apply (distance_not_negative rounded_square
           (point 0.7 0.5 0) (point 0.55 0.6 0)).
  vm_compute. reflexivity.
Defined.

(** ** The heuristic recognizer *)

Lemma process_image_malformed_hand_witness :
  In hand_4 [hand_I; hand_4; hand_I] /\
  length hand_4 < 13 /\
  process_image draw_hand21 true [] 0 [hand_I; hand_4; hand_I]
  = Ok (""%string, 0.0%float).
Proof.
  split; [cbn; auto|]. split; [cbn; lia|].
  apply (process_image_malformed_hand draw_hand21 [] 0
           [hand_I; hand_4; hand_I] hand_4).
  - cbn. auto.
  - left. cbn. lia.
Defined.

(** With a MediaPipe that draws every hand of 21 well-formed landmarks,
    [process_image] answers a letter whenever every detected hand is one
    (and there is one). *)
Lemma process_image_well_formed_hands (contour_areas : list float)
    (random_index : nat) (multi_hand_landmarks : list Landmarks) :
  multi_hand_landmarks <> [] ->
  Forall (fun hand => is_hand21 hand = true) multi_hand_landmarks ->
  exists text,
    process_image draw_hand21 true contour_areas random_index
      multi_hand_landmarks
    = Ok (text, 0.7%float) /\
    In text ["A"; "B"; "C"]%string.
Proof.
  intros Hne Hall.
  destruct (process_image_cases draw_hand21 contour_areas random_index
              multi_hand_landmarks) as (text & c & H & _ & Hletter).
  destruct Hletter as [Hin ->]; [exact Hne | | now exists text].
  eapply Forall_impl; [|exact Hall]. cbn beta. intros hand Hhand.
  split; [exact Hhand|]. unfold draw_hand21. now rewrite Hhand.
Qed.

(** [process_image] on a well-formed hand, and on 20 landmarks, which the
    heuristic alone would classify: MediaPipe refuses to draw them and the
    answer is the empty text. *)
Lemma process_image_examples :
  process_image draw_hand21 true [] 0 [hand_I]
  = Ok ("C"%string, 0.7%float) /\
  classify_hand (fun _ => Ok tt) hand_20 = Ok ("C"%string, 0.7%float) /\
  process_image draw_hand21 true [] 0 [hand_20] = Ok (""%string, 0.0%float).
Proof. repeat split; vm_compute; reflexivity. Qed.

(** ** Saving a recognition *)

Lemma save_recognition_proficiency_in_range_witness :
  proficiency_in_range sample_db /\
  proficiency_in_range
    (fst (save_recognition sample_db (Some 1%Z)
            (JsonObject (sample_data "A")))) /\
  map PracticeProgress.proficiency_level
      (Database.practice_progress
         (fst (save_recognition sample_db (Some 1%Z)
                 (JsonObject (sample_data "A"))))) = [100%Z].
Proof.
  assert (H : proficiency_in_range sample_db).
  { unfold proficiency_in_range.
    change (Database.practice_progress sample_db)
      with [PracticeProgress.make 1 1 1 98 7]%Z.
    constructor; [cbn; lia | constructor]. }
  split; [exact H|]. split; [|vm_compute; reflexivity].
  now apply (save_recognition_proficiency_in_range sample_db).
Defined.

Lemma save_recognition_progress_unique_witness :
  progress_unique sample_db /\
  progress_unique
    (fst (save_recognition sample_db (Some 1%Z)
            (JsonObject (sample_data "B")))) /\
  map progress_key
      (Database.practice_progress
         (fst (save_recognition sample_db (Some 1%Z)
                 (JsonObject (sample_data "B"))))) = [(1, 1); (1, 2)]%Z.
Proof.
  assert (H : progress_unique sample_db).
  { unfold progress_unique.
    change (Database.practice_progress sample_db)
      with [PracticeProgress.make 1 1 1 98 7]%Z.
    constructor; [intros [] | constructor]. }
  split; [exact H|]. split; [|vm_compute; reflexivity].
  now apply (save_recognition_progress_unique sample_db).
Defined.

Lemma repeated_practice_witness :
  int32 (data_duration_ms (sample_data "B")) = true /\
  (0 < Database.next_session_id sample_db)%Z /\
  int32 (Database.next_session_id sample_db + Z.of_nat 19) = true /\
  int32 (Database.next_progress_id sample_db) = true /\
  exists p,
    progress_of (save_successes 20 1%Z (sample_data "B") sample_db) 1%Z 2%Z
    = Some p /\
    PracticeProgress.times_practiced p = 20%Z /\
    PracticeProgress.proficiency_level p = 100%Z.
Proof.
  assert (Hg : gesture_named sample_db (Some "B"%string)
               = Some (Gesture.make 2 "B"
                         "Letter B - All fingers extended and together" 1)%Z)
    by (vm_compute; reflexivity).
  assert (Hk : user_known sample_db (Some 1%Z) = true)
    by (vm_compute; reflexivity).
  assert (Hp : progress_of sample_db 1%Z 2%Z = None)
    by (vm_compute; reflexivity).
  assert (Hdur : int32 (data_duration_ms (sample_data "B")) = true)
    by (vm_compute; reflexivity).
  assert (Hpos : (0 < Database.next_session_id sample_db)%Z)
    by (vm_compute; reflexivity).
  assert (Hids : int32 (Database.next_session_id sample_db + Z.of_nat 19)
                 = true)
    by (vm_compute; reflexivity).
  assert (Hpid : int32 (Database.next_progress_id sample_db) = true)
    by (vm_compute; reflexivity).
  split; [exact Hdur|]. split; [exact Hpos|]. split; [exact Hids|].
  split; [exact Hpid|].
  destruct (repeated_practice sample_db 1%Z (sample_data "B") "B"%string
              _ 19 eq_refl eq_refl Hg ltac:(discriminate) Hk Hp
              Hdur Hpos Hids Hpid)
    as (p & Hp' & Ht & Hl & _).
  exists p. split; [exact Hp'|]. split; [exact Ht | exact Hl].
Defined.

(** A duration of 2^70 ms does not fit its column, a request without a
    JSON document makes [get_json] raise: both are answered 500 and leave
    the database as it was; an empty object is answered 400. *)
Lemma save_recognition_refused :
  save_recognition sample_db (Some 1%Z)
    (JsonObject (mkRecognitionData (Some "B"%string) 0.9%float
                   (2 ^ 70)%Z true))
  = (sample_db, 500) /\
  save_recognition sample_db (Some 1%Z) NoJson = (sample_db, 500) /\
  save_recognition sample_db (Some 1%Z) JsonOther = (sample_db, 500) /\
  save_recognition sample_db (Some 1%Z) EmptyJson = (sample_db, 400).
Proof. repeat split; vm_compute; reflexivity. Qed.

(** ** From the recognizer to the database *)

